(** * The moderation, sanction and notification core of the community forum

    A shallow embedding of [community/models.py], [community/admin_forms.py],
    [community/forms.py], [community/decorators.py],
    [community/utils/helpers.py], [community/search_indexes.py] and of the
    views of [community/views.py] that delete content, ban users, toggle
    likes and follows and create notifications; further on, of the views
    that pin posts and read notifications, of the bulk actions of
    [community/admin.py], of [community/context_processors.py], of the
    database method of [community/consumers.py], of the content check of
    [community/utils/validators.py] and of the rate limit of
    [community/middleware.py].

    Conventions.
    - A Python [str] is the list of its Unicode code points ([text]); the
      non-ASCII literals of the source are written out as code points.
    - A [datetime] is a number of microseconds ([Z]); a [timedelta] too.
    - A foreign key holds the primary key of the row it points to; model
      instances compare by primary key, as Django's [Model.__eq__] does.
    - A view is a computation in a state-and-exception monad over the
      [World]: the database tables, the cache, the channel layer's log and
      the flash messages. *)

From stdpp Require Import base gmap list strings pretty.

Local Open Scope Z_scope.

(** ** Text *)

Abbreviation text := (list N).

(** An ASCII literal of the source. *)
Definition lit (s : string) : text :=
  Ascii.N_of_ascii <$> String.list_ascii_of_string s.

(** [str(n)] for an integer. *)
Definition str (n : Z) : text := lit (pretty n).

(** The code points for which [str.isspace] holds; [str.strip] removes
    them from both ends. *)
Definition whitespace : list N :=
  [9; 10; 11; 12; 13; 28; 29; 30; 31; 32; 133; 160; 5760; 8192; 8193; 8194;
   8195; 8196; 8197; 8198; 8199; 8200; 8201; 8202; 8232; 8233; 8239; 8287;
   12288]%N.

Definition isspace (c : N) : bool := existsb (N.eqb c) whitespace.

Fixpoint lstrip (s : text) : text :=
  match s with
  | c :: s' => if isspace c then lstrip s' else s
  | [] => []
  end.

Definition rstrip (s : text) : text := rev (lstrip (rev s)).

Definition strip (s : text) : text := rstrip (lstrip s).

Fixpoint startswith (s p : text) {struct p} : bool :=
  match p, s with
  | [], _ => true
  | c :: p', d :: s' => N.eqb c d && startswith s' p'
  | _ :: _, [] => false
  end.

(** [p in s] for two strings. *)
Fixpoint text_in (p s : text) : bool :=
  startswith s p ||
  match s with
  | [] => false
  | _ :: s' => text_in p s'
  end.

(** Truthiness of a string: the empty string is falsy. *)
Definition truthy (s : text) : bool :=
  match s with [] => false | _ => true end.

(** [int(s)] on a string of ASCII decimal digits; [None] stands for
    [ValueError]. The source only applies [int] to a value that passed
    the choice validation of [BanUserForm.ban_duration]. *)
Definition digit (c : N) : option Z :=
  if ((48 <=? c) && (c <=? 57))%N then Some (Z.of_N c - 48) else None.

Fixpoint int_digits (acc : Z) (s : text) : option Z :=
  match s with
  | [] => Some acc
  | c :: s' =>
      match digit c with
      | Some d => int_digits (10 * acc + d) s'
      | None => None
      end
  end.

Definition int (s : text) : option Z :=
  match s with
  | [] => None
  | _ => int_digits 0 s
  end.

(** ** Time *)

Definition timedelta_minutes (m : Z) : Z := m * 60 * 1000000.
Definition timedelta_seconds (s : Z) : Z := s * 1000000.
Definition timedelta_days (d : Z) : Z := d * 86400 * 1000000.

(** ** Models ([community/models.py]) *)

(** [django.contrib.auth.models.User], the fields the core reads. An
    anonymous visitor is [None : option User]. *)
Record User := {
  user_pk : Z;
  username : text;
  is_staff : bool
}.

(** [Post]; the category, the tags and the attachment play no part in the
    lifecycle and are left out. *)
Record Post := {
  post_pk : Z;
  post_title : text;
  post_content : text;
  post_author : Z;
  post_created_at : Z;
  post_updated_at : Z;
  post_views : Z;
  post_is_pinned : bool;
  post_is_active : bool;
  post_deleted_at : option Z;
  post_deleted_by : option Z;
  post_delete_reason : text
}.

Record Comment := {
  comment_pk : Z;
  comment_post : Z;
  comment_author : Z;
  comment_content : text;
  comment_created_at : Z;
  comment_parent : option Z;
  comment_is_active : bool;
  comment_deleted_at : option Z;
  comment_deleted_by : option Z;
  comment_delete_reason : text
}.

(** [UserProfile], the ban fields; the row is found by its user
    ([OneToOneField]). *)
Record UserProfile := {
  profile_user : Z;
  is_banned : bool;
  banned_at : option Z;
  banned_by : option Z;
  ban_reason : text;
  ban_expires_at : option Z
}.

Record Like := {
  like_pk : Z;
  like_user_id : Z;
  like_post_id : Z;
  like_created_at : Z
}.

Record Follow := {
  follow_pk : Z;
  follow_follower : Z;
  follow_following : Z;
  follow_created_at : Z
}.

Record Notification := {
  notification_pk : Z;
  recipient : Z;
  sender : Z;
  notification_type : text;
  notification_post : option Z;
  notification_comment : option Z;
  message : text;
  is_read : bool;
  notification_created_at : Z
}.

Record UserActivity := {
  activity_pk : Z;
  activity_user : Z;
  activity_type : text;
  target_id : Z;
  target_type : text;
  activity_created_at : Z
}.

#[export] Instance User_eq_dec : EqDecision User.
Proof. solve_decision. Defined.
#[export] Instance Post_eq_dec : EqDecision Post.
Proof. solve_decision. Defined.
#[export] Instance Comment_eq_dec : EqDecision Comment.
Proof. solve_decision. Defined.
#[export] Instance UserProfile_eq_dec : EqDecision UserProfile.
Proof. solve_decision. Defined.
#[export] Instance Like_eq_dec : EqDecision Like.
Proof. solve_decision. Defined.
#[export] Instance Follow_eq_dec : EqDecision Follow.
Proof. solve_decision. Defined.
#[export] Instance Notification_eq_dec : EqDecision Notification.
Proof. solve_decision. Defined.

(** [Notification.NOTIFICATION_TYPES], the keys. *)
Definition NOTIFICATION_TYPES : list text :=
  [lit "comment"; lit "like"; lit "follow"].

(** *** Methods of [Post] and [Comment] *)

Definition Post_is_deleted (p : Post) : bool := negb (post_is_active p).

Definition is_authenticated (u : option User) : bool :=
  match u with Some _ => true | None => false end.

Definition user_is_staff (u : option User) : bool :=
  match u with Some u => is_staff u | None => false end.

Definition Post_can_be_viewed_by (p : Post) (u : option User) : bool :=
  if negb (post_is_active p) then is_authenticated u && user_is_staff u
  else true.

Definition Comment_can_be_viewed_by (c : Comment) (u : option User) : bool :=
  if negb (comment_is_active c) then is_authenticated u && user_is_staff u
  else true.

(** *** Methods of [UserProfile]; [now] is what [timezone.now()] returns *)

Definition is_permanently_banned (p : UserProfile) : bool :=
  is_banned p && bool_decide (ban_expires_at p = None).

Definition is_temporarily_banned (p : UserProfile) (now : Z) : bool :=
  if negb (is_banned p) then false
  else match ban_expires_at p with
       | None => false
       | Some expires => now <? expires
       end.

Definition is_currently_banned (p : UserProfile) (now : Z) : bool :=
  if negb (is_banned p) then false
  else match ban_expires_at p with
       | None => true
       | Some expires => now <? expires
       end.

(** The profile [get_or_create] makes for a user that has none: the field
    defaults of the model. *)
Definition default_profile (u : Z) : UserProfile :=
  {| profile_user := u; is_banned := false; banned_at := None;
     banned_by := None; ban_reason := []; ban_expires_at := None |}.

(** ** The world a request runs in *)

(** What [create_notification] hands to the channel layer. *)
Record Payload := {
  payload_type : text;
  payload_message : text;
  payload_notification_id : Z;
  payload_notification_type : text
}.

(** Levels of [django.contrib.messages]. *)
Inductive Level := SUCCESS | ERROR.

(** The exceptions the modelled code raises; all of them are subclasses of
    Python's [Exception]. [ChannelError] stands for whatever the channel
    layer raises when it cannot take a message (connection refused,
    channel full), [AttributeError] for the case that no channel layer is
    configured and [get_channel_layer()] is [None]. *)
Inductive exception :=
| Http404
| MultipleObjectsReturned
| FieldError (keyword : string)
| ImportError (module : string)
| ValueError
| AttributeError
| ChannelError (reason : string).

Record World := {
  users : list User;
  posts : gmap Z Post;
  comments : gmap Z Comment;
  profiles : gmap Z UserProfile;
  likes : list Like;
  follows : list Follow;
  notifications : list Notification;
  activities : list UserActivity;
  (** the last primary key each table's sequence handed out *)
  sequences : gmap string Z;
  (** what [cache.set] was called with: key, value, timeout in seconds *)
  cache_writes : list (text * Z * Z);
  (** the messages the channel layer accepted, by group *)
  channel : list (text * Payload);
  (** [django.contrib.messages] *)
  flash : list (Level * text);
  (** how often the clock, the cache and the channel layer were asked *)
  clock_reads : nat;
  cache_reads : nat;
  pushes : nat
}.

Definition with_posts (f : gmap Z Post -> gmap Z Post) (w : World) : World :=
  {| users := users w; posts := f (posts w); comments := comments w;
     profiles := profiles w; likes := likes w; follows := follows w;
     notifications := notifications w; activities := activities w;
     sequences := sequences w; cache_writes := cache_writes w;
     channel := channel w; flash := flash w; clock_reads := clock_reads w;
     cache_reads := cache_reads w; pushes := pushes w |}.

Definition with_comments (f : gmap Z Comment -> gmap Z Comment) (w : World)
  : World :=
  {| users := users w; posts := posts w; comments := f (comments w);
     profiles := profiles w; likes := likes w; follows := follows w;
     notifications := notifications w; activities := activities w;
     sequences := sequences w; cache_writes := cache_writes w;
     channel := channel w; flash := flash w; clock_reads := clock_reads w;
     cache_reads := cache_reads w; pushes := pushes w |}.

Definition with_profiles (f : gmap Z UserProfile -> gmap Z UserProfile)
  (w : World) : World :=
  {| users := users w; posts := posts w; comments := comments w;
     profiles := f (profiles w); likes := likes w; follows := follows w;
     notifications := notifications w; activities := activities w;
     sequences := sequences w; cache_writes := cache_writes w;
     channel := channel w; flash := flash w; clock_reads := clock_reads w;
     cache_reads := cache_reads w; pushes := pushes w |}.

Definition with_likes (f : list Like -> list Like) (w : World) : World :=
  {| users := users w; posts := posts w; comments := comments w;
     profiles := profiles w; likes := f (likes w); follows := follows w;
     notifications := notifications w; activities := activities w;
     sequences := sequences w; cache_writes := cache_writes w;
     channel := channel w; flash := flash w; clock_reads := clock_reads w;
     cache_reads := cache_reads w; pushes := pushes w |}.

Definition with_follows (f : list Follow -> list Follow) (w : World)
  : World :=
  {| users := users w; posts := posts w; comments := comments w;
     profiles := profiles w; likes := likes w; follows := f (follows w);
     notifications := notifications w; activities := activities w;
     sequences := sequences w; cache_writes := cache_writes w;
     channel := channel w; flash := flash w; clock_reads := clock_reads w;
     cache_reads := cache_reads w; pushes := pushes w |}.

Definition with_notifications (f : list Notification -> list Notification)
  (w : World) : World :=
  {| users := users w; posts := posts w; comments := comments w;
     profiles := profiles w; likes := likes w; follows := follows w;
     notifications := f (notifications w); activities := activities w;
     sequences := sequences w; cache_writes := cache_writes w;
     channel := channel w; flash := flash w; clock_reads := clock_reads w;
     cache_reads := cache_reads w; pushes := pushes w |}.

Definition with_activities (f : list UserActivity -> list UserActivity)
  (w : World) : World :=
  {| users := users w; posts := posts w; comments := comments w;
     profiles := profiles w; likes := likes w; follows := follows w;
     notifications := notifications w; activities := f (activities w);
     sequences := sequences w; cache_writes := cache_writes w;
     channel := channel w; flash := flash w; clock_reads := clock_reads w;
     cache_reads := cache_reads w; pushes := pushes w |}.

Definition with_sequences (f : gmap string Z -> gmap string Z) (w : World)
  : World :=
  {| users := users w; posts := posts w; comments := comments w;
     profiles := profiles w; likes := likes w; follows := follows w;
     notifications := notifications w; activities := activities w;
     sequences := f (sequences w); cache_writes := cache_writes w;
     channel := channel w; flash := flash w; clock_reads := clock_reads w;
     cache_reads := cache_reads w; pushes := pushes w |}.

Definition with_cache_writes
  (f : list (text * Z * Z) -> list (text * Z * Z)) (w : World) : World :=
  {| users := users w; posts := posts w; comments := comments w;
     profiles := profiles w; likes := likes w; follows := follows w;
     notifications := notifications w; activities := activities w;
     sequences := sequences w; cache_writes := f (cache_writes w);
     channel := channel w; flash := flash w; clock_reads := clock_reads w;
     cache_reads := cache_reads w; pushes := pushes w |}.

Definition with_channel
  (f : list (text * Payload) -> list (text * Payload)) (w : World) : World :=
  {| users := users w; posts := posts w; comments := comments w;
     profiles := profiles w; likes := likes w; follows := follows w;
     notifications := notifications w; activities := activities w;
     sequences := sequences w; cache_writes := cache_writes w;
     channel := f (channel w); flash := flash w; clock_reads := clock_reads w;
     cache_reads := cache_reads w; pushes := pushes w |}.

Definition with_flash (f : list (Level * text) -> list (Level * text))
  (w : World) : World :=
  {| users := users w; posts := posts w; comments := comments w;
     profiles := profiles w; likes := likes w; follows := follows w;
     notifications := notifications w; activities := activities w;
     sequences := sequences w; cache_writes := cache_writes w;
     channel := channel w; flash := f (flash w); clock_reads := clock_reads w;
     cache_reads := cache_reads w; pushes := pushes w |}.

(** One more reading of the clock, lookup in the cache, attempt to push. *)
Definition tick (w : World) : World :=
  {| users := users w; posts := posts w; comments := comments w;
     profiles := profiles w; likes := likes w; follows := follows w;
     notifications := notifications w; activities := activities w;
     sequences := sequences w; cache_writes := cache_writes w;
     channel := channel w; flash := flash w;
     clock_reads := S (clock_reads w);
     cache_reads := cache_reads w; pushes := pushes w |}.

Definition cache_tick (w : World) : World :=
  {| users := users w; posts := posts w; comments := comments w;
     profiles := profiles w; likes := likes w; follows := follows w;
     notifications := notifications w; activities := activities w;
     sequences := sequences w; cache_writes := cache_writes w;
     channel := channel w; flash := flash w; clock_reads := clock_reads w;
     cache_reads := S (cache_reads w); pushes := pushes w |}.

Definition push_tick (w : World) : World :=
  {| users := users w; posts := posts w; comments := comments w;
     profiles := profiles w; likes := likes w; follows := follows w;
     notifications := notifications w; activities := activities w;
     sequences := sequences w; cache_writes := cache_writes w;
     channel := channel w; flash := flash w; clock_reads := clock_reads w;
     cache_reads := cache_reads w; pushes := S (pushes w) |}.

(** ** The monad of a request: state and exceptions *)

Inductive Result (A : Type) :=
| Ok (a : A)
| Raise (e : exception).
Arguments Ok {A} a.
Arguments Raise {A} e.

Definition M (A : Type) : Type := World -> Result A * World.

Definition ret {A} (a : A) : M A := fun w => (Ok a, w).

Definition bind {A B} (m : M A) (k : A -> M B) : M B :=
  fun w =>
    match m w with
    | (Ok a, w') => k a w'
    | (Raise e, w') => (Raise e, w')
    end.

Definition raise {A} (e : exception) : M A := fun w => (Raise e, w).

(** [try: body except Exception: handler]. *)
Definition try_except {A} (body : M A) (handler : exception -> M A) : M A :=
  fun w =>
    match body w with
    | (Ok a, w') => (Ok a, w')
    | (Raise e, w') => handler e w'
    end.

Definition modify (f : World -> World) : M unit := fun w => (Ok tt, f w).

Notation "x <- m ;; k" := (bind m (fun x => k))
  (at level 100, m at next level, right associativity).
Notation "m ;; k" := (bind m (fun _ => k))
  (at level 100, right associativity).

(** ** Requests and responses *)

Record Request := {
  method : string;
  user : option User;
  path : text;
  POST : gmap string text;
  x_requested_with : option text
}.

(** What a view returns. [redirect] names the URL pattern and its
    argument, [render] the template. A raised [Http404] is the 404 page. *)
Inductive HttpResponse :=
| redirect (to : string) (arg : text)
| render (template : string)
| HttpResponseForbidden (content : text)
| JsonResponse (liked : bool) (likes_count : nat).

(** ** Forms ([django.forms], [community/admin_forms.py],
    [community/forms.py]) *)

(** The result of cleaning a field or a form: the cleaned value, or the
    [ValidationError] with its code. *)
Inductive Cleaned (A : Type) :=
| Valid (a : A)
| ValidationError (code : string).
Arguments Valid {A} a.
Arguments ValidationError {A} code.

Definition is_valid {A} (c : Cleaned A) : bool :=
  match c with Valid _ => true | ValidationError _ => false end.

(** [cleaned_data.get(name)]: a field that failed has no entry. *)
Definition cleaned_data_get {A} (c : Cleaned A) : option A :=
  match c with Valid a => Some a | ValidationError _ => None end.

(** [forms.CharField(required=..., max_length=...).clean]: the posted
    value is stripped ([strip=True] is the default), an empty value is
    rejected when the field is required, and a non-empty one goes through
    the length validator and the null-character validator. *)
Definition CharField_clean (required : bool) (max_length : option nat)
  (raw : option text) : Cleaned text :=
  let value := match raw with None => [] | Some s => strip s end in
  if negb (truthy value) then
    if required then ValidationError "required" else Valid value
  else if match max_length with
          | Some n => (n <? length value)%nat
          | None => false
          end then ValidationError "max_length"
  else if existsb (N.eqb 0) value then
    ValidationError "null_characters_not_allowed"
  else Valid value.

(** [forms.ChoiceField(choices=..., required=...).clean]: the posted value
    is compared, unstripped, with [str(key)] of every choice. *)
Definition ChoiceField_clean (required : bool) (choices : list text)
  (raw : option text) : Cleaned text :=
  let value := match raw with None => [] | Some s => s end in
  if negb (truthy value) then
    if required then ValidationError "required" else Valid value
  else if negb (bool_decide (value ∈ choices)) then
    ValidationError "invalid_choice"
  else Valid value.

(** [DeletePostForm] and [DeleteCommentForm]: one required field,
    [delete_reason], of at most 500 characters. *)
Definition DeletePostForm (data : gmap string text) : Cleaned text :=
  CharField_clean true (Some 500%nat) (data !! "delete_reason").

Definition DeleteCommentForm (data : gmap string text) : Cleaned text :=
  CharField_clean true (Some 500%nat) (data !! "delete_reason").

Definition BAN_TYPE_CHOICES : list text := [lit "temporary"; lit "permanent"].

Definition BAN_DURATION_CHOICES : list text := str <$> [1; 3; 7; 30; 90].

Record BanData := {
  cleaned_ban_type : text;
  cleaned_ban_duration : text;
  cleaned_ban_reason : text
}.

(** [BanUserForm.clean]. *)
Definition BanUserForm_clean (ban_type ban_duration : option text)
  : Cleaned unit :=
  if bool_decide (ban_type = Some (lit "temporary"))
     && negb (from_option truthy false ban_duration)
  then ValidationError "temporary ban without a duration"
  else Valid tt.

(** [BanUserForm(request.POST)] with its [full_clean]: the three fields,
    then [clean] on what they left in [cleaned_data]. *)
Definition BanUserForm (data : gmap string text) : Cleaned BanData :=
  let ban_type := ChoiceField_clean true BAN_TYPE_CHOICES (data !! "ban_type") in
  let ban_duration :=
    ChoiceField_clean false BAN_DURATION_CHOICES (data !! "ban_duration") in
  let ban_reason := CharField_clean true (Some 500%nat) (data !! "ban_reason") in
  match ban_type, ban_duration, ban_reason,
        BanUserForm_clean (cleaned_data_get ban_type)
                          (cleaned_data_get ban_duration) with
  | Valid t, Valid d, Valid r, Valid _ =>
      Valid {| cleaned_ban_type := t; cleaned_ban_duration := d;
               cleaned_ban_reason := r |}
  | ValidationError c, _, _, _ => ValidationError c
  | _, ValidationError c, _, _ => ValidationError c
  | _, _, ValidationError c, _ => ValidationError c
  | _, _, _, ValidationError c => ValidationError c
  end.

(** [UnbanUserForm]: an optional reason of at most 500 characters. *)
Definition UnbanUserForm (data : gmap string text) : Cleaned text :=
  CharField_clean false (Some 500%nat) (data !! "unban_reason").

(** [CommentForm]: the model's [content] is a required text field, and
    [clean_content] wants two characters after stripping. *)
Definition CommentForm (data : gmap string text) : Cleaned text :=
  match CharField_clean true None (data !! "content") with
  | Valid content =>
      if (length (strip content) <? 2)%nat then ValidationError "content"
      else Valid (strip content)
  | ValidationError c => ValidationError c
  end.

(** ** The database operations, the helpers and the views *)

Section Core.

(** The environment: what the clock shows at each reading, what each
    lookup of a view counter finds in the cache, and whether each attempt
    to push through the channel layer raises. *)
Variable ticks : nat -> Z.
Variable cached : nat -> option Z.
Variable transport : nat -> option exception.

Definition timezone_now : M Z :=
  fun w => (Ok (ticks (clock_reads w)), tick w).

Definition nextval (table : string) : M Z :=
  fun w =>
    let n := default 0 (sequences w !! table) + 1 in
    (Ok n, with_sequences (insert table n) w).

Definition messages_success (msg : text) : M unit :=
  modify (with_flash (fun l => l ++ [(SUCCESS, msg)])).

Definition messages_error (msg : text) : M unit :=
  modify (with_flash (fun l => l ++ [(ERROR, msg)])).

Definition cache_get (key : text) (dflt : Z) : M Z :=
  fun w => (Ok (default dflt (cached (cache_reads w))), cache_tick w).

Definition cache_set (key : text) (value timeout : Z) : M unit :=
  modify (with_cache_writes (fun l => l ++ [(key, value, timeout)])).

(** [channel_layer = get_channel_layer()] and
    [async_to_sync(channel_layer.group_send)(group, payload)]. *)
Definition group_send (group : text) (payload : Payload) : M unit :=
  fun w =>
    match transport (pushes w) with
    | Some e => (Raise e, push_tick w)
    | None =>
        (Ok tt, with_channel (fun l => l ++ [(group, payload)]) (push_tick w))
    end.

(** *** [get_object_or_404] *)

Definition get_Post_or_404 (pk : Z) : M Post :=
  fun w =>
    match posts w !! pk with
    | Some p => (Ok p, w)
    | None => (Raise Http404, w)
    end.

Definition get_Comment_or_404 (pk : Z) : M Comment :=
  fun w =>
    match comments w !! pk with
    | Some c => (Ok c, w)
    | None => (Raise Http404, w)
    end.

Definition get_User_or_404 (name : text) : M User :=
  fun w =>
    match filter (fun u => username u = name) (users w) with
    | [] => (Raise Http404, w)
    | [u] => (Ok u, w)
    | _ => (Raise MultipleObjectsReturned, w)
    end.

(** *** Saving and creating rows *)

(** [post.save()]: [updated_at] is an [auto_now] field. *)
Definition Post_save (p : Post) : M unit :=
  now <- timezone_now ;;
  modify (with_posts (insert (post_pk p)
    {| post_pk := post_pk p; post_title := post_title p;
       post_content := post_content p; post_author := post_author p;
       post_created_at := post_created_at p; post_updated_at := now;
       post_views := post_views p; post_is_pinned := post_is_pinned p;
       post_is_active := post_is_active p;
       post_deleted_at := post_deleted_at p;
       post_deleted_by := post_deleted_by p;
       post_delete_reason := post_delete_reason p |})).

Definition Comment_save (c : Comment) : M unit :=
  modify (with_comments (insert (comment_pk c) c)).

(** [comment = form.save(commit=False)], [comment.post = post],
    [comment.author = user], [comment.save()] for a new comment. *)
Definition Comment_create (post author : Z) (content : text) : M Comment :=
  now <- timezone_now ;;
  pk <- nextval "community_comment" ;;
  let c := {| comment_pk := pk; comment_post := post;
              comment_author := author; comment_content := content;
              comment_created_at := now; comment_parent := None;
              comment_is_active := true; comment_deleted_at := None;
              comment_deleted_by := None; comment_delete_reason := [] |} in
  modify (with_comments (insert pk c)) ;;
  ret c.

(** [UserProfile.objects.get_or_create(user=u)]. Inserting the missing
    row reads the clock once, for [join_date] ([auto_now_add]), a field
    that is left out of the record. *)
Definition UserProfile_get_or_create (u : Z) : M (UserProfile * bool) :=
  fun w =>
    match profiles w !! u with
    | Some p => (Ok (p, false), w)
    | None =>
        (Ok (default_profile u, true),
         with_profiles (insert u (default_profile u)) (tick w))
    end.

Definition UserProfile_save (p : UserProfile) : M unit :=
  modify (with_profiles (insert (profile_user p) p)).

Definition Like_get_or_create (u p : Z) : M (Like * bool) :=
  fun w =>
    match filter (fun l => like_user_id l = u ∧ like_post_id l = p) (likes w) with
    | [] =>
        (now <- timezone_now ;;
         pk <- nextval "community_like" ;;
         let l := {| like_pk := pk; like_user_id := u; like_post_id := p;
                     like_created_at := now |} in
         modify (with_likes (fun ls => ls ++ [l])) ;;
         ret (l, true)) w
    | [l] => (Ok (l, false), w)
    | _ => (Raise MultipleObjectsReturned, w)
    end.

Definition Like_delete (l : Like) : M unit :=
  modify (with_likes (filter (fun x => like_pk x ≠ like_pk l))).

Definition Follow_get_or_create (a b : Z) : M (Follow * bool) :=
  fun w =>
    match filter (fun f => follow_follower f = a ∧ follow_following f = b)
                 (follows w) with
    | [] =>
        (now <- timezone_now ;;
         pk <- nextval "community_follow" ;;
         let f := {| follow_pk := pk; follow_follower := a;
                     follow_following := b; follow_created_at := now |} in
         modify (with_follows (fun fs => fs ++ [f])) ;;
         ret (f, true)) w
    | [f] => (Ok (f, false), w)
    | _ => (Raise MultipleObjectsReturned, w)
    end.

Definition Follow_delete (f : Follow) : M unit :=
  modify (with_follows (filter (fun x => follow_pk x ≠ follow_pk f))).

Definition Notification_objects_create (sender recipient : Z)
  (notification_type message : text) (post comment : option Z)
  : M Notification :=
  now <- timezone_now ;;
  pk <- nextval "community_notification" ;;
  let n := {| notification_pk := pk; recipient := recipient;
              sender := sender; notification_type := notification_type;
              notification_post := post; notification_comment := comment;
              message := message; is_read := false;
              notification_created_at := now |} in
  modify (with_notifications (fun ns => ns ++ [n])) ;;
  ret n.

(** *** Deleting rows; the foreign keys are [on_delete=CASCADE] *)

Definition parent_in (ids : gset Z) (c : Comment) : bool :=
  match comment_parent c with
  | Some p => bool_decide (p ∈ ids)
  | None => false
  end.

Definition replies_to (cs : gmap Z Comment) (ids : gset Z) : gset Z :=
  dom (filter (fun kc : Z * Comment => parent_in ids kc.2 = true) cs).

(** The comments a delete takes along: the seeds, their replies, the
    replies to those, and so on; the table's size bounds the depth. *)
Fixpoint collect_replies (fuel : nat) (cs : gmap Z Comment) (ids : gset Z)
  : gset Z :=
  match fuel with
  | O => ids
  | S fuel' => collect_replies fuel' cs (ids ∪ replies_to cs ids)
  end.

Definition about_comment (ids : gset Z) (n : Notification) : bool :=
  match notification_comment n with
  | Some c => bool_decide (c ∈ ids)
  | None => false
  end.

Definition delete_comments (ids : gset Z) (w : World) : World :=
  let gone := collect_replies (size (comments w)) (comments w) ids in
  with_comments (filter (fun kc : Z * Comment => kc.1 ∉ gone))
    (with_notifications (filter (fun n => about_comment gone n = false)) w).

Definition Comment_delete (c : Comment) : M unit :=
  modify (delete_comments {[ comment_pk c ]}).

Definition Post_delete (p : Post) : M unit :=
  modify (fun w =>
    let on_post :=
      dom (filter (fun kc : Z * Comment => comment_post kc.2 = post_pk p)
                  (comments w)) in
    with_posts (delete (post_pk p))
      (with_likes (filter (fun l => like_post_id l ≠ post_pk p))
        (with_notifications
           (filter (fun n => notification_post n ≠ Some (post_pk p)))
           (delete_comments on_post w)))).

(** *** The literals of the source, as code points *)

(** The six characters that open the message of a moderated post delete,
    up to and including the quote before the title. *)
Definition msg_post_deleted_open : text :=
  [24744; 30340; 24086; 23376; 32; 34]%N.
(** The closing quote, then: was deleted by an administrator, reason: *)
Definition msg_post_deleted_reason : text :=
  [34; 32; 24050; 34987; 31649; 29702; 21592; 21024; 38500; 65292; 21407;
   22240; 65306]%N.
Definition msg_comment_deleted_reason : text :=
  [24744; 30340; 35780; 35770; 24050; 34987; 31649; 29702; 21592; 21024;
   38500; 65292; 21407; 22240; 65306]%N.
(** Your account has been ... *)
Definition msg_banned : text := [24744; 30340; 36134; 21495; 24050; 34987]%N.
(** ..., duration: ... days *)
Definition msg_duration : text := [65292; 26102; 38271; 65306]%N.
Definition msg_days : text := [22825]%N.
(** ..., reason: *)
Definition msg_reason : text := [65292; 21407; 22240; 65306]%N.
Definition msg_unbanned : text :=
  [24744; 30340; 36134; 21495; 24050; 34987; 35299; 23553]%N.
Definition msg_commented : text :=
  [32; 35780; 35770; 20102; 20320; 30340; 24086; 23376; 32; 34]%N.
Definition msg_liked : text :=
  [32; 28857; 36190; 20102; 20320; 30340; 24086; 23376; 32; 34]%N.
Definition msg_followed : text := [32; 20851; 27880; 20102; 20320]%N.
Definition quote : text := [34]%N.

(** The post was published more than 5 minutes ago and cannot be
    deleted. *)
Definition flash_window_exceeded : text :=
  [24086; 23376; 21457; 24067; 36229; 36807; 53; 20998; 38047; 65292; 26080;
   27861; 21024; 38500]%N.
Definition flash_post_deleted : text :=
  [24086; 23376; 21024; 38500; 25104; 21151; 65281]%N.
Definition flash_comment_deleted : text :=
  [35780; 35770; 21024; 38500; 25104; 21151; 65281]%N.
Definition flash_unliked : text := [24050; 21462; 28040; 28857; 36190]%N.
Definition flash_liked : text := [28857; 36190; 25104; 21151; 65281]%N.
Definition flash_commented : text :=
  [35780; 35770; 21457; 34920; 25104; 21151; 65281]%N.
Definition flash_no_self_follow : text :=
  [19981; 33021; 20851; 27880; 33258; 24049]%N.
Definition flash_unfollowed : text := [24050; 21462; 28040; 20851; 27880; 32]%N.
Definition flash_followed : text := [24050; 20851; 27880; 32]%N.
Definition flash_user : text := [29992; 25143; 32]%N.
Definition flash_banned : text := [32; 23553; 31105; 25104; 21151; 65281]%N.
Definition flash_unbanned : text := [32; 35299; 23553; 25104; 21151; 65281]%N.
Definition forbidden_no_permission : text :=
  [24744; 27809; 26377; 26435; 38480; 25191; 34892; 27492; 25805; 20316]%N.
Definition forbidden_bad_argument : text := [21442; 25968; 38169; 35823]%N.

(** *** Helpers ([community/utils/helpers.py]) *)

(** [update_post_views]. The branch of every tenth view imports [Post]
    from [.models], that is from [community/utils/models.py]; the
    repository has no such module (the models are in
    [community/models.py]), so the import raises. *)
Definition update_post_views (post_id : Z) : M unit :=
  let cache_key := lit "post_views_" ++ str post_id in
  current_views <- cache_get cache_key 0 ;;
  let current_views := current_views + 1 in
  cache_set cache_key current_views 300 ;;
  if current_views mod 10 =? 0
  then raise (ImportError "community.utils.models")
  else ret tt.

Definition create_notification (sender recipient : Z)
  (notification_type message : text) (post comment : option Z)
  : M (option Notification) :=
  if negb (bool_decide (sender = recipient)) then
    notification <- Notification_objects_create sender recipient
                      notification_type message post comment ;;
    try_except
      (group_send (lit "notifications_" ++ str recipient)
         {| payload_type := lit "notification_message";
            payload_message := message;
            payload_notification_id := notification_pk notification;
            payload_notification_type := notification_type |})
      (fun _ => ret tt) ;;
    ret (Some notification)
  else ret None.

Definition record_user_activity (user : Z) (activity_type : text)
  (target_id : Z) (target_type : text) : M unit :=
  now <- timezone_now ;;
  pk <- nextval "community_useractivity" ;;
  modify (with_activities (fun l => l ++
    [{| activity_pk := pk; activity_user := user;
        activity_type := activity_type; target_id := target_id;
        target_type := target_type; activity_created_at := now |}])).

Definition can_delete_within_time_limit (created_at : Z)
  (time_limit_minutes : Z) : M bool :=
  now <- timezone_now ;;
  ret (now - created_at <=? timedelta_minutes time_limit_minutes).

(** *** Decorators ([community/decorators.py] and Django's
    [login_required]); a view below [login_required] is handed the
    authenticated user *)

Definition login_required {K}
  (view_func : User -> Request -> K -> M HttpResponse)
  : Request -> K -> M HttpResponse :=
  fun request k =>
    match user request with
    | Some u => view_func u request k
    | None => ret (redirect "login" (path request))
    end.

Definition staff_required {K}
  (view_func : User -> Request -> K -> M HttpResponse)
  : User -> Request -> K -> M HttpResponse :=
  fun u request k =>
    if negb (is_staff u)
    then ret (HttpResponseForbidden forbidden_no_permission)
    else view_func u request k.

Definition author_required
  (view_func : User -> Request -> Z -> M HttpResponse)
  : User -> Request -> Z -> M HttpResponse :=
  fun u request pk =>
    if pk =? 0 then ret (HttpResponseForbidden forbidden_bad_argument)
    else
      author <- (if text_in (lit "comment") (path request)
                 then obj <- get_Comment_or_404 pk ;; ret (comment_author obj)
                 else obj <- get_Post_or_404 pk ;; ret (post_author obj)) ;;
      if negb (bool_decide (author = user_pk u))
      then ret (HttpResponseForbidden forbidden_no_permission)
      else view_func u request pk.

(** *** Views ([community/views.py]) *)

Definition is_POST (request : Request) : bool :=
  bool_decide (method request = "POST"%string).

Definition gets {A} (f : World -> A) : M A := fun w => (Ok (f w), w).

(** [post.is_liked_by(user)] and [post.get_likes_count()]. *)
Definition is_liked_by (post u : Z) (w : World) : bool :=
  bool_decide (filter (fun l => like_post_id l = post ∧ like_user_id l = u)
                      (likes w) ≠ []).

Definition get_likes_count (post : Z) (w : World) : nat :=
  length (filter (fun l => like_post_id l = post) (likes w)).

(** [post_detail]: the page of a post, and the submission of a comment. *)
Definition post_detail (request : Request) (pk : Z) : M HttpResponse :=
  post <- get_Post_or_404 pk ;;
  update_post_views pk ;;
  match (if is_POST request then user request else None) with
  | Some u =>
      match CommentForm (POST request) with
      | Valid content =>
          comment <- Comment_create (post_pk post) (user_pk u) content ;;
          (if negb (bool_decide (post_author post = user_pk u))
           then create_notification (user_pk u) (post_author post)
                  (lit "comment")
                  (username u ++ msg_commented ++ post_title post ++ quote)
                  (Some (post_pk post)) (Some (comment_pk comment)) ;;
                ret tt
           else ret tt) ;;
          messages_success flash_commented ;;
          ret (redirect "post_detail" (str pk))
      | ValidationError _ => ret (render "community/post_detail.html")
      end
  | None => ret (render "community/post_detail.html")
  end.

Definition post_delete : Request -> Z -> M HttpResponse :=
  login_required (author_required (fun u request pk =>
    post <- get_Post_or_404 pk ;;
    in_time <- can_delete_within_time_limit (post_created_at post) 5 ;;
    if negb in_time then
      messages_error flash_window_exceeded ;;
      ret (redirect "post_detail" (str (post_pk post)))
    else if is_POST request then
      Post_delete post ;;
      messages_success flash_post_deleted ;;
      ret (redirect "home" [])
    else ret (render "community/post_confirm_delete.html"))).

Definition comment_delete : Request -> Z -> M HttpResponse :=
  login_required (author_required (fun u request pk =>
    comment <- get_Comment_or_404 pk ;;
    let post_pk := comment_post comment in
    Comment_delete comment ;;
    messages_success flash_comment_deleted ;;
    ret (redirect "post_detail" (str post_pk)))).

Definition like_post : Request -> Z -> M HttpResponse :=
  login_required (fun u request pk =>
    post <- get_Post_or_404 pk ;;
    if is_POST request then
      lc <- Like_get_or_create (user_pk u) (post_pk post) ;;
      (if negb (snd lc) then
         Like_delete (fst lc) ;;
         messages_success flash_unliked
       else
         (if negb (bool_decide (post_author post = user_pk u))
          then create_notification (user_pk u) (post_author post)
                 (lit "like")
                 (username u ++ msg_liked ++ post_title post ++ quote)
                 (Some (post_pk post)) None ;;
               ret tt
          else ret tt) ;;
         messages_success flash_liked) ;;
      if bool_decide (x_requested_with request = Some (lit "XMLHttpRequest"))
      then
        liked <- gets (is_liked_by (post_pk post) (user_pk u)) ;;
        likes_count <- gets (get_likes_count (post_pk post)) ;;
        ret (JsonResponse liked likes_count)
      else ret (redirect "post_detail" (str pk))
    else ret (redirect "post_detail" (str pk))).

Definition follow_user : Request -> text -> M HttpResponse :=
  login_required (fun u request name =>
    user_to_follow <- get_User_or_404 name ;;
    if bool_decide (user_pk user_to_follow = user_pk u) then
      messages_error flash_no_self_follow ;;
      ret (redirect "user_profile" name)
    else
      (if is_POST request then
         fc <- Follow_get_or_create (user_pk u) (user_pk user_to_follow) ;;
         if negb (snd fc) then
           Follow_delete (fst fc) ;;
           messages_success (flash_unfollowed ++ username user_to_follow) ;;
           record_user_activity (user_pk u) (lit "unfollow")
             (user_pk user_to_follow) (lit "user")
         else
           create_notification (user_pk u) (user_pk user_to_follow)
             (lit "follow") (username u ++ msg_followed) None None ;;
           messages_success (flash_followed ++ username user_to_follow) ;;
           record_user_activity (user_pk u) (lit "follow")
             (user_pk user_to_follow) (lit "user")
       else ret tt) ;;
      ret (redirect "user_profile" name)).

Definition admin_delete_post : Request -> Z -> M HttpResponse :=
  login_required (staff_required (fun u request pk =>
    post <- get_Post_or_404 pk ;;
    if is_POST request then
      match DeletePostForm (POST request) with
      | Valid delete_reason =>
          now <- timezone_now ;;
          let post :=
            {| post_pk := post_pk post; post_title := post_title post;
               post_content := post_content post;
               post_author := post_author post;
               post_created_at := post_created_at post;
               post_updated_at := post_updated_at post;
               post_views := post_views post;
               post_is_pinned := post_is_pinned post;
               post_is_active := false;
               post_deleted_at := Some now;
               post_deleted_by := Some (user_pk u);
               post_delete_reason := delete_reason |} in
          Post_save post ;;
          create_notification (user_pk u) (post_author post) (lit "comment")
            (msg_post_deleted_open ++ post_title post
               ++ msg_post_deleted_reason ++ post_delete_reason post)
            (Some (post_pk post)) None ;;
          messages_success flash_post_deleted ;;
          ret (redirect "home" [])
      | ValidationError _ => ret (render "community/admin_delete_post.html")
      end
    else ret (render "community/admin_delete_post.html"))).

Definition admin_delete_comment : Request -> Z -> M HttpResponse :=
  login_required (staff_required (fun u request pk =>
    comment <- get_Comment_or_404 pk ;;
    if is_POST request then
      match DeleteCommentForm (POST request) with
      | Valid delete_reason =>
          now <- timezone_now ;;
          let comment :=
            {| comment_pk := comment_pk comment;
               comment_post := comment_post comment;
               comment_author := comment_author comment;
               comment_content := comment_content comment;
               comment_created_at := comment_created_at comment;
               comment_parent := comment_parent comment;
               comment_is_active := false;
               comment_deleted_at := Some now;
               comment_deleted_by := Some (user_pk u);
               comment_delete_reason := delete_reason |} in
          Comment_save comment ;;
          create_notification (user_pk u) (comment_author comment)
            (lit "comment")
            (msg_comment_deleted_reason ++ comment_delete_reason comment)
            None (Some (comment_pk comment)) ;;
          messages_success flash_comment_deleted ;;
          ret (redirect "post_detail" (str (comment_post comment)))
      | ValidationError _ =>
          ret (render "community/admin_delete_comment.html")
      end
    else ret (render "community/admin_delete_comment.html"))).

(** [BanUserForm.get_ban_expires_at]. *)
Definition get_ban_expires_at (form : BanData) : M (option Z) :=
  if bool_decide (cleaned_ban_type form = lit "permanent") then ret None
  else if truthy (cleaned_ban_duration form) then
    match int (cleaned_ban_duration form) with
    | Some days =>
        now <- timezone_now ;;
        ret (Some (now + timedelta_days days))
    | None => raise ValueError
    end
  else ret None.

Definition admin_ban_user : Request -> text -> M HttpResponse :=
  login_required (staff_required (fun u request name =>
    banned <- get_User_or_404 name ;;
    pc <- UserProfile_get_or_create (user_pk banned) ;;
    if is_POST request then
      match BanUserForm (POST request) with
      | Valid form =>
          now <- timezone_now ;;
          expires <- get_ban_expires_at form ;;
          let profile :=
            {| profile_user := profile_user (fst pc);
               is_banned := true;
               banned_at := Some now;
               banned_by := Some (user_pk u);
               ban_reason := cleaned_ban_reason form;
               ban_expires_at := expires |} in
          UserProfile_save profile ;;
          let ban_type := cleaned_ban_type form in
          let ban_duration := cleaned_ban_duration form in
          let ban_message := msg_banned ++ ban_type in
          let ban_message :=
            if truthy ban_duration
            then ban_message ++ msg_duration ++ ban_duration ++ msg_days
            else ban_message in
          let ban_message := ban_message ++ msg_reason ++ ban_reason profile in
          create_notification (user_pk u) (user_pk banned) (lit "comment")
            ban_message None None ;;
          messages_success (flash_user ++ username banned ++ flash_banned) ;;
          ret (redirect "user_profile" name)
      | ValidationError _ => ret (render "community/admin_ban_user.html")
      end
    else ret (render "community/admin_ban_user.html"))).

Definition admin_unban_user : Request -> text -> M HttpResponse :=
  login_required (staff_required (fun u request name =>
    unbanned <- get_User_or_404 name ;;
    pc <- UserProfile_get_or_create (user_pk unbanned) ;;
    if is_POST request then
      match UnbanUserForm (POST request) with
      | Valid unban_reason =>
          let profile :=
            {| profile_user := profile_user (fst pc);
               is_banned := false;
               banned_at := banned_at (fst pc);
               banned_by := banned_by (fst pc);
               ban_reason := [];
               ban_expires_at := None |} in
          UserProfile_save profile ;;
          let unban_message :=
            if truthy unban_reason
            then msg_unbanned ++ msg_reason ++ unban_reason
            else msg_unbanned in
          create_notification (user_pk u) (user_pk unbanned) (lit "comment")
            unban_message None None ;;
          messages_success (flash_user ++ username unbanned ++ flash_unbanned) ;;
          ret (redirect "user_profile" name)
      | ValidationError _ => ret (render "community/admin_unban_user.html")
      end
    else ret (render "community/admin_unban_user.html"))).

End Core.

(** ** The search index ([community/search_indexes.py]) *)

Inductive value :=
| VBool (b : bool)
| VInt (z : Z)
| VText (t : text)
| VTime (t : option Z)
| VRef (pk : option Z).

#[export] Instance value_eq_dec : EqDecision value.
Proof. solve_decision. Defined.

(** The keywords [Post.objects.filter] resolves: the fields of the model
    and the reverse relations that point at it. Any other keyword raises
    [FieldError]. *)
Definition Post_lookups : list string :=
  ["id"; "pk"; "title"; "content"; "author"; "author_id"; "category";
   "category_id"; "tags"; "attachment"; "created_at"; "updated_at";
   "views"; "is_pinned"; "is_active"; "deleted_at"; "deleted_by";
   "deleted_by_id"; "delete_reason"; "comments"; "likes"; "notification";
   "reports"]%string.

(** The value of a column of [Post]; a lookup through a relation to
    another table is not modelled and selects nothing. *)
Definition Post_column (keyword : string) (p : Post) : option value :=
  if bool_decide (keyword = "id" ∨ keyword = "pk")%string
  then Some (VInt (post_pk p))
  else if bool_decide (keyword = "title"%string)
  then Some (VText (post_title p))
  else if bool_decide (keyword = "content"%string)
  then Some (VText (post_content p))
  else if bool_decide (keyword = "author" ∨ keyword = "author_id")%string
  then Some (VRef (Some (post_author p)))
  else if bool_decide (keyword = "created_at"%string)
  then Some (VTime (Some (post_created_at p)))
  else if bool_decide (keyword = "updated_at"%string)
  then Some (VTime (Some (post_updated_at p)))
  else if bool_decide (keyword = "views"%string)
  then Some (VInt (post_views p))
  else if bool_decide (keyword = "is_pinned"%string)
  then Some (VBool (post_is_pinned p))
  else if bool_decide (keyword = "is_active"%string)
  then Some (VBool (post_is_active p))
  else if bool_decide (keyword = "deleted_at"%string)
  then Some (VTime (post_deleted_at p))
  else if bool_decide (keyword = "deleted_by" ∨ keyword = "deleted_by_id")%string
  then Some (VRef (post_deleted_by p))
  else if bool_decide (keyword = "delete_reason"%string)
  then Some (VText (post_delete_reason p))
  else None.

(** [Post.objects.filter(keyword=v)], evaluated: the rows it selects.
    The order in which the database returns them ([Meta.ordering], and
    the database's choice among rows that compare equal) is not modelled;
    the properties below speak of the rows that are selected, not of
    their order. *)
Definition Post_objects_filter (keyword : string) (v : value)
  : M (list Post) :=
  if bool_decide (keyword ∈ Post_lookups) then
    gets (fun w =>
      filter (fun p => Post_column keyword p = Some v)
             ((map_to_list (posts w)).*2))
  else raise (FieldError keyword).

(** [PostIndex.index_queryset]. *)
Definition index_queryset : M (list Post) :=
  Post_objects_filter "status" (VText (lit "approved")).

(** The queryset the [home] and [statistics] views start from:
    [Post.objects.filter(is_active=True)]. *)
Definition active_posts : M (list Post) :=
  Post_objects_filter "is_active" (VBool true).

(** ** The admin site's bulk actions on profiles ([community/admin.py]) *)

Definition set_is_banned (b : bool) (p : UserProfile) : UserProfile :=
  {| profile_user := profile_user p; is_banned := b;
     banned_at := banned_at p; banned_by := banned_by p;
     ban_reason := ban_reason p; ban_expires_at := ban_expires_at p |}.

(** [queryset.update(is_banned=b)] on the selected profiles. *)
Definition queryset_update_is_banned (b : bool) (selected : gset Z)
  : M unit :=
  modify (with_profiles (fmap (fun p =>
    if bool_decide (profile_user p ∈ selected) then set_is_banned b p
    else p))).

Definition ban_users : gset Z -> M unit := queryset_update_is_banned true.
Definition unban_users : gset Z -> M unit := queryset_update_is_banned false.

(** ** Notions the properties are stated with *)

(** A reason is accepted by a required field of at most 500 characters
    exactly when, stripped, it is not empty, has at most 500 characters
    and no null character. *)
Definition reason_ok (raw : option text) : Prop :=
  let r := from_option strip [] raw in
  r <> [] /\ (length r <= 500)%nat /\ 0%N ∉ r.


(** The row [create_notification] writes in world [w] for two different
    users. *)
Definition new_notification (ticks : nat -> Z) (s r : Z) (ty msg : text)
  (post comment : option Z) (w : World) : Notification :=
  {| notification_pk := default 0 (sequences w !! "community_notification") + 1;
     recipient := r; sender := s; notification_type := ty;
     notification_post := post; notification_comment := comment;
     message := msg; is_read := false;
     notification_created_at := ticks (clock_reads w) |}.

(** The row [Like.objects.get_or_create] writes in world [w]. *)
Definition new_like (ticks : nat -> Z) (u p : Z) (w : World) : Like :=
  {| like_pk := default 0 (sequences w !! "community_like"%string) + 1;
     like_user_id := u; like_post_id := p;
     like_created_at := ticks (clock_reads w) |}.

(** The index of the clock reading that [admin_ban_user] stores in
    [banned_at] for the user [banned]: the first reading of the request
    when the user has a profile row, the second when the request has to
    create the row, whose [join_date] takes the first. *)
Definition ban_reading (w : World) (banned : Z) : nat :=
  match profiles w !! banned with
  | Some _ => clock_reads w
  | None => S (clock_reads w)
  end.

(** The part of the spec's ban invariant that the views keep: a profile
    that is not banned has no reason and no expiry. *)
Definition ban_cleared (p : UserProfile) : Prop :=
  is_banned p = false -> ban_reason p = [] /\ ban_expires_at p = None.

Definition bans_cleared (w : World) : Prop :=
  map_Forall (fun _ p => ban_cleared p) (profiles w).

(** One request to the ban view or to the unban view, by anybody, with
    any form data. *)
Inductive sanction_step (ticks : nat -> Z)
  (transport : nat -> option exception) : World -> World -> Prop :=
| step_ban (request : Request) (name : text) (w : World) :
    sanction_step ticks transport w
      (snd (admin_ban_user ticks transport request name w))
| step_unban (request : Request) (name : text) (w : World) :
    sanction_step ticks transport w
      (snd (admin_unban_user ticks transport request name w)).

(** The [Like] rows of a user on a post, and the constraint
    [unique_together = ['user', 'post']]. *)
Definition likes_of (u p : Z) (w : World) : list Like :=
  filter (fun l => like_user_id l = u /\ like_post_id l = p) (likes w).

Definition unique_rows (ls : list Like) : Prop :=
  forall u p,
    (length (filter (fun l => like_user_id l = u /\ like_post_id l = p) ls)
     <= 1)%nat.

Definition like_unique (w : World) : Prop := unique_rows (likes w).

(** The sequence of the table is ahead of the rows it numbered. *)
Definition like_sequence_ok (w : World) : Prop :=
  forall l, l ∈ likes w ->
            like_pk l <= default 0 (sequences w !! "community_like"%string).

(** *** Relations between the world before and after a computation *)

(** A computation keeps the relation [S] between what one table holds
    before it and after it. *)
Definition preserves {T A : Type} (tbl : World -> T) (S : relation T)
  (m : M A) : Prop :=
  forall w, S (tbl w) (tbl (snd (m w))).

(** What holds of the table before holds after. *)
Definition keeps {T : Type} (P : T -> Prop) : relation T :=
  fun before after => P before -> P after.

(** Every notification in the table afterwards was there before or has
    the type [ty]. *)
Definition adds_only (ty : text) : relation (list Notification) :=
  fun before after =>
    forall n, n ∈ after -> n ∈ before \/ notification_type n = ty.

Definition valid_types (ns : list Notification) : Prop :=
  Forall (fun n => notification_type n ∈ NOTIFICATION_TYPES) ns.

(** One request to one of the modelled views, by anybody, with any
    data. These are all the views that call [create_notification], and
    the two that delete content. *)
Inductive request_step (ticks : nat -> Z) (cached : nat -> option Z)
  (transport : nat -> option exception) : World -> World -> Prop :=
| step_post_detail (request : Request) (pk : Z) (w : World) :
    request_step ticks cached transport w
      (snd (post_detail ticks cached transport request pk w))
| step_post_delete (request : Request) (pk : Z) (w : World) :
    request_step ticks cached transport w
      (snd (post_delete ticks request pk w))
| step_comment_delete (request : Request) (pk : Z) (w : World) :
    request_step ticks cached transport w
      (snd (comment_delete request pk w))
| step_like_post (request : Request) (pk : Z) (w : World) :
    request_step ticks cached transport w
      (snd (like_post ticks transport request pk w))
| step_follow_user (request : Request) (name : text) (w : World) :
    request_step ticks cached transport w
      (snd (follow_user ticks transport request name w))
| step_admin_delete_post (request : Request) (pk : Z) (w : World) :
    request_step ticks cached transport w
      (snd (admin_delete_post ticks transport request pk w))
| step_admin_delete_comment (request : Request) (pk : Z) (w : World) :
    request_step ticks cached transport w
      (snd (admin_delete_comment ticks transport request pk w))
| step_admin_ban_user (request : Request) (name : text) (w : World) :
    request_step ticks cached transport w
      (snd (admin_ban_user ticks transport request name w))
| step_admin_unban_user (request : Request) (name : text) (w : World) :
    request_step ticks cached transport w
      (snd (admin_unban_user ticks transport request name w)).

(** *** Tactics *)

(** Unfolding the monad. *)
Ltac run :=
  unfold bind, ret, raise, modify, gets, try_except, timezone_now, nextval,
    messages_success, messages_error; simpl.

(** Unfolding the database operations and the small helpers. *)
Ltac unfold_prims :=
  unfold get_Post_or_404, get_Comment_or_404, get_User_or_404,
    UserProfile_get_or_create, UserProfile_save, Post_save, Comment_save,
    Comment_create, Like_get_or_create, Like_delete, Follow_get_or_create,
    Follow_delete, Comment_delete, Post_delete, record_user_activity,
    can_delete_within_time_limit, update_post_views, cache_get, cache_set,
    get_ban_expires_at, Notification_objects_create, group_send.

(** *** A small forum to run the views on *)

(** A clock that shows one microsecond more at every reading, a cache
    that holds nothing, a channel layer that takes every message and one
    that is down. *)
Definition clock0 : nat -> Z := fun n => 1000000000 + Z.of_nat n.
Definition cache0 : nat -> option Z := fun _ => None.
Definition layer_up : nat -> option exception := fun _ => None.
Definition layer_down : nat -> option exception :=
  fun _ => Some (ChannelError "connection refused").

Definition alice : User :=
  {| user_pk := 1; username := lit "alice"; is_staff := true |}.
Definition bob : User :=
  {| user_pk := 2; username := lit "bob"; is_staff := false |}.

(** A post of alice and a post of bob, both created at time 0. *)
Definition post10 : Post :=
  {| post_pk := 10; post_title := lit "Hello"; post_content := lit "first post";
     post_author := 1; post_created_at := 0; post_updated_at := 0;
     post_views := 0; post_is_pinned := false; post_is_active := true;
     post_deleted_at := None; post_deleted_by := None;
     post_delete_reason := [] |}.
Definition post11 : Post :=
  {| post_pk := 11; post_title := lit "Again"; post_content := lit "second post";
     post_author := 2; post_created_at := 0; post_updated_at := 0;
     post_views := 0; post_is_pinned := false; post_is_active := true;
     post_deleted_at := None; post_deleted_by := None;
     post_delete_reason := [] |}.

(** A comment of bob on alice's post, created at time 0. *)
Definition comment20 : Comment :=
  {| comment_pk := 20; comment_post := 10; comment_author := 2;
     comment_content := lit "nice"; comment_created_at := 0;
     comment_parent := None; comment_is_active := true;
     comment_deleted_at := None; comment_deleted_by := None;
     comment_delete_reason := [] |}.

Definition forum (reads : nat) : World :=
  {| users := [alice; bob];
     posts := {[ 10 := post10; 11 := post11 ]};
     comments := {[ 20 := comment20 ]};
     profiles := ∅; likes := []; follows := []; notifications := [];
     activities := [];
     sequences := {[ "community_comment"%string := 20 ]};
     cache_writes := []; channel := []; flash := [];
     clock_reads := reads; cache_reads := 0; pushes := 0 |}.

Definition post_request (u : User) (url : text)
  (data : gmap string text) : Request :=
  {| method := "POST"; user := Some u; path := url; POST := data;
     x_requested_with := None |}.

(** A clock that stands at five minutes and one second. *)
Definition clock301 : nat -> Z :=
  fun _ => timedelta_minutes 5 + timedelta_seconds 1.

(** What alice posts to ban bob for a week. *)
Definition ban_for_a_week : gmap string text :=
  {[ "ban_type"%string := lit "temporary";
     "ban_duration"%string := lit "7";
     "ban_reason"%string := lit "spam" ]}.


(** The forum after alice banned bob for a week. *)
Definition forum_bob_banned : World :=
  snd (admin_ban_user clock0 layer_up
         (post_request alice (lit "/admin/user/bob/ban/") ban_for_a_week)
         (lit "bob") (forum 0)).

(** A clock that stands at one minute. *)
Definition clock60 : nat -> Z := fun _ => timedelta_minutes 1.


(** ** Pinning ([toggle_pin_post]) and the admin site's bulk actions on
    posts ([PostAdmin]) *)

Definition flash_post_is : text := [24086; 23376; 24050]%N.
Definition flash_pin : text := [32622; 39030]%N.
Definition flash_unpin : text := [21462; 28040; 32622; 39030]%N.
Definition flash_bang : text := [65281]%N.

Definition set_is_pinned (b : bool) (p : Post) : Post :=
  {| post_pk := post_pk p; post_title := post_title p;
     post_content := post_content p; post_author := post_author p;
     post_created_at := post_created_at p;
     post_updated_at := post_updated_at p; post_views := post_views p;
     post_is_pinned := b; post_is_active := post_is_active p;
     post_deleted_at := post_deleted_at p;
     post_deleted_by := post_deleted_by p;
     post_delete_reason := post_delete_reason p |}.

Definition set_is_active (b : bool) (p : Post) : Post :=
  {| post_pk := post_pk p; post_title := post_title p;
     post_content := post_content p; post_author := post_author p;
     post_created_at := post_created_at p;
     post_updated_at := post_updated_at p; post_views := post_views p;
     post_is_pinned := post_is_pinned p; post_is_active := b;
     post_deleted_at := post_deleted_at p;
     post_deleted_by := post_deleted_by p;
     post_delete_reason := post_delete_reason p |}.

(** What [post.save()] stores for [p] at time [now]. *)
Definition set_updated_at (now : Z) (p : Post) : Post :=
  {| post_pk := post_pk p; post_title := post_title p;
     post_content := post_content p; post_author := post_author p;
     post_created_at := post_created_at p;
     post_updated_at := now; post_views := post_views p;
     post_is_pinned := post_is_pinned p; post_is_active := post_is_active p;
     post_deleted_at := post_deleted_at p;
     post_deleted_by := post_deleted_by p;
     post_delete_reason := post_delete_reason p |}.

Section Pinning.

Variable ticks : nat -> Z.

Definition toggle_pin_post : Request -> Z -> M HttpResponse :=
  login_required (staff_required (fun u request pk =>
    post <- get_Post_or_404 pk ;;
    let post := set_is_pinned (negb (post_is_pinned post)) post in
    Post_save ticks post ;;
    let action := if post_is_pinned post then flash_pin else flash_unpin in
    messages_success (flash_post_is ++ action ++ flash_bang) ;;
    ret (redirect "post_detail" (str pk)))).

End Pinning.

(** [queryset.update(is_active=b)] and [queryset.update(is_pinned=b)] on
    the selected posts; [update] writes the one column and does not go
    through [save], so [updated_at] stays. *)
Definition queryset_update_post (f : Post -> Post) (selected : gset Z)
  : M unit :=
  modify (with_posts (fmap (fun p =>
    if bool_decide (post_pk p ∈ selected) then f p else p))).

Definition activate_posts : gset Z -> M unit :=
  queryset_update_post (set_is_active true).
Definition deactivate_posts : gset Z -> M unit :=
  queryset_update_post (set_is_active false).
Definition pin_posts : gset Z -> M unit :=
  queryset_update_post (set_is_pinned true).
Definition unpin_posts : gset Z -> M unit :=
  queryset_update_post (set_is_pinned false).

(** A [GET] request. *)
Definition get_request (u : option User) (url : text) : Request :=
  {| method := "GET"; user := u; path := url; POST := ∅;
     x_requested_with := None |}.

(** The row a moderated delete stores for [post]: marked at [now] by
    [actor] for [reason], saved at [saved]. *)
Definition moderated (now saved actor : Z) (reason : text) (post : Post)
  : Post :=
  {| post_pk := post_pk post; post_title := post_title post;
     post_content := post_content post; post_author := post_author post;
     post_created_at := post_created_at post; post_updated_at := saved;
     post_views := post_views post; post_is_pinned := post_is_pinned post;
     post_is_active := false; post_deleted_at := Some now;
     post_deleted_by := Some actor; post_delete_reason := reason |}.

(** The forum after alice deleted bob's post as a moderator. *)
Definition forum_post11_moderated : World :=
  snd (admin_delete_post clock0 layer_up
         (post_request alice (lit "/admin/post/11/delete/")
            {[ "delete_reason"%string := lit "duplicate" ]})
         11 (forum 0)).

(** The row [post_detail] writes in world [w] for a comment. *)
Definition new_comment (ticks : nat -> Z) (post author : Z) (content : text)
  (w : World) : Comment :=
  {| comment_pk := default 0 (sequences w !! "community_comment"%string) + 1;
     comment_post := post; comment_author := author;
     comment_content := content;
     comment_created_at := ticks (clock_reads w); comment_parent := None;
     comment_is_active := true; comment_deleted_at := None;
     comment_deleted_by := None; comment_delete_reason := [] |}.
(** A cache in which every view counter stands at nine. *)
Definition cache9 : nat -> option Z := fun _ => Some 9.

(** What bob posts to comment on a post. *)
Definition comment_nice_post : gmap string text :=
  {[ "content"%string := lit " nice post " ]}.

(** Nobody follows themselves. *)
Definition no_self_follow (fs : list Follow) : Prop :=
  Forall (fun f => follow_follower f <> follow_following f) fs.

(** The row [Follow.objects.get_or_create] writes in world [w]. *)
Definition new_follow (ticks : nat -> Z) (a b : Z) (w : World) : Follow :=
  {| follow_pk := default 0 (sequences w !! "community_follow"%string) + 1;
     follow_follower := a; follow_following := b;
     follow_created_at := ticks (clock_reads w) |}.

(** The sequence of the table is ahead of the rows it numbered. *)
Definition follow_sequence_ok (w : World) : Prop :=
  forall f, f ∈ follows w ->
            follow_pk f <= default 0 (sequences w !! "community_follow"%string).

(** A request a script sends. *)
Definition ajax_request (u : User) (url : text) : Request :=
  {| method := "POST"; user := Some u; path := url; POST := ∅;
     x_requested_with := Some (lit "XMLHttpRequest") |}.

(** ** Reading notifications ([notifications] and
    [mark_notification_read] of [community/views.py],
    [community/context_processors.py], and
    [NotificationConsumer.mark_notification_read] of
    [community/consumers.py]) *)

Definition flash_all_read : text :=
  [24050; 26631; 35760; 25152; 26377; 36890; 30693; 20026; 24050; 35835]%N.

Definition set_is_read (n : Notification) : Notification :=
  {| notification_pk := notification_pk n; recipient := recipient n;
     sender := sender n; notification_type := notification_type n;
     notification_post := notification_post n;
     notification_comment := notification_comment n; message := message n;
     is_read := true; notification_created_at := notification_created_at n |}.

(** [user.notifications.filter(is_read=False).count()]. *)
Definition unread_count (u : Z) (w : World) : nat :=
  length (filter (fun n => recipient n = u /\ is_read n = false)
                 (notifications w)).

(** [notifications_processor]: the value it gives to
    [unread_notifications_count]. *)
Definition notifications_processor (request : Request) (w : World) : nat :=
  match user request with
  | Some u => unread_count (user_pk u) w
  | None => 0%nat
  end.

(** [user.notifications.all().update(is_read=True)]. *)
Definition notifications_update_is_read (u : Z) : M unit :=
  modify (with_notifications (fmap (fun n =>
    if bool_decide (recipient n = u) then set_is_read n else n))).

(** The view [notifications]; the name is taken by the table. *)
Definition notifications_view : Request -> unit -> M HttpResponse :=
  login_required (fun u request _ =>
    if is_POST request then
      notifications_update_is_read (user_pk u) ;;
      messages_success flash_all_read ;;
      ret (redirect "notifications" [])
    else ret (render "community/notifications.html")).

(** [Notification.objects.get(pk=pk, recipient=u)]; [None] stands for
    [Notification.DoesNotExist]. *)
Definition Notification_objects_get (pk u : Z) : M (option Notification) :=
  fun w =>
    match filter (fun n => notification_pk n = pk /\ recipient n = u)
                 (notifications w) with
    | [] => (Ok None, w)
    | [n] => (Ok (Some n), w)
    | _ => (Raise MultipleObjectsReturned, w)
    end.

Definition get_Notification_or_404 (pk u : Z) : M Notification :=
  found <- Notification_objects_get pk u ;;
  match found with
  | Some n => ret n
  | None => raise Http404
  end.

(** [notification.save()] for a row that is in the table. *)
Definition Notification_save (n : Notification) : M unit :=
  modify (with_notifications (fmap (fun x =>
    if bool_decide (notification_pk x = notification_pk n) then n else x))).

(** What [mark_notification_read] returns: a response as the other views
    give it, or the JSON object [{'success': success}]. *)
Inductive ReadResponse :=
| Page (response : HttpResponse)
| JsonSuccess (success : bool).

(** [mark_notification_read], with its [login_required]. *)
Definition mark_notification_read (request : Request) (pk : Z)
  : M ReadResponse :=
  match user request with
  | None => ret (Page (redirect "login" (path request)))
  | Some u =>
      notification <- get_Notification_or_404 pk (user_pk u) ;;
      Notification_save (set_is_read notification) ;;
      if bool_decide (x_requested_with request = Some (lit "XMLHttpRequest"))
      then ret (JsonSuccess true)
      else ret (Page (redirect "notifications" []))
  end.

(** [NotificationConsumer.mark_notification_read]; the identifier comes
    from the client's message and is [None] when the message has none. *)
Definition NotificationConsumer_mark_notification_read (user : User)
  (notification_id : option Z) : M bool :=
  match notification_id with
  | Some id =>
      found <- Notification_objects_get id (user_pk user) ;;
      match found with
      | Some notification =>
          Notification_save (set_is_read notification) ;;
          ret true
      | None => ret false
      end
  | None => ret false
  end.

(** The forum with one unread notification for bob and one for alice. *)
Definition note30 : Notification :=
  {| notification_pk := 30; recipient := 2; sender := 1;
     notification_type := lit "like"; notification_post := Some 11;
     notification_comment := None; message := lit "alice liked your post";
     is_read := false; notification_created_at := 5 |}.
Definition note31 : Notification :=
  {| notification_pk := 31; recipient := 1; sender := 2;
     notification_type := lit "comment"; notification_post := Some 10;
     notification_comment := Some 20;
     message := lit "bob commented on your post";
     is_read := false; notification_created_at := 6 |}.

Definition forum_with_notes : World :=
  with_notifications (fun _ => [note30; note31]) (forum 0).

(** ** Relative times ([get_time_ago] of [Notification], [Message] and
    [Report]) *)

(** [diff.days] and [diff.seconds] of a [timedelta] of [d] microseconds:
    Python keeps a [timedelta] normalised, the seconds and the
    microseconds not negative and the sign in the days. *)
Definition timedelta_days_of (d : Z) : Z := d / 86400000000.
Definition timedelta_seconds_of (d : Z) : Z := d mod 86400000000 / 1000000.

Definition days_ago : text := [22825; 21069]%N.
Definition hours_ago : text := [23567; 26102; 21069]%N.
Definition minutes_ago : text := [20998; 38047; 21069]%N.
Definition just_now : text := [21018; 21018]%N.

Definition get_time_ago (created_at now : Z) : text :=
  let diff := now - created_at in
  if 0 <? timedelta_days_of diff
  then str (timedelta_days_of diff) ++ days_ago
  else if 3600 <? timedelta_seconds_of diff
  then str (timedelta_seconds_of diff / 3600) ++ hours_ago
  else if 60 <? timedelta_seconds_of diff
  then str (timedelta_seconds_of diff / 60) ++ minutes_ago
  else just_now.

(** ** Counting the comments of a post ([Post.get_comment_count],
    [get_reply_count], [get_total_comment_count], [is_trending]) *)

(** [self.comments.count()]: the comments whose [post] is the post. *)
Definition Post_get_comment_count (p : Post) (w : World) : nat :=
  size (filter (fun kc : Z * Comment => comment_post kc.2 = post_pk p)
               (comments w)).

(** The lookup [parent__post=p]: the comment has a parent, and the
    parent's [post] is [p]. *)
Definition parent_post_is (cs : gmap Z Comment) (p : Z) (c : Comment)
  : bool :=
  match comment_parent c with
  | Some q =>
      match cs !! q with
      | Some parent => bool_decide (comment_post parent = p)
      | None => false
      end
  | None => false
  end.

(** [Comment.objects.filter(parent__post=self).count()]. *)
Definition Post_get_reply_count (p : Post) (w : World) : nat :=
  size (filter (fun kc : Z * Comment =>
                  parent_post_is (comments w) (post_pk p) kc.2 = true)
               (comments w)).

Definition Post_get_total_comment_count (p : Post) (w : World) : nat :=
  Post_get_comment_count p w + Post_get_reply_count p w.

Definition Post_is_trending (p : Post) (w : World) : bool :=
  (10 <? get_likes_count (post_pk p) w)%nat
  || (5 <? Post_get_total_comment_count p w)%nat.

(** The comments on a post that are not replies, and those that are. *)
Definition top_level_on (p : Z) (w : World) : nat :=
  size (filter (fun kc : Z * Comment =>
                  comment_post kc.2 = p /\ comment_parent kc.2 = None)
               (comments w)).

Definition replies_on (p : Z) (w : World) : nat :=
  size (filter (fun kc : Z * Comment =>
                  comment_post kc.2 = p /\ comment_parent kc.2 <> None)
               (comments w)).

(** A reply is on the post of the comment it replies to. *)
Definition replies_stay_on_the_post (w : World) : Prop :=
  forall k c q,
    comments w !! k = Some c -> comment_parent c = Some q ->
    exists parent,
      comments w !! q = Some parent /\ comment_post parent = comment_post c.

(** Alice's reply to bob's comment on her post. *)
Definition comment21 : Comment :=
  {| comment_pk := 21; comment_post := 10; comment_author := 1;
     comment_content := lit "thanks"; comment_created_at := 1;
     comment_parent := Some 20; comment_is_active := true;
     comment_deleted_at := None; comment_deleted_by := None;
     comment_delete_reason := [] |}.

Definition forum_with_reply : World :=
  with_comments (insert 21 comment21) (forum 0).

(** ** Checking the content of an upload ([validate_file_content] of
    [community/utils/validators.py]) *)

Module Upload.

Import Byte.

Abbreviation bytes := (list byte).

#[export] Instance byte_eq_decision : EqDecision byte := Byte.byte_eq_dec.

(** [s.startswith(p)] and [s[a:b]] for [bytes]. *)
Fixpoint startswith (s p : bytes) {struct p} : bool :=
  match p, s with
  | [], _ => true
  | c :: p', d :: s' => Byte.eqb c d && startswith s' p'
  | _ :: _, [] => false
  end.

Definition slice (a b : nat) (s : bytes) : bytes := take (b - a) (drop a s).

Definition JPEG : bytes := [xff; xd8; xff].
Definition PNG : bytes := [x89; x50; x4e; x47; x0d; x0a; x1a; x0a].
Definition GIF87a : bytes := [x47; x49; x46; x38; x37; x61].
Definition GIF89a : bytes := [x47; x49; x46; x38; x39; x61].
Definition RIFF : bytes := [x52; x49; x46; x46].
Definition WEBP : bytes := [x57; x45; x42; x50].
Definition PDF : bytes := [x25; x50; x44; x46].
Definition PK : bytes := [x50; x4b].

(** The content of the file is not valid. *)
Definition msg_content_invalid : text :=
  [25991; 20214; 20869; 23481; 39564; 35777; 22833; 36133; 65292; 35831;
   30830; 20445; 19978; 20256; 30340; 26159; 26377; 25928; 25991; 20214;
   12290]%N.
(** The content of the file cannot be read. *)
Definition msg_unreadable : text :=
  [26080; 27861; 35835; 21462; 25991; 20214; 20869; 23481; 65292; 35831;
   26816; 26597; 25991; 20214; 26159; 21542; 25439; 22351; 12290]%N.

(** What the validator can raise; both are subclasses of [Exception]. *)
Inductive Raised :=
| OSError
| ValidationError (message : text).

(** The body of the [try]: [None] is a plain [return]. A file that cannot
    be opened or read is [None : option bytes]. *)
Definition validate_file_content_body (file : option bytes)
  : option Raised :=
  match file with
  | None => Some OSError
  | Some content =>
      let header := take 8 content in
      if startswith header JPEG then None
      else if startswith header PNG then None
      else if startswith header GIF87a || startswith header GIF89a then None
      else if startswith header RIFF
              && bool_decide (slice 8 12 header = WEBP) then None
      else if startswith header PDF then None
      else if startswith header PK then None
      else Some (ValidationError msg_content_invalid)
  end.

(** [validate_file_content]: whatever the body raises is caught by
    [except Exception] and replaced. *)
Definition validate_file_content (file : option bytes) : option Raised :=
  match validate_file_content_body file with
  | None => None
  | Some _ => Some (ValidationError msg_unreadable)
  end.

End Upload.

(** ** The rate limit on posted requests ([RateLimitMiddleware] of
    [community/middleware.py])

    The middleware keeps, in the cache and for each client, the times of
    the requests it let through. A time is [int(time.time())], a number
    of seconds. A call of [check_rate_limit] is taken to happen at one
    instant: the clock reading of the call is also the time at which the
    cache decides whether an entry has run out and from which it counts
    the timeout of the entry it stores. The cache drops an entry when its
    timeout has run out. It may also drop entries earlier: Django's
    default cache culls a part of its entries when it holds 300 of them.
    Such a drop is an event of its own in a sequence of calls ([Cull]). *)

Record Entry := {
  entry_value : list Z;
  entry_expires : Z
}.

(** [cache.get(key, [])] and [cache.set(key, value, timeout)] at the
    time [now]. *)
Definition limiter_cache_get (cache : gmap text Entry) (key : text) (now : Z)
  : list Z :=
  match cache !! key with
  | Some e => if entry_expires e <=? now then [] else entry_value e
  | None => []
  end.

Definition limiter_cache_set (cache : gmap text Entry) (key : text)
  (value : list Z) (timeout now : Z) : gmap text Entry :=
  <[key := {| entry_value := value; entry_expires := now + timeout |}]> cache.

(** The cache drops the entries of [keys], whatever their timeout. *)
Definition limiter_cache_cull (cache : gmap text Entry) (keys : gset text)
  : gmap text Entry :=
  filter (fun ke : text * Entry => ke.1 ∉ keys) cache.

(** [check_rate_limit(key, limit, window)] when the clock shows
    [current_time]; the defaults are [limit=10] and [window=60]. *)
Definition check_rate_limit (key : text) (limit : nat) (window : Z)
  (current_time : Z) (cache : gmap text Entry) : bool * gmap text Entry :=
  let window_start := current_time - window in
  let requests := limiter_cache_get cache key current_time in
  let requests := filter (fun req_time => window_start < req_time) requests in
  if (limit <=? length requests)%nat then (false, cache)
  else
    (true,
     limiter_cache_set cache key (requests ++ [current_time]) window
       current_time).

(** What the middleware reads of [request.META]. *)
Record Meta := {
  HTTP_X_FORWARDED_FOR : option text;
  REMOTE_ADDR : option text
}.

(** [s.split(',')[0]]. *)
Fixpoint before_comma (s : text) : text :=
  match s with
  | [] => []
  | c :: s' => if (c =? 44)%N then [] else c :: before_comma s'
  end.

Definition get_client_ip (meta : Meta) : option text :=
  match HTTP_X_FORWARDED_FOR meta with
  | Some x_forwarded_for =>
      if truthy x_forwarded_for then Some (before_comma x_forwarded_for)
      else REMOTE_ADDR meta
  | None => REMOTE_ADDR meta
  end.

(** The key [f"rate_limit:{client_ip}:{user_id}"]; a missing address is
    formatted as [None]. *)
Definition rate_limit_key (meta : Meta) (u : option User) : text :=
  lit "rate_limit:" ++ default (lit "None") (get_client_ip meta) ++ lit ":"
  ++ match u with Some u => str (user_pk u) | None => lit "anonymous" end.

(** [RateLimitMiddleware.__call__], up to the decision: [true] hands the
    request on to the view, [false] answers it with status 429. *)
Definition RateLimitMiddleware_call (method : string) (meta : Meta)
  (u : option User) (current_time : Z) (cache : gmap text Entry)
  : bool * gmap text Entry :=
  if bool_decide (method = "POST"%string)
  then check_rate_limit (rate_limit_key meta u) 10 60 current_time cache
  else (true, cache).

(** What happens to the cache of the middleware: a call of
    [check_rate_limit] for a key at a time, or a drop of entries by the
    cache. *)
Inductive Event :=
| Call (key : text) (current_time : Z)
| Cull (keys : gset text).

(** The times at which the calls of a trace that carry [key] were let
    through, the cache being [cache] at its beginning. *)
Fixpoint let_through (key : text) (limit : nat) (window : Z)
  (trace : list Event) (cache : gmap text Entry) : list Z :=
  match trace with
  | [] => []
  | Call k t :: trace' =>
      let r := check_rate_limit k limit window t cache in
      if r.1 && bool_decide (k = key)
      then t :: let_through key limit window trace' r.2
      else let_through key limit window trace' r.2
  | Cull keys :: trace' =>
      let_through key limit window trace' (limiter_cache_cull cache keys)
  end.

(** The decisions of the middleware on a sequence of requests. *)
Fixpoint decisions (requests : list (string * Meta * option User * Z))
  (cache : gmap text Entry) : list bool :=
  match requests with
  | [] => []
  | (method, meta, u, t) :: requests' =>
      let r := RateLimitMiddleware_call method meta u t cache in
      r.1 :: decisions requests' r.2
  end.

(** What the cache holds for [key] agrees, once filtered, with the
    times [history] at which its requests were let through, for every
    time from [t0] on; and nothing was let through after [t0]. *)
Definition cache_reflects (key : text) (window : Z)
  (cache : gmap text Entry) (history : list Z) (t0 : Z) : Prop :=
  Forall (fun x => x <= t0) history /\
  forall now, t0 <= now ->
    filter (fun x => now - window < x) (limiter_cache_get cache key now)
    = filter (fun x => now - window < x) history.

(** No span of [window] seconds holds more than [limit] of the times. *)
Definition within_limit (limit : nat) (window : Z) (history : list Z)
  : Prop :=
  forall t : Z,
    (length (filter (fun x => (t - window < x /\ x <= t)%Z) history)
     <= limit)%nat.

(** The times of the calls of a trace as a clock gives them: none is
    before [t0], and none before the one it follows. *)
Fixpoint clock_ordered (t0 : Z) (trace : list Event) : Prop :=
  match trace with
  | [] => True
  | Call _ t :: trace' => t0 <= t /\ clock_ordered t trace'
  | Cull _ :: trace' => clock_ordered t0 trace'
  end.

(** The cache never drops the entry of [key] before its timeout. *)
Fixpoint keeps_entry (key : text) (trace : list Event) : Prop :=
  match trace with
  | [] => True
  | Call _ _ :: trace' => keeps_entry key trace'
  | Cull keys :: trace' => (key ∉ keys) /\ keeps_entry key trace'
  end.

(** Three calls for one client in three seconds, a drop of entries of
    other clients, and a fourth call a minute later. *)
Definition burst : list Event :=
  [Call (lit "k") 0; Call (lit "k") 1; Cull {[ lit "j" ]}; Call (lit "k") 2;
   Call (lit "k") 61].

(** Three calls for one client in three seconds, the cache dropping the
    client's entry before the third. *)
Definition burst_culled : list Event :=
  [Call (lit "k") 0; Call (lit "k") 1; Cull {[ lit "k" ]}; Call (lit "k") 2].

(** A request that claims to be forwarded for [address]. *)
Definition forwarded_for (address : string) : Meta :=
  {| HTTP_X_FORWARDED_FOR := Some (lit address);
     REMOTE_ADDR := Some (lit "203.0.113.7") |}.

(** ** Properties *)

(** *** Text *)

Lemma startswith_app (p s : text) : startswith (p ++ s) p = true.
Proof.
  induction p as [|c p IH]; simpl; [done|].
  by rewrite N.eqb_refl, IH.
Qed.

Lemma startswith_inv (p s : text) :
  startswith s p = true -> exists b, s = p ++ b.
Proof.
  revert s; induction p as [|c p IH]; intros s H; simpl in *.
  - by exists s.
  - destruct s as [|d s]; [done|].
    apply andb_prop in H as [Hc Hp]. apply N.eqb_eq in Hc as ->.
    destruct (IH _ Hp) as [b ->]. by exists b.
Qed.

Lemma text_in_startswith (p s : text) :
  startswith s p = true -> text_in p s = true.
Proof. intros H. destruct s; simpl; by rewrite H. Qed.

(** [text_in] is Python's substring test. *)
Lemma text_in_spec (p s : text) :
  text_in p s = true <-> exists a b, s = a ++ p ++ b.
Proof.
  split.
  - induction s as [|d s IH]; simpl; intros H.
    + rewrite orb_false_r in H. apply startswith_inv in H as [b Hb].
      by exists [], b.
    + apply orb_prop in H as [H|H].
      * apply startswith_inv in H as [b Hb]. by exists [], b.
      * destruct (IH H) as (a & b & ->). by exists (d :: a), b.
  - intros (a & b & ->). induction a as [|d a IH]; simpl.
    + apply text_in_startswith, startswith_app.
    + by rewrite IH, orb_true_r.
Qed.

Lemma text_in_app (a p b : text) : text_in p (a ++ p ++ b) = true.
Proof. apply text_in_spec. by exists a, b. Qed.

Lemma truthy_nonempty (s : text) : truthy s = true <-> s <> [].
Proof. by destruct s. Qed.

(** *** Forms *)

(** What [CharField.clean] accepts, and what it returns. *)
Lemma CharField_clean_Valid required max_length raw value :
  CharField_clean required max_length raw = Valid value ->
  value = from_option strip [] raw /\
  (required = true -> value <> []) /\
  (forall n, max_length = Some n -> (length value <= n)%nat) /\
  (0%N ∉ value).
Proof.
  unfold CharField_clean.
  set (v := match raw with None => [] | Some s => strip s end).
  assert (Hv : v = from_option strip [] raw) by by destruct raw.
  destruct (truthy v) eqn:Ht; simpl.
  - destruct max_length as [n|].
    + destruct (n <? length v)%nat eqn:Hn; [done|].
      destruct (existsb (N.eqb 0) v) eqn:H0; [done|].
      intros [= <-]. split; [done|]. split; [|split].
      * intros _. by apply truthy_nonempty.
      * intros m [= <-]. apply Nat.ltb_ge in Hn. lia.
      * intros Hin. apply not_true_iff_false in H0. apply H0.
        apply existsb_exists. exists 0%N. split; [|done].
        by apply list_elem_of_In.
    + destruct (existsb (N.eqb 0) v) eqn:H0; [done|].
      intros [= <-]. split; [done|]. split; [|split].
      * intros _. by apply truthy_nonempty.
      * done.
      * intros Hin. apply not_true_iff_false in H0. apply H0.
        apply existsb_exists. exists 0%N. split; [|done].
        by apply list_elem_of_In.
  - destruct required; [done|]. intros [= <-].
    destruct v; [|done]. split; [done|]. split; [done|]. split.
    + intros n _. simpl. lia.
    + apply not_elem_of_nil.
Qed.

Lemma required_reason_valid_iff (raw : option text) :
  is_valid (CharField_clean true (Some 500%nat) raw) = true <-> reason_ok raw.
Proof.
  unfold reason_ok. split.
  - destruct (CharField_clean true (Some 500%nat) raw) as [v|c] eqn:E; [|done].
    intros _. apply CharField_clean_Valid in E as (-> & Hne & Hlen & H0).
    split; [by apply Hne|]. split; [by apply Hlen|done].
  - intros (Hne & Hlen & H0). unfold CharField_clean.
    replace (match raw with None => [] | Some s => strip s end)
      with (from_option strip [] raw) by by destruct raw.
    apply truthy_nonempty in Hne. rewrite Hne. simpl.
    replace (500 <? length (from_option strip [] raw))%nat with false
      by (symmetry; apply Nat.ltb_ge; lia).
    destruct (existsb (N.eqb 0) (from_option strip [] raw)) eqn:E; [|done].
    exfalso. apply H0. apply existsb_exists in E as (x & Hx & Hx0).
    apply N.eqb_eq in Hx0 as <-. by apply list_elem_of_In.
Qed.

(** *** The derived ban status *)

(** The source's three-way test is the formula
    [is_banned and (ban_expires_at is None or now < ban_expires_at)]. *)
Lemma is_currently_banned_formula (U : UserProfile) (now : Z) :
  is_currently_banned U now =
  is_banned U && from_option (fun expires => now <? expires) true
                             (ban_expires_at U).
Proof.
  unfold is_currently_banned. by destruct (is_banned U), (ban_expires_at U).
Qed.

(** C2. The ban status read is determined by the stored [is_banned] and
    [ban_expires_at] and by the time of the read; it is false whenever
    [is_banned] is false, true for a permanent ban at any time, and false
    for a temporary ban from its expiry on, although [is_banned] is still
    stored true. *)
Theorem C2_ban_status_is_derived (U : UserProfile) (now : Z) :
  (forall U', is_banned U' = is_banned U ->
              ban_expires_at U' = ban_expires_at U ->
              is_currently_banned U' now = is_currently_banned U now) /\
  (is_banned U = false -> is_currently_banned U now = false) /\
  (is_banned U = true -> ban_expires_at U = None ->
   is_currently_banned U now = true) /\
  (forall expires, is_banned U = true -> ban_expires_at U = Some expires ->
                   expires <= now ->
                   is_currently_banned U now = false /\
                   is_temporarily_banned U now = false /\
                   is_banned U = true).
Proof.
  repeat split.
  - intros U' Hb He. unfold is_currently_banned. by rewrite Hb, He.
  - intros Hb. unfold is_currently_banned. by rewrite Hb.
  - intros Hb He. unfold is_currently_banned. by rewrite Hb, He.
  - unfold is_currently_banned. rewrite H, H0. simpl. by apply Z.ltb_ge.
  - unfold is_temporarily_banned. rewrite H, H0. simpl. by apply Z.ltb_ge.
  - done.
Qed.

(** *** The search index *)

Lemma Post_column_is_active (p : Post) :
  Post_column "is_active" p = Some (VBool (post_is_active p)).
Proof. reflexivity. Qed.

Lemma Post_objects_filter_is_active (b : bool) (w : World) (p : Post) :
  forall ps, Post_objects_filter "is_active" (VBool b) w = (Ok ps, w) ->
  p ∈ ps <-> (exists k, posts w !! k = Some p) /\ post_is_active p = b.
Proof.
  intros ps. unfold Post_objects_filter, gets. simpl. intros [= <-].
  rewrite list_elem_of_filter, list_elem_of_fmap, Post_column_is_active.
  split.
  - intros [Hc ([k q] & -> & Hin)]. apply elem_of_map_to_list in Hin.
    split; [by exists k|]. congruence.
  - intros [[k Hk] Hb]. split.
    + by rewrite Hb.
    + exists (k, p). split; [done|]. by apply elem_of_map_to_list.
Qed.

(** The queryset of the [home] view holds exactly the active posts. *)
Lemma active_posts_spec (w : World) :
  exists ps, active_posts w = (Ok ps, w) /\
    forall p, p ∈ ps <->
      (exists k, posts w !! k = Some p) /\ post_is_active p = true.
Proof.
  eexists. split; [reflexivity|]. intros p.
  by apply Post_objects_filter_is_active.
Qed.

(** C8, as the code has it. [index_queryset] filters on [status], which is
    no field of [Post]: building the queryset raises [FieldError] for every
    table of posts, and [is_active] is never looked at. *)
Theorem C8_index_queryset_raises (w : World) :
  index_queryset w = (Raise (FieldError "status"), w).
Proof. reflexivity. Qed.

(** On the forum with its two active posts: the index gets an exception,
    the [home] view gets both posts. *)
Example index_queryset_on_the_forum :
  fst (index_queryset (forum 0)) = Raise (FieldError "status") /\
  exists ps, fst (active_posts (forum 0)) = Ok ps /\ ps ≡ₚ [post10; post11].
Proof.
  split; [by vm_compute|]. eexists. split; [by vm_compute|].
  apply Permutation_swap.
Qed.

(** *** Notification fanout *)

Section Fanout.

Variable ticks : nat -> Z.
Variable transport : nat -> option exception.

Lemma create_notification_other (s r : Z) (ty msg : text)
  (post comment : option Z) (w : World) :
  s <> r ->
  exists w',
    create_notification ticks transport s r ty msg post comment w
    = (Ok (Some (new_notification ticks s r ty msg post comment w)), w') /\
    notifications w'
    = notifications w ++ [new_notification ticks s r ty msg post comment w] /\
    users w' = users w /\ posts w' = posts w /\ comments w' = comments w /\
    profiles w' = profiles w /\ likes w' = likes w /\ follows w' = follows w /\
    flash w' = flash w /\ clock_reads w' = S (clock_reads w) /\
    pushes w' = S (pushes w) /\
    channel w' = match transport (pushes w) with
                 | Some _ => channel w
                 | None =>
                     channel w ++
                     [(lit "notifications_" ++ str r,
                       {| payload_type := lit "notification_message";
                          payload_message := msg;
                          payload_notification_id :=
                            default 0 (sequences w !! "community_notification") + 1;
                          payload_notification_type := ty |})]
                 end.
Proof.
  intros Hne. unfold create_notification.
  rewrite bool_decide_eq_false_2 by done. simpl.
  unfold Notification_objects_create, group_send. run.
  destruct (transport (pushes w)); simpl; eexists; repeat split.
Qed.

Lemma create_notification_self (x : Z) (ty msg : text)
  (post comment : option Z) (w : World) :
  create_notification ticks transport x x ty msg post comment w
  = (Ok None, w).
Proof.
  unfold create_notification. by rewrite bool_decide_eq_true_2.
Qed.

(** C3. A notification from a user to that same user returns without a
    row and without a push: the world is left as it was. Between two
    different users exactly one row is appended to the table, with the
    recipient, sender, type and message of the call. *)
Theorem C3_notify_self_or_other (s r : Z) (ty msg : text)
  (post comment : option Z) (w : World) :
  (s = r ->
   create_notification ticks transport s r ty msg post comment w
   = (Ok None, w)) /\
  (s <> r ->
   exists n w',
     create_notification ticks transport s r ty msg post comment w
     = (Ok (Some n), w') /\
     notifications w' = notifications w ++ [n] /\
     recipient n = r /\ sender n = s /\ notification_type n = ty /\
     message n = msg /\ is_read n = false).
Proof.
  split.
  - intros ->. apply create_notification_self.
  - intros Hne.
    destruct (create_notification_other s r ty msg post comment w Hne)
      as (w' & Hrun & Hn & _).
    exists (new_notification ticks s r ty msg post comment w), w'.
    by repeat split.
Qed.

End Fanout.

(** C4. When the push raises, whatever the exception, [create_notification]
    still returns the notification, the row is in the table and nothing
    reached the channel; and the value returned and the table are the same
    under every behaviour of the transport. *)
Theorem C4_push_failure_is_discarded (ticks : nat -> Z)
  (transport : nat -> option exception) (s r : Z) (ty msg : text)
  (post comment : option Z) (w : World) (e : exception) :
  s <> r ->
  transport (pushes w) = Some e ->
  exists n w',
    create_notification ticks transport s r ty msg post comment w
    = (Ok (Some n), w') /\
    notifications w' = notifications w ++ [n] /\
    channel w' = channel w /\
    forall transport' : nat -> option exception,
      exists w'',
        create_notification ticks transport' s r ty msg post comment w
        = (Ok (Some n), w'') /\
        notifications w'' = notifications w'.
Proof.
  intros Hne He.
  destruct (create_notification_other ticks transport s r ty msg post comment
              w Hne) as (w' & Hrun & Hn & Hrest).
  exists (new_notification ticks s r ty msg post comment w), w'.
  split; [done|]. split; [done|]. split.
  - destruct Hrest as (_ & _ & _ & _ & _ & _ & _ & _ & _ & ->).
    by rewrite He.
  - intros transport'.
    destruct (create_notification_other ticks transport' s r ty msg post
                comment w Hne) as (w'' & Hrun' & Hn' & _).
    exists w''. split; [done|]. by rewrite Hn, Hn'.
Qed.

(** *** Moderated delete *)

Section Moderation.

Variable ticks : nat -> Z.
Variable transport : nat -> option exception.

(** C1, as the code has it. A staff actor posts a reason the form accepts:
    the post is kept and marked deleted, with the time of the first clock
    reading of the request, the actor and the cleaned reason (the posted
    text with surrounding whitespace stripped, not empty, at most 500
    characters). When the actor is not the post's author, exactly one
    notification is appended, addressed to the author, and its message
    contains the cleaned reason; when the actor is the author, there is
    none. *)
Theorem C1_moderated_delete (w : World) (u : User) (request : Request)
  (pk : Z) (post : Post) (reason : text) :
  user request = Some u ->
  is_staff u = true ->
  method request = "POST"%string ->
  posts w !! pk = Some post ->
  post_pk post = pk ->
  DeletePostForm (POST request) = Valid reason ->
  exists w',
    admin_delete_post ticks transport request pk w
    = (Ok (redirect "home" []), w') /\
    reason = from_option strip [] (POST request !! "delete_reason") /\
    reason_ok (POST request !! "delete_reason") /\
    (exists p',
       posts w' !! pk = Some p' /\
       post_is_active p' = false /\
       post_deleted_at p' = Some (ticks (clock_reads w)) /\
       post_deleted_by p' = Some (user_pk u) /\
       post_delete_reason p' = reason /\
       post_author p' = post_author post /\
       post_title p' = post_title post /\
       post_content p' = post_content post) /\
    (user_pk u <> post_author post ->
     exists n,
       notifications w' = notifications w ++ [n] /\
       recipient n = post_author post /\
       sender n = user_pk u /\
       notification_post n = Some pk /\
       text_in reason (message n) = true) /\
    (user_pk u = post_author post -> notifications w' = notifications w).
Proof.
  intros Hu Hstaff Hmethod Hpost Hpk Hform.
  assert (Hreason : reason = from_option strip [] (POST request !! "delete_reason")
                    /\ reason_ok (POST request !! "delete_reason")).
  { split.
    - by apply CharField_clean_Valid in Hform as [-> _].
    - apply required_reason_valid_iff. unfold DeletePostForm in Hform.
      by rewrite Hform. }
  destruct Hreason as [Hstrip Hok].
  unfold admin_delete_post, login_required, staff_required.
  rewrite Hu, Hstaff. simpl.
  unfold get_Post_or_404, is_POST, Post_save. run.
  rewrite Hpost, Hmethod, bool_decide_eq_true_2 by done.
  rewrite Hform. simpl.
  destruct (decide (user_pk u = post_author post)) as [Heq|Hne].
  - rewrite Heq, create_notification_self. simpl.
    eexists. split; [reflexivity|]. split; [done|]. split; [done|].
    simpl. split; [|split; [done|done]].
    eexists. rewrite Hpk, lookup_insert_eq. split; [reflexivity|].
    simpl. by rewrite ?Heq.
  - match goal with
    | |- context [create_notification ?t ?tr ?s ?r ?ty ?m ?p ?c ?w1] =>
        destruct (create_notification_other t tr s r ty m p c w1 Hne)
          as (w2 & -> & Hn & _ & Hposts & _)
    end.
    simpl. eexists. split; [reflexivity|]. split; [done|]. split; [done|].
    simpl. split; [|split; [|done]].
    + eexists. rewrite Hposts. simpl. rewrite Hpk, lookup_insert_eq.
      split; [reflexivity|]. done.
    + intros _. eexists. split; [exact Hn|].
      split; [done|]. split; [done|]. split; [by rewrite <- Hpk|].
      apply text_in_spec.
      exists (msg_post_deleted_open ++ post_title post
                ++ msg_post_deleted_reason), [].
      by rewrite app_nil_r, <- !app_assoc.
Qed.

End Moderation.

(** Alice, who is staff, deletes bob's post for the reason "duplicate":
    bob gets the one notification. *)
Lemma C1_moderated_delete_witness :
  exists w',
    admin_delete_post clock0 layer_up
      (post_request alice (lit "/admin/post/11/delete/")
         {[ "delete_reason"%string := lit "duplicate" ]}) 11 (forum 0)
    = (Ok (redirect "home" []), w') /\
    (exists n, notifications w' = [n] /\ recipient n = 2 /\
               text_in (lit "duplicate") (message n) = true).
Proof.
  destruct (C1_moderated_delete clock0 layer_up (forum 0) alice
              (post_request alice (lit "/admin/post/11/delete/")
                 {[ "delete_reason"%string := lit "duplicate" ]})
              11 post11 (lit "duplicate"))
    as (w' & Hrun & _ & _ & _ & Hn & _);
    [reflexivity | reflexivity | reflexivity | reflexivity | reflexivity
    | vm_compute; reflexivity |].
  exists w'. split; [exact Hrun|].
  destruct Hn as (n & Hn & Hr & _ & _ & Hm); [vm_compute; discriminate|].
  exists n. split; [exact Hn|]. split; [exact Hr|exact Hm].
Defined.

(** C1 as the spec states it does not hold: when the staff actor deletes a
    post of their own, the author receives no notification. Alice deletes
    her post 10 for the reason "duplicate". *)
Lemma C1_counterexample_own_post :
  ~ (forall (ticks : nat -> Z) (transport : nat -> option exception)
       (w : World) (u : User) (request : Request) (pk : Z) (post : Post)
       (reason : text),
       user request = Some u -> is_staff u = true ->
       method request = "POST"%string ->
       posts w !! pk = Some post -> post_pk post = pk ->
       POST request !! "delete_reason" = Some reason ->
       reason <> [] -> (length reason <= 500)%nat ->
       exists w',
         admin_delete_post ticks transport request pk w
         = (Ok (redirect "home" []), w') /\
         (exists p',
            posts w' !! pk = Some p' /\ post_is_active p' = false /\
            post_deleted_at p' = Some (ticks (clock_reads w)) /\
            post_deleted_by p' = Some (user_pk u) /\
            post_delete_reason p' = reason) /\
         (exists n,
            filter (fun n => recipient n = post_author post)
                   (notifications w')
            = filter (fun n => recipient n = post_author post)
                     (notifications w) ++ [n] /\
            text_in reason (message n) = true)).
Proof.
  intros H.
  destruct (H clock0 layer_up (forum 0) alice
              (post_request alice (lit "/admin/post/10/delete/")
                 {[ "delete_reason"%string := lit "duplicate" ]})
              10 post10 (lit "duplicate"))
    as (w' & Hrun & _ & n & Hn & _);
    [reflexivity | reflexivity | reflexivity | reflexivity | reflexivity
    | reflexivity | discriminate | vm_compute; lia |].
  vm_compute in Hrun. injection Hrun as <-.
  vm_compute in Hn. discriminate.
Qed.

(** A ban that ran out at time 100 is read at time 100. *)
Lemma C2_ban_status_is_derived_witness :
  is_currently_banned
    {| profile_user := 2; is_banned := true; banned_at := Some 0;
       banned_by := Some 1; ban_reason := lit "spam";
       ban_expires_at := Some 100 |} 100 = false.
Proof.
  apply (C2_ban_status_is_derived
           {| profile_user := 2; is_banned := true; banned_at := Some 0;
              banned_by := Some 1; ban_reason := lit "spam";
              ban_expires_at := Some 100 |} 100) with (expires := 100);
    [reflexivity | reflexivity | lia].
Defined.

(** Alice notifies bob. *)
Lemma C3_notify_self_or_other_witness :
  exists n w',
    create_notification clock0 layer_up 1 2 (lit "like") (lit "hi") None None
      (forum 0) = (Ok (Some n), w') /\
    notifications w' = [n].
Proof.
  destruct (proj2 (C3_notify_self_or_other clock0 layer_up 1 2 (lit "like")
                     (lit "hi") None None (forum 0)))
    as (n & w' & Hrun & Hn & _); [lia|].
  exists n, w'. split; [exact Hrun|exact Hn].
Defined.

(** Alice notifies bob while the channel layer is down. *)
Lemma C4_push_failure_is_discarded_witness :
  exists n w',
    create_notification clock0 layer_down 1 2 (lit "like") (lit "hi") None
      None (forum 0) = (Ok (Some n), w') /\
    notifications w' = [n] /\ channel w' = [].
Proof.
  destruct (C4_push_failure_is_discarded clock0 layer_down 1 2 (lit "like")
              (lit "hi") None None (forum 0)
              (ChannelError "connection refused"))
    as (n & w' & Hrun & Hn & Hc & _); [lia | reflexivity |].
  exists n, w'. split; [exact Hrun|]. split; [exact Hn|exact Hc].
Defined.

(** *** Self-service delete *)

Lemma collect_replies_incl (fuel : nat) (cs : gmap Z Comment) (ids : gset Z) :
  ids ⊆ collect_replies fuel cs ids.
Proof.
  revert ids. induction fuel as [|fuel IH]; intros ids; simpl; [done|].
  etrans; [|apply IH]. set_solver.
Qed.

(** The deleted comments are gone from the table. *)
Lemma delete_comments_lookup (ids : gset Z) (w : World) (k : Z) :
  k ∈ ids -> comments (delete_comments ids w) !! k = None.
Proof.
  intros Hk. unfold delete_comments. simpl.
  apply map_lookup_filter_None. right. intros c _ Hnot. simpl in Hnot.
  apply Hnot. by apply collect_replies_incl.
Qed.

Lemma delete_comments_posts (ids : gset Z) (w : World) :
  posts (delete_comments ids w) = posts w.
Proof. reflexivity. Qed.

Section SelfDelete.

Variable ticks : nat -> Z.

(** The author deletes a post within five minutes of its creation: the
    row is removed. *)
Lemma post_delete_within_window (w : World) (u : User) (request : Request)
  (pk : Z) (post : Post) :
  user request = Some u ->
  method request = "POST"%string ->
  pk <> 0 ->
  text_in (lit "comment") (path request) = false ->
  posts w !! pk = Some post -> post_pk post = pk ->
  post_author post = user_pk u ->
  ticks (clock_reads w) - post_created_at post <= timedelta_minutes 5 ->
  exists w',
    post_delete ticks request pk w = (Ok (redirect "home" []), w') /\
    posts w' !! pk = None.
Proof.
  intros Hu Hm Hpk0 Hpath Hpost Hpk Hauthor Hnow.
  unfold post_delete, login_required, author_required. rewrite Hu.
  apply Z.eqb_neq in Hpk0. rewrite Hpk0, Hpath.
  unfold get_Post_or_404, can_delete_within_time_limit, is_POST, Post_delete.
  run. rewrite Hpost. simpl.
  rewrite bool_decide_eq_true_2 by done. simpl. rewrite Hpost. simpl.
  apply Z.leb_le in Hnow. rewrite Hnow. simpl.
  rewrite Hm, bool_decide_eq_true_2 by done.
  eexists. split; [reflexivity|]. simpl. rewrite Hpk. apply lookup_delete_eq.
Qed.

(** The author tries after more than five minutes: the post stays, and the
    flash message says that the window was exceeded. *)
Lemma post_delete_window_expired (w : World) (u : User) (request : Request)
  (pk : Z) (post : Post) :
  user request = Some u ->
  pk <> 0 ->
  text_in (lit "comment") (path request) = false ->
  posts w !! pk = Some post -> post_pk post = pk ->
  post_author post = user_pk u ->
  timedelta_minutes 5 < ticks (clock_reads w) - post_created_at post ->
  exists w',
    post_delete ticks request pk w
    = (Ok (redirect "post_detail" (str pk)), w') /\
    posts w' = posts w /\ comments w' = comments w /\ likes w' = likes w /\
    flash w' = flash w ++ [(ERROR, flash_window_exceeded)].
Proof.
  intros Hu Hpk0 Hpath Hpost Hpk Hauthor Hnow.
  unfold post_delete, login_required, author_required. rewrite Hu.
  apply Z.eqb_neq in Hpk0. rewrite Hpk0, Hpath.
  unfold get_Post_or_404, can_delete_within_time_limit, is_POST, Post_delete.
  run. rewrite Hpost. simpl.
  rewrite bool_decide_eq_true_2 by done. simpl. rewrite Hpost. simpl.
  apply Z.leb_gt in Hnow. rewrite Hnow. simpl. rewrite Hpk.
  eexists. by split.
Qed.

(** Somebody else tries: forbidden, and nothing changes. *)
Lemma post_delete_not_author (w : World) (u : User) (request : Request)
  (pk : Z) (post : Post) :
  user request = Some u ->
  pk <> 0 ->
  text_in (lit "comment") (path request) = false ->
  posts w !! pk = Some post ->
  post_author post <> user_pk u ->
  post_delete ticks request pk w
  = (Ok (HttpResponseForbidden forbidden_no_permission), w).
Proof.
  intros Hu Hpk0 Hpath Hpost Hauthor.
  unfold post_delete, login_required, author_required. rewrite Hu.
  apply Z.eqb_neq in Hpk0. rewrite Hpk0, Hpath.
  unfold get_Post_or_404. run. rewrite Hpost. simpl.
  by rewrite bool_decide_eq_false_2.
Qed.

End SelfDelete.

(** C5, as the code has it for comments. [comment_delete] never reads the
    clock: the author's request removes the comment however old it is,
    on any HTTP method, and answers with the success message. *)
Theorem C5_comment_delete_has_no_window (w : World) (u : User)
  (request : Request) (pk : Z) (c : Comment) :
  user request = Some u ->
  pk <> 0 ->
  text_in (lit "comment") (path request) = true ->
  comments w !! pk = Some c -> comment_pk c = pk ->
  comment_author c = user_pk u ->
  exists w',
    comment_delete request pk w
    = (Ok (redirect "post_detail" (str (comment_post c))), w') /\
    comments w' !! pk = None /\
    clock_reads w' = clock_reads w /\
    flash w' = flash w ++ [(SUCCESS, flash_comment_deleted)].
Proof.
  intros Hu Hpk0 Hpath Hc Hpk Hauthor.
  unfold comment_delete, login_required, author_required. rewrite Hu.
  apply Z.eqb_neq in Hpk0. rewrite Hpk0, Hpath.
  unfold get_Comment_or_404, Comment_delete. run. rewrite Hc. simpl.
  rewrite bool_decide_eq_true_2 by done. simpl. rewrite Hc. simpl.
  eexists. split; [reflexivity|]. split; [|done].
  change (comments (delete_comments {[comment_pk c]} w) !! pk = None).
  apply delete_comments_lookup. set_solver.
Qed.

(** Five minutes and one second after comment 20 was written, bob deletes
    it. *)
Lemma C5_comment_delete_has_no_window_witness :
  clock301 0%nat = comment_created_at comment20 + timedelta_minutes 5
                   + timedelta_seconds 1 /\
  exists w',
    comment_delete (post_request bob (lit "/comment/20/delete/") ∅) 20
      (forum 0)
    = (Ok (redirect "post_detail" (str 10)), w') /\
    comments w' !! 20 = None.
Proof.
  split; [reflexivity|].
  destruct (C5_comment_delete_has_no_window (forum 0) bob
              (post_request bob (lit "/comment/20/delete/") ∅) 20 comment20)
    as (w' & Hrun & Hgone & _);
    [reflexivity | lia | reflexivity | reflexivity | reflexivity
    | reflexivity |].
  exists w'. split; [exact Hrun|exact Hgone].
Defined.

(** At the same instant alice cannot delete her post 10, which is as old:
    the sibling view enforces the window. *)
Example post_delete_at_301_seconds :
  exists w',
    post_delete clock301 (post_request alice (lit "/post/10/delete/") ∅) 10
      (forum 0)
    = (Ok (redirect "post_detail" (str 10)), w') /\
    posts w' !! 10 = Some post10 /\
    flash w' = [(ERROR, flash_window_exceeded)].
Proof. eexists. split; [vm_compute; reflexivity|]. by vm_compute. Qed.

(** *** Bans *)

Lemma BAN_DURATION_CHOICES_spec (d : text) :
  d ∈ BAN_DURATION_CHOICES <-> exists days, d = str days /\ days ∈ [1; 3; 7; 30; 90].
Proof. unfold BAN_DURATION_CHOICES. apply list_elem_of_fmap. Qed.

Lemma int_of_duration (days : Z) :
  days ∈ [1; 3; 7; 30; 90] -> int (str days) = Some days /\ str days <> [].
Proof.
  rewrite !elem_of_cons, elem_of_nil.
  intros [->|[->|[->|[->|[->|[]]]]]]; by vm_compute.
Qed.

Lemma ChoiceField_clean_optional (choices : list text) (raw : option text) :
  ChoiceField_clean false choices raw =
  match raw with
  | None | Some [] => Valid []
  | Some d => if bool_decide (d ∈ choices) then Valid d
              else ValidationError "invalid_choice"
  end.
Proof.
  unfold ChoiceField_clean. destruct raw as [[|c d]|]; simpl; try done.
  by destruct (bool_decide (c :: d ∈ choices)).
Qed.


(** What an accepted ban form holds. *)
Lemma BanUserForm_Valid (data : gmap string text) (form : BanData) :
  BanUserForm data = Valid form ->
  (cleaned_ban_type form = lit "temporary" /\
   (exists days, cleaned_ban_duration form = str days /\
                 days ∈ [1; 3; 7; 30; 90]) \/
   cleaned_ban_type form = lit "permanent") /\
  data !! "ban_type" = Some (cleaned_ban_type form) /\
  cleaned_ban_reason form = from_option strip [] (data !! "ban_reason") /\
  reason_ok (data !! "ban_reason").
Proof.
  unfold BanUserForm. rewrite ChoiceField_clean_optional.
  pose proof (required_reason_valid_iff (data !! "ban_reason")) as Hreason.
  destruct (CharField_clean true (Some 500%nat) (data !! "ban_reason"))
    as [r|code] eqn:E.
  2:{ repeat case_match; done. }
  assert (Hr : r = from_option strip [] (data !! "ban_reason")).
  { by apply CharField_clean_Valid in E as [-> _]. }
  assert (Hok : reason_ok (data !! "ban_reason")) by by apply Hreason.
  unfold ChoiceField_clean at 1.
  destruct (data !! "ban_type") as [[|c t]|]; simpl; try done.
  destruct (decide (c :: t ∈ BAN_TYPE_CHOICES)) as [Hin|Hnin].
  2:{ by rewrite bool_decide_eq_false_2. }
  rewrite bool_decide_eq_true_2 by done. simpl.
  unfold BAN_TYPE_CHOICES in Hin.
  rewrite !elem_of_cons, elem_of_nil in Hin.
  destruct Hin as [Ht|[Ht|[]]]; rewrite Ht; unfold BanUserForm_clean.
  - change (bool_decide (Some (lit "temporary") = Some (lit "temporary")))
      with true.
    destruct (data !! "ban_duration") as [[|c' d]|]; simpl; try done.
    destruct (decide (c' :: d ∈ BAN_DURATION_CHOICES)) as [Hd|Hd].
    + rewrite bool_decide_eq_true_2 by done. simpl.
      intros [= <-]. simpl. split; [|done]. left. split; [done|].
      by apply BAN_DURATION_CHOICES_spec.
    + by rewrite bool_decide_eq_false_2.
  - change (bool_decide (Some (lit "permanent") = Some (lit "temporary")))
      with false.
    destruct (data !! "ban_duration") as [[|c' d]|]; simpl.
    + intros [= <-]. simpl. split; [by right|done].
    + destruct (bool_decide (c' :: d ∈ BAN_DURATION_CHOICES)); simpl;
        [|done].
      intros [= <-]. simpl. split; [by right|done].
    + intros [= <-]. simpl. split; [by right|done].
Qed.

Section Sanctions.

Variable ticks : nat -> Z.
Variable transport : nat -> option exception.

(** [create_notification] always returns, and touches nothing but the
    notification table, the sequences, the channel and the counters. *)
Lemma create_notification_frame (s r : Z) (ty msg : text)
  (post comment : option Z) (w : World) :
  exists res w',
    create_notification ticks transport s r ty msg post comment w
    = (Ok res, w') /\
    users w' = users w /\ posts w' = posts w /\ comments w' = comments w /\
    profiles w' = profiles w /\ likes w' = likes w /\ follows w' = follows w /\
    flash w' = flash w /\
    (notifications w' = notifications w \/
     exists n, notifications w' = notifications w ++ [n] /\
               notification_type n = ty /\ recipient n = r).
Proof.
  destruct (decide (s = r)) as [->|Hne].
  - exists None, w. rewrite create_notification_self. repeat split. by left.
  - destruct (create_notification_other ticks transport s r ty msg post
                comment w Hne)
      as (w' & Hrun & Hn & Hu & Hp & Hc & Hpr & Hl & Hf & Hfl & _).
    eexists _, w'. split; [exact Hrun|]. repeat split; try done.
    right. eexists. split; [exact Hn|done].
Qed.

Lemma get_ban_expires_at_temporary (form : BanData) (days : Z) (w : World) :
  cleaned_ban_type form = lit "temporary" ->
  cleaned_ban_duration form = str days ->
  days ∈ [1; 3; 7; 30; 90] ->
  get_ban_expires_at ticks form w
  = (Ok (Some (ticks (clock_reads w) + timedelta_days days)), tick w).
Proof.
  intros Ht Hd Hin. unfold get_ban_expires_at. rewrite Ht, Hd.
  change (bool_decide (lit "temporary" = lit "permanent")) with false.
  destruct (int_of_duration days Hin) as [-> Hne].
  apply truthy_nonempty in Hne. by rewrite Hne.
Qed.

Lemma get_ban_expires_at_permanent (form : BanData) (w : World) :
  cleaned_ban_type form = lit "permanent" ->
  get_ban_expires_at ticks form w = (Ok None, w).
Proof.
  intros Ht. unfold get_ban_expires_at. by rewrite Ht.
Qed.

(** What a ban that the form accepts does to the profile. *)
Lemma admin_ban_user_effect (w : World) (u banned : User) (request : Request)
  (name : text) (form : BanData) :
  user request = Some u ->
  is_staff u = true ->
  method request = "POST"%string ->
  filter (fun x => username x = name) (users w) = [banned] ->
  (forall p, profiles w !! user_pk banned = Some p ->
             profile_user p = user_pk banned) ->
  BanUserForm (POST request) = Valid form ->
  exists w' p',
    admin_ban_user ticks transport request name w
    = (Ok (redirect "user_profile" name), w') /\
    profiles w' !! user_pk banned = Some p' /\
    is_banned p' = true /\
    banned_at p' = Some (ticks (ban_reading w (user_pk banned))) /\
    banned_by p' = Some (user_pk u) /\
    ban_reason p' = cleaned_ban_reason form /\
    (cleaned_ban_type form = lit "temporary" ->
     exists days,
       cleaned_ban_duration form = str days /\ days ∈ [1; 3; 7; 30; 90] /\
       ban_expires_at p'
       = Some (ticks (S (ban_reading w (user_pk banned)))
               + timedelta_days days)) /\
    (cleaned_ban_type form = lit "permanent" -> ban_expires_at p' = None).
Proof.
  intros Hu Hstaff Hmethod Husers Hwf Hform.
  destruct (BanUserForm_Valid _ _ Hform) as (Hkind & _).
  unfold admin_ban_user, login_required, staff_required.
  rewrite Hu, Hstaff. simpl.
  unfold get_User_or_404, UserProfile_get_or_create, is_POST,
    UserProfile_save. run.
  rewrite Husers, Hmethod, bool_decide_eq_true_2 by done. rewrite Hform.
  assert (Hkey : forall pc w0,
    (match profiles w !! user_pk banned with
     | Some p => (Ok (p, false), w)
     | None => (Ok (default_profile (user_pk banned), true),
                with_profiles (insert (user_pk banned)
                                 (default_profile (user_pk banned))) (tick w))
     end) = (Ok pc, w0) ->
    profile_user (fst pc) = user_pk banned /\
    clock_reads w0 = ban_reading w (user_pk banned)).
  { intros pc w0. unfold ban_reading.
    destruct (profiles w !! user_pk banned) as [p|] eqn:Hp.
    - intros [= <- <-]. split; [by apply Hwf|done].
    - by intros [= <- <-]. }
  destruct (match profiles w !! user_pk banned with
            | Some p => _ | None => _ end) as [[pc|e] w0] eqn:Hpc.
  2:{ by destruct (profiles w !! user_pk banned). }
  destruct (Hkey pc w0 eq_refl) as [Hpu Hclock]. simpl.
  destruct Hkind as [(Ht & days & Hd & Hin)|Ht].
  - rewrite (get_ban_expires_at_temporary form days _ Ht Hd Hin). simpl.
    match goal with
    | |- context [create_notification ?t ?tr ?s ?r ?ty ?m ?p ?c ?w1] =>
        destruct (create_notification_frame s r ty m p c w1)
          as (res & w2 & -> & _ & _ & _ & Hprof & _)
    end.
    simpl in *. eexists _, _. split; [reflexivity|]. simpl.
    rewrite Hprof, Hpu, lookup_insert_eq. split; [reflexivity|]. simpl.
    rewrite Hclock. repeat split; try done.
    + intros _. by exists days.
    + rewrite Ht. intros Hp. by vm_compute in Hp.
  - rewrite (get_ban_expires_at_permanent form _ Ht). simpl.
    match goal with
    | |- context [create_notification ?t ?tr ?s ?r ?ty ?m ?p ?c ?w1] =>
        destruct (create_notification_frame s r ty m p c w1)
          as (res & w2 & -> & _ & _ & _ & Hprof & _)
    end.
    simpl in *. eexists _, _. split; [reflexivity|]. simpl.
    rewrite Hprof, Hpu, lookup_insert_eq. split; [reflexivity|]. simpl.
    rewrite Hclock. repeat split; try done.
    rewrite Ht. intros Hp. by vm_compute in Hp.
Qed.

End Sanctions.




(** *** Computations that keep a relation on a table *)

Lemma keeps_preorder {T : Type} (P : T -> Prop) : PreOrder (keeps P).
Proof.
  split.
  - intros x Hx. exact Hx.
  - intros x y z Hxy Hyz Hx. apply Hyz, Hxy, Hx.
Qed.

Lemma adds_only_preorder (ty : text) : PreOrder (adds_only ty).
Proof.
  split.
  - intros ns n Hn. by left.
  - intros a b c Hab Hbc n Hn.
    destruct (Hbc n Hn) as [Hb|Hty]; [by apply Hab|by right].
Qed.

#[local] Existing Instance keeps_preorder.
#[local] Existing Instance adds_only_preorder.

Section Preserves.

Context {T : Type} (tbl : World -> T) (S : relation T) `{!PreOrder S}.

Lemma preserves_ret {A} (a : A) : preserves tbl S (ret a).
Proof. intros w. reflexivity. Qed.

Lemma preserves_raise {A} (e : exception) : preserves tbl S (@raise A e).
Proof. intros w. reflexivity. Qed.

Lemma preserves_gets {A} (f : World -> A) : preserves tbl S (gets f).
Proof. intros w. reflexivity. Qed.

Lemma preserves_bind {A B} (m : M A) (k : A -> M B) :
  preserves tbl S m -> (forall a, preserves tbl S (k a)) ->
  preserves tbl S (bind m k).
Proof.
  intros Hm Hk w. unfold bind. specialize (Hm w).
  destruct (m w) as [[a|e] w1]; simpl in *; [|done].
  etrans; [exact Hm|apply Hk].
Qed.

Lemma preserves_try_except {A} (body : M A) (handler : exception -> M A) :
  preserves tbl S body -> (forall e, preserves tbl S (handler e)) ->
  preserves tbl S (try_except body handler).
Proof.
  intros Hm Hk w. unfold try_except. specialize (Hm w).
  destruct (body w) as [[a|e] w1]; simpl in *; [done|].
  etrans; [exact Hm|apply Hk].
Qed.

(** A computation that leaves the table alone keeps every relation. *)
Lemma preserves_frame {A} (m : M A) :
  (forall w, tbl (snd (m w)) = tbl w) -> preserves tbl S m.
Proof. intros H w. by rewrite H. Qed.

End Preserves.

(** The table is untouched by a database operation or helper. *)
Ltac frame :=
  intros ?; unfold_prims; run; repeat (case_match; simpl); done.

(** Walking through a view: the structure of the monad, then the
    operations [tac] knows, then those that leave the table alone. *)
Ltac preserve tac :=
  repeat first
    [ match goal with
      | |- PreOrder _ => apply _
      | |- forall _, preserves _ _ _ => intros ?
      | |- preserves _ _ (ret _) => apply preserves_ret
      | |- preserves _ _ (raise _) => apply preserves_raise
      | |- preserves _ _ (gets _) => apply preserves_gets
      | |- preserves _ _ (bind _ _) => apply preserves_bind
      | |- preserves _ _ (try_except _ _) => apply preserves_try_except
      | |- preserves _ _ (match _ with _ => _ end) => case_match
      end
    | tac
    | apply preserves_frame; [|solve [frame]] ].

(** *** Unban *)

Lemma default_profile_cleared (k : Z) : ban_cleared (default_profile k).
Proof. by intros _. Qed.

Section Unban.

Variable ticks : nat -> Z.
Variable transport : nat -> option exception.

(** What an unban that the form accepts does to the profile: the flag,
    the expiry and the reason are reset; [banned_at] and [banned_by] are
    those of the profile as it was (of a fresh profile when the user had
    none). *)
Lemma admin_unban_user_effect (w : World) (u unbanned : User)
  (request : Request) (name reason : text) :
  user request = Some u ->
  is_staff u = true ->
  method request = "POST"%string ->
  filter (fun x => username x = name) (users w) = [unbanned] ->
  (forall p, profiles w !! user_pk unbanned = Some p ->
             profile_user p = user_pk unbanned) ->
  UnbanUserForm (POST request) = Valid reason ->
  exists w' p',
    admin_unban_user ticks transport request name w
    = (Ok (redirect "user_profile" name), w') /\
    profiles w' !! user_pk unbanned = Some p' /\
    is_banned p' = false /\
    ban_expires_at p' = None /\
    ban_reason p' = [] /\
    banned_at p'
    = banned_at (default (default_profile (user_pk unbanned))
                         (profiles w !! user_pk unbanned)) /\
    banned_by p'
    = banned_by (default (default_profile (user_pk unbanned))
                         (profiles w !! user_pk unbanned)).
Proof.
  intros Hu Hstaff Hmethod Husers Hwf Hform.
  unfold admin_unban_user, login_required, staff_required.
  rewrite Hu, Hstaff. simpl.
  unfold get_User_or_404, UserProfile_get_or_create, is_POST,
    UserProfile_save. run.
  rewrite Husers, Hmethod, bool_decide_eq_true_2 by done. rewrite Hform.
  destruct (profiles w !! user_pk unbanned) as [p|] eqn:Hp; simpl.
  - match goal with
    | |- context [create_notification ?t ?tr ?s ?r ?ty ?m ?p ?c ?w1] =>
        destruct (create_notification_frame t tr s r ty m p c w1)
          as (res & w2 & -> & _ & _ & _ & Hprof & _)
    end.
    simpl in *. eexists _, _. split; [reflexivity|]. simpl.
    rewrite Hprof, (Hwf p eq_refl), lookup_insert_eq. by split.
  - match goal with
    | |- context [create_notification ?t ?tr ?s ?r ?ty ?m ?p ?c ?w1] =>
        destruct (create_notification_frame t tr s r ty m p c w1)
          as (res & w2 & -> & _ & _ & _ & Hprof & _)
    end.
    simpl in *. eexists _, _. split; [reflexivity|]. simpl.
    rewrite Hprof, lookup_insert_eq. by split.
Qed.

Lemma create_notification_profiles s r ty msg post comment w :
  profiles (snd (create_notification ticks transport s r ty msg post
                   comment w)) = profiles w.
Proof.
  destruct (create_notification_frame ticks transport s r ty msg post
              comment w) as (res & w' & -> & _ & _ & _ & Hp & _).
  exact Hp.
Qed.

Lemma UserProfile_get_or_create_cleared (k : Z) :
  preserves profiles (keeps (map_Forall (fun _ p => ban_cleared p)))
    (UserProfile_get_or_create k).
Proof.
  intros w Hinv. unfold UserProfile_get_or_create.
  destruct (profiles w !! k); simpl; [done|].
  apply map_Forall_insert_2; [apply default_profile_cleared|done].
Qed.

Lemma UserProfile_save_cleared (p : UserProfile) :
  ban_cleared p ->
  preserves profiles (keeps (map_Forall (fun _ p => ban_cleared p)))
    (UserProfile_save p).
Proof.
  intros Hp w Hinv. unfold UserProfile_save. run.
  by apply map_Forall_insert_2.
Qed.

Ltac cleared :=
  preserve ltac:(idtac; match goal with
    | |- preserves _ _ (UserProfile_get_or_create _) =>
        apply UserProfile_get_or_create_cleared
    | |- preserves _ _ (UserProfile_save _) =>
        apply UserProfile_save_cleared; by intros ?
    | |- preserves _ _ (create_notification _ _ _ _ _ _ _ _) =>
        apply preserves_frame;
        [|intros ?; apply create_notification_profiles]
    end).

(** Whoever sends whatever to the two views, a profile that is not banned
    keeps an empty reason and no expiry. *)
Lemma admin_ban_user_keeps_cleared (request : Request) (name : text)
  (w : World) :
  bans_cleared w ->
  bans_cleared (snd (admin_ban_user ticks transport request name w)).
Proof.
  revert w.
  change (preserves profiles (keeps (map_Forall (fun _ p => ban_cleared p)))
            (admin_ban_user ticks transport request name)).
  unfold admin_ban_user, login_required, staff_required. cleared.
Qed.

Lemma admin_unban_user_keeps_cleared (request : Request) (name : text)
  (w : World) :
  bans_cleared w ->
  bans_cleared (snd (admin_unban_user ticks transport request name w)).
Proof.
  revert w.
  change (preserves profiles (keeps (map_Forall (fun _ p => ban_cleared p)))
            (admin_unban_user ticks transport request name)).
  unfold admin_unban_user, login_required, staff_required. cleared.
Qed.

Lemma sanction_steps_keep_cleared (w w' : World) :
  rtc (sanction_step ticks transport) w w' ->
  bans_cleared w -> bans_cleared w'.
Proof.
  induction 1 as [|w w1 w2 Hstep _ IH]; [done|].
  intros Hinv. apply IH.
  destruct Hstep.
  - by apply admin_ban_user_keeps_cleared.
  - by apply admin_unban_user_keeps_cleared.
Qed.

End Unban.

(** C7, as the code has it. After an unban that the form accepts,
    [is_banned] is false, [ban_expires_at] is null and [ban_reason] is
    empty, while [banned_at] and [banned_by] are left as they were. And
    through any sequence of requests to the ban and unban views, every
    profile that is not banned has an empty reason and no expiry. *)
Theorem C7_unban_clears_expiry_and_reason (ticks : nat -> Z)
  (transport : nat -> option exception) :
  (forall (w : World) (u unbanned : User) (request : Request)
          (name reason : text),
     user request = Some u ->
     is_staff u = true ->
     method request = "POST"%string ->
     filter (fun x => username x = name) (users w) = [unbanned] ->
     (forall p, profiles w !! user_pk unbanned = Some p ->
                profile_user p = user_pk unbanned) ->
     UnbanUserForm (POST request) = Valid reason ->
     exists w' p',
       admin_unban_user ticks transport request name w
       = (Ok (redirect "user_profile" name), w') /\
       profiles w' !! user_pk unbanned = Some p' /\
       is_banned p' = false /\
       ban_expires_at p' = None /\
       ban_reason p' = [] /\
       banned_at p'
       = banned_at (default (default_profile (user_pk unbanned))
                            (profiles w !! user_pk unbanned)) /\
       banned_by p'
       = banned_by (default (default_profile (user_pk unbanned))
                            (profiles w !! user_pk unbanned))) /\
  (forall w w' : World,
     rtc (sanction_step ticks transport) w w' ->
     bans_cleared w -> bans_cleared w').
Proof.
  split.
  - apply admin_unban_user_effect.
  - apply sanction_steps_keep_cleared.
Qed.

(** Alice lifts the ban she put on bob. *)
Lemma C7_unban_clears_expiry_and_reason_witness :
  exists w' p',
    admin_unban_user clock0 layer_up
      (post_request alice (lit "/admin/user/bob/unban/") ∅) (lit "bob")
      forum_bob_banned
    = (Ok (redirect "user_profile" (lit "bob")), w') /\
    profiles w' !! 2 = Some p' /\ is_banned p' = false /\
    ban_expires_at p' = None /\ ban_reason p' = [].
Proof.
  destruct (proj1 (C7_unban_clears_expiry_and_reason clock0 layer_up)
              forum_bob_banned alice bob
              (post_request alice (lit "/admin/user/bob/unban/") ∅)
              (lit "bob") [])
    as (w' & p' & Hrun & Hp & Hb & He & Hr & _);
    [reflexivity | reflexivity | reflexivity | reflexivity
    | intros p Hp; vm_compute in Hp; by injection Hp as <-
    | reflexivity |].
  exists w', p'. split; [exact Hrun|]. split; [exact Hp|].
  split; [exact Hb|]. split; [exact He|exact Hr].
Defined.

(** C7 as the spec states it does not hold: after the unban, [banned_at]
    (and [banned_by]) still hold what the ban wrote. Alice bans bob, then
    lifts the ban. *)
Lemma C7_counterexample_banned_at_kept :
  ~ (forall (ticks : nat -> Z) (transport : nat -> option exception)
       (w : World) (u unbanned : User) (request : Request)
       (name reason : text),
       user request = Some u ->
       is_staff u = true ->
       method request = "POST"%string ->
       filter (fun x => username x = name) (users w) = [unbanned] ->
       (forall p, profiles w !! user_pk unbanned = Some p ->
                  profile_user p = user_pk unbanned) ->
       UnbanUserForm (POST request) = Valid reason ->
       exists w',
         admin_unban_user ticks transport request name w
         = (Ok (redirect "user_profile" name), w') /\
         forall k p, profiles w' !! k = Some p ->
           is_banned p = false ->
           ban_reason p = [] /\ ban_expires_at p = None /\
           banned_at p = None).
Proof.
  intros H.
  destruct (H clock0 layer_up forum_bob_banned alice bob
              (post_request alice (lit "/admin/user/bob/unban/") ∅)
              (lit "bob") [])
    as (w' & Hrun & Hall);
    [reflexivity | reflexivity | reflexivity | reflexivity
    | intros p Hp; vm_compute in Hp; by injection Hp as <-
    | reflexivity |].
  vm_compute in Hrun. injection Hrun as <-.
  destruct (Hall 2 {| profile_user := 2; is_banned := false;
                      banned_at := Some 1000000001; banned_by := Some 1;
                      ban_reason := []; ban_expires_at := None |})
    as (_ & _ & Hat); [reflexivity | reflexivity | discriminate].
Qed.

(** The admin site's bulk action clears nothing but the flag: the
    invariant of the two views is not one of the whole application. *)
Example unban_users_keeps_reason_and_expiry :
  profiles (snd (unban_users {[ 2 ]} forum_bob_banned)) !! 2
  = Some {| profile_user := 2; is_banned := false;
            banned_at := Some 1000000001; banned_by := Some 1;
            ban_reason := lit "spam";
            ban_expires_at := Some (1000000002 + timedelta_days 7) |}.
Proof. by vm_compute. Qed.

(** *** Likes *)

Lemma length_filter_filter {A} (P Q : A -> Prop)
  `{!forall x, Decision (P x)} `{!forall x, Decision (Q x)} (l : list A) :
  (length (filter P (filter Q l)) <= length (filter P l))%nat.
Proof.
  induction l as [|x l IH]; [done|].
  rewrite !filter_cons.
  repeat case_decide; simpl; rewrite ?filter_cons; repeat case_decide;
    simpl; try done; lia.
Qed.

Lemma filter_all {A} (P : A -> Prop) `{!forall x, Decision (P x)}
  (l : list A) : Forall P l -> filter P l = l.
Proof.
  induction 1 as [|x l Hx _ IH]; [done|].
  by rewrite filter_cons_True, IH.
Qed.

Section Likes.

Variable ticks : nat -> Z.
Variable transport : nat -> option exception.

Lemma create_notification_likes s r ty msg post comment w :
  likes (snd (create_notification ticks transport s r ty msg post comment w))
  = likes w.
Proof.
  destruct (create_notification_frame ticks transport s r ty msg post
              comment w) as (res & w' & -> & _ & _ & _ & _ & Hl & _).
  exact Hl.
Qed.

(** [get_or_create] adds a row only where the user has none on the post. *)
Lemma Like_get_or_create_unique (u p : Z) :
  preserves likes (keeps unique_rows) (Like_get_or_create ticks u p).
Proof.
  intros w Huniq. unfold Like_get_or_create.
  destruct (filter _ (likes w)) as [|l [|]] eqn:Hf; try done.
  run. intros a b. rewrite filter_app, length_app.
  destruct (decide (a = u /\ b = p)) as [[-> ->]|Hne].
  - rewrite Hf. simpl. rewrite filter_cons_True by done. simpl. lia.
  - rewrite filter_cons_False by (simpl; intros [<- <-]; by apply Hne).
    simpl. specialize (Huniq a b). lia.
Qed.

Lemma Like_delete_unique (l : Like) :
  preserves likes (keeps unique_rows) (Like_delete l).
Proof.
  intros w Huniq a b. unfold Like_delete. run.
  etrans; [|exact (Huniq a b)]. apply length_filter_filter.
Qed.

(** Whoever sends whatever to [like_post], no user gets a second row on
    a post. *)
Lemma like_post_unique (request : Request) (pk : Z) (w : World) :
  like_unique w ->
  like_unique (snd (like_post ticks transport request pk w)).
Proof.
  revert w. change (preserves likes (keeps unique_rows)
                      (like_post ticks transport request pk)).
  unfold like_post, login_required.
  preserve ltac:(idtac; match goal with
    | |- preserves _ _ (Like_get_or_create _ _ _) =>
        apply Like_get_or_create_unique
    | |- preserves _ _ (Like_delete _) => apply Like_delete_unique
    | |- preserves _ _ (create_notification _ _ _ _ _ _ _ _) =>
        apply preserves_frame; [|intros ?; apply create_notification_likes]
    end).
Qed.

End Likes.

Section LikeToggle.

Variable ticks : nat -> Z.
Variable transport : nat -> option exception.

(** A user without a like on the post gets one. *)
Lemma like_post_likes (w : World) (u : User) (request : Request) (pk : Z)
  (post : Post) :
  user request = Some u ->
  method request = "POST"%string ->
  posts w !! pk = Some post -> post_pk post = pk ->
  likes_of (user_pk u) pk w = [] ->
  exists r w1,
    like_post ticks transport request pk w = (Ok r, w1) /\
    likes w1 = likes w ++ [new_like ticks (user_pk u) pk w] /\
    posts w1 = posts w.
Proof.
  intros Hu Hm Hpost Hpk Hnone.
  unfold like_post, login_required. rewrite Hu.
  unfold get_Post_or_404, is_POST, Like_get_or_create. run.
  rewrite Hpost, Hm, bool_decide_eq_true_2 by done.
  rewrite Hpk. unfold likes_of in Hnone. rewrite Hnone. run.
  destruct (bool_decide (post_author post = user_pk u)); simpl.
  - destruct (bool_decide (x_requested_with request = _)); simpl;
      by eexists _, _.
  - match goal with
    | |- context [create_notification ?t ?tr ?s ?r ?ty ?m ?p ?c ?w1] =>
        destruct (create_notification_frame t tr s r ty m p c w1)
          as (res & w2 & -> & _ & Hposts & _ & _ & Hlikes & _)
    end.
    simpl in *.
    destruct (bool_decide (x_requested_with request = _)); simpl;
      by eexists _, _.
Qed.

(** A user with a like on the post loses it. *)
Lemma like_post_unlikes (w : World) (u : User) (request : Request) (pk : Z)
  (post : Post) (l : Like) :
  user request = Some u ->
  method request = "POST"%string ->
  posts w !! pk = Some post -> post_pk post = pk ->
  likes_of (user_pk u) pk w = [l] ->
  exists r w2,
    like_post ticks transport request pk w = (Ok r, w2) /\
    likes w2 = filter (fun x => like_pk x ≠ like_pk l) (likes w).
Proof.
  intros Hu Hm Hpost Hpk Hone.
  unfold like_post, login_required. rewrite Hu.
  unfold get_Post_or_404, is_POST, Like_get_or_create, Like_delete. run.
  rewrite Hpost, Hm, bool_decide_eq_true_2 by done.
  rewrite Hpk. unfold likes_of in Hone. rewrite Hone. simpl.
  destruct (bool_decide (x_requested_with request = _)); simpl;
    by eexists _, _.
Qed.

End LikeToggle.

(** C9. For a user without a like on a post, liking twice in succession
    ends with the table of likes as it was: after the first request the
    user has exactly one row on the post, after the second none. And after
    any request to [like_post], no user has more than one row on any post
    if none had before. *)
Theorem C9_like_toggle_is_an_involution (ticks : nat -> Z)
  (transport : nat -> option exception) (w : World) (u : User)
  (request : Request) (pk : Z) (post : Post) :
  user request = Some u ->
  method request = "POST"%string ->
  posts w !! pk = Some post -> post_pk post = pk ->
  like_sequence_ok w ->
  likes_of (user_pk u) pk w = [] ->
  exists r1 w1 r2 w2,
    like_post ticks transport request pk w = (Ok r1, w1) /\
    like_post ticks transport request pk w1 = (Ok r2, w2) /\
    length (likes_of (user_pk u) pk w1) = 1%nat /\
    likes_of (user_pk u) pk w2 = [] /\
    likes w2 = likes w /\
    (like_unique w -> like_unique w1 /\ like_unique w2).
Proof.
  intros Hu Hm Hpost Hpk Hseq Hnone.
  destruct (like_post_likes ticks transport w u request pk post)
    as (r1 & w1 & Hrun1 & Hlikes1 & Hposts1); try done.
  assert (Hone : likes_of (user_pk u) pk w1
                 = [new_like ticks (user_pk u) pk w]).
  { unfold likes_of in *. rewrite Hlikes1, filter_app, Hnone. simpl.
    by rewrite filter_cons_True. }
  destruct (like_post_unlikes ticks transport w1 u request pk post
              (new_like ticks (user_pk u) pk w))
    as (r2 & w2 & Hrun2 & Hlikes2); try done.
  { by rewrite Hposts1. }
  assert (Hback : likes w2 = likes w).
  { rewrite Hlikes2, Hlikes1, filter_app. simpl.
    rewrite filter_cons_False by (simpl; intros H; by apply H).
    rewrite filter_nil, app_nil_r. apply filter_all.
    apply Forall_forall. intros l Hl. apply Hseq in Hl. simpl. lia. }
  exists r1, w1, r2, w2. split; [done|]. split; [done|].
  split; [by rewrite Hone|]. split; [|split; [done|]].
  - unfold likes_of. by rewrite Hback.
  - intros Huniq.
    assert (Huniq1 : like_unique w1).
    { replace w1 with (snd (like_post ticks transport request pk w))
        by by rewrite Hrun1.
      by apply like_post_unique. }
    split; [done|].
    replace w2 with (snd (like_post ticks transport request pk w1))
      by by rewrite Hrun2.
    by apply like_post_unique.
Qed.

(** Bob likes alice's post, twice. *)
Lemma C9_like_toggle_is_an_involution_witness :
  exists r1 w1 r2 w2,
    like_post clock0 layer_up (post_request bob (lit "/post/10/like/") ∅) 10
      (forum 0) = (Ok r1, w1) /\
    like_post clock0 layer_up (post_request bob (lit "/post/10/like/") ∅) 10
      w1 = (Ok r2, w2) /\
    length (likes_of 2 10 w1) = 1%nat /\
    likes w2 = [].
Proof.
  destruct (C9_like_toggle_is_an_involution clock0 layer_up (forum 0) bob
              (post_request bob (lit "/post/10/like/") ∅) 10 post10)
    as (r1 & w1 & r2 & w2 & Hrun1 & Hrun2 & Hone & _ & Hback & _);
    [reflexivity | reflexivity | reflexivity | reflexivity
    | intros l Hl; by apply elem_of_nil in Hl
    | reflexivity |].
  exists r1, w1, r2, w2.
  split; [exact Hrun1|]. split; [exact Hrun2|]. split; [exact Hone|].
  exact Hback.
Defined.

(** *** The types of the notifications *)

Lemma adds_only_filter (ty : text) (P : Notification -> Prop)
  `{!forall n, Decision (P n)} (ns : list Notification) :
  adds_only ty ns (filter P ns).
Proof. intros n Hn. left. by apply list_elem_of_filter in Hn as [_ Hn]. Qed.

Section NotificationTypes.

Variable ticks : nat -> Z.
Variable cached : nat -> option Z.
Variable transport : nat -> option exception.

Lemma create_notification_adds (s r : Z) (ty msg : text)
  (post comment : option Z) :
  preserves notifications (adds_only ty)
    (create_notification ticks transport s r ty msg post comment).
Proof.
  intros w.
  destruct (create_notification_frame ticks transport s r ty msg post
              comment w) as (res & w' & -> & _ & _ & _ & _ & _ & _ & _ & Hn).
  simpl. destruct Hn as [->|(n & -> & Hty & _)].
  - reflexivity.
  - intros n' Hn'. apply elem_of_app in Hn' as [Hn'|Hn']; [by left|].
    apply list_elem_of_singleton in Hn' as ->. by right.
Qed.

Lemma Comment_delete_adds (ty : text) (c : Comment) :
  preserves notifications (adds_only ty) (Comment_delete c).
Proof. intros w. unfold Comment_delete. run. apply adds_only_filter. Qed.

Lemma Post_delete_adds (ty : text) (p : Post) :
  preserves notifications (adds_only ty) (Post_delete p).
Proof.
  intros w. unfold Post_delete. run.
  etrans; [|apply adds_only_filter]. apply adds_only_filter.
Qed.

Ltac notes :=
  preserve ltac:(idtac; match goal with
    | |- preserves _ _ (create_notification _ _ _ _ _ _ _ _) =>
        apply create_notification_adds
    | |- preserves _ _ (Comment_delete _) => apply Comment_delete_adds
    | |- preserves _ _ (Post_delete _) => apply Post_delete_adds
    end).

Lemma post_detail_adds (request : Request) (pk : Z) :
  preserves notifications (adds_only (lit "comment"))
    (post_detail ticks cached transport request pk).
Proof. unfold post_detail. notes. Qed.

Lemma like_post_adds (request : Request) (pk : Z) :
  preserves notifications (adds_only (lit "like"))
    (like_post ticks transport request pk).
Proof. unfold like_post, login_required. notes. Qed.

Lemma follow_user_adds (request : Request) (name : text) :
  preserves notifications (adds_only (lit "follow"))
    (follow_user ticks transport request name).
Proof. unfold follow_user, login_required. notes. Qed.

Lemma post_delete_adds (ty : text) (request : Request) (pk : Z) :
  preserves notifications (adds_only ty) (post_delete ticks request pk).
Proof. unfold post_delete, login_required, author_required. notes. Qed.

Lemma comment_delete_adds (ty : text) (request : Request) (pk : Z) :
  preserves notifications (adds_only ty) (comment_delete request pk).
Proof. unfold comment_delete, login_required, author_required. notes. Qed.

Lemma admin_delete_post_adds (request : Request) (pk : Z) :
  preserves notifications (adds_only (lit "comment"))
    (admin_delete_post ticks transport request pk).
Proof. unfold admin_delete_post, login_required, staff_required. notes. Qed.

Lemma admin_delete_comment_adds (request : Request) (pk : Z) :
  preserves notifications (adds_only (lit "comment"))
    (admin_delete_comment ticks transport request pk).
Proof.
  unfold admin_delete_comment, login_required, staff_required. notes.
Qed.

Lemma admin_ban_user_adds (request : Request) (name : text) :
  preserves notifications (adds_only (lit "comment"))
    (admin_ban_user ticks transport request name).
Proof. unfold admin_ban_user, login_required, staff_required. notes. Qed.

Lemma admin_unban_user_adds (request : Request) (name : text) :
  preserves notifications (adds_only (lit "comment"))
    (admin_unban_user ticks transport request name).
Proof. unfold admin_unban_user, login_required, staff_required. notes. Qed.

Lemma adds_only_valid (ty : text) (before after : list Notification) :
  ty ∈ NOTIFICATION_TYPES ->
  adds_only ty before after -> valid_types before -> valid_types after.
Proof.
  intros Hty Hadds Hvalid. apply Forall_forall. intros n Hn.
  destruct (Hadds n Hn) as [Hb | ->]; [|done].
  by apply (proj1 (Forall_forall _ _) Hvalid).
Qed.

Lemma request_step_valid (w w' : World) :
  request_step ticks cached transport w w' ->
  valid_types (notifications w) -> valid_types (notifications w').
Proof.
  assert (Hc : lit "comment" ∈ NOTIFICATION_TYPES) by (by left).
  assert (Hl : lit "like" ∈ NOTIFICATION_TYPES) by (right; by left).
  assert (Hf : lit "follow" ∈ NOTIFICATION_TYPES)
    by (right; right; by left).
  destruct 1.
  - apply (adds_only_valid _ _ _ Hc), post_detail_adds.
  - apply (adds_only_valid _ _ _ Hc), post_delete_adds.
  - apply (adds_only_valid _ _ _ Hc), comment_delete_adds.
  - apply (adds_only_valid _ _ _ Hl), like_post_adds.
  - apply (adds_only_valid _ _ _ Hf), follow_user_adds.
  - apply (adds_only_valid _ _ _ Hc), admin_delete_post_adds.
  - apply (adds_only_valid _ _ _ Hc), admin_delete_comment_adds.
  - apply (adds_only_valid _ _ _ Hc), admin_ban_user_adds.
  - apply (adds_only_valid _ _ _ Hc), admin_unban_user_adds.
Qed.

Lemma request_steps_valid (w w' : World) :
  rtc (request_step ticks cached transport) w w' ->
  valid_types (notifications w) -> valid_types (notifications w').
Proof.
  induction 1 as [|w w1 w2 Hstep _ IH]; [done|].
  intros Hvalid. by apply IH, (request_step_valid w).
Qed.

End NotificationTypes.

(** C10. Through any sequence of requests to the views, every
    notification in the table has one of the types comment, like and
    follow, if those there at the start had; and a notification that one of
    the four moderation views added (post delete, comment delete, ban,
    unban) has the type comment. *)
Theorem C10_notification_types (ticks : nat -> Z) (cached : nat -> option Z)
  (transport : nat -> option exception) :
  (forall w w' : World,
     rtc (request_step ticks cached transport) w w' ->
     valid_types (notifications w) -> valid_types (notifications w')) /\
  (forall (request : Request) (pk : Z) (w : World),
     adds_only (lit "comment") (notifications w)
       (notifications (snd (admin_delete_post ticks transport request pk w))))
  /\
  (forall (request : Request) (pk : Z) (w : World),
     adds_only (lit "comment") (notifications w)
       (notifications
          (snd (admin_delete_comment ticks transport request pk w)))) /\
  (forall (request : Request) (name : text) (w : World),
     adds_only (lit "comment") (notifications w)
       (notifications (snd (admin_ban_user ticks transport request name w))))
  /\
  (forall (request : Request) (name : text) (w : World),
     adds_only (lit "comment") (notifications w)
       (notifications
          (snd (admin_unban_user ticks transport request name w)))).
Proof.
  split; [apply request_steps_valid|].
  split; [intros request pk; apply admin_delete_post_adds|].
  split; [intros request pk; apply admin_delete_comment_adds|].
  split; [intros request name; apply admin_ban_user_adds|].
  intros request name; apply admin_unban_user_adds.
Qed.

(** Alice deletes bob's post in the forum, which has no notification
    yet. *)
Lemma C10_notification_types_witness :
  valid_types
    (notifications
       (snd (admin_delete_post clock0 layer_up
               (post_request alice (lit "/admin/post/11/delete/")
                  {[ "delete_reason"%string := lit "duplicate" ]})
               11 (forum 0)))).
Proof.
  apply (proj1 (C10_notification_types clock0 cache0 layer_up) (forum 0)).
  - apply rtc_once. apply step_admin_delete_post.
  - apply Forall_nil_2.
Defined.

(** The notification of that delete, as the table holds it. *)
Example moderation_notification_is_a_comment :
  notification_type <$>
    notifications
      (snd (admin_delete_post clock0 layer_up
              (post_request alice (lit "/admin/post/11/delete/")
                 {[ "delete_reason"%string := lit "duplicate" ]})
              11 (forum 0)))
  = [lit "comment"].
Proof. by vm_compute. Qed.

(** * Further properties of the modelled code *)

(** *** Who can delete what *)

Section Guards.

Variable ticks : nat -> Z.
Variable transport : nat -> option exception.

(** [post_delete] removes the post exactly when the request is a POST of
    the post's author, not later than five minutes after its creation. *)
Theorem post_delete_removes_iff (w : World) (request : Request) (pk : Z)
  (post : Post) :
  posts w !! pk = Some post -> post_pk post = pk ->
  text_in (lit "comment") (path request) = false ->
  posts (snd (post_delete ticks request pk w)) !! pk = None <->
  (exists u, user request = Some u /\ post_author post = user_pk u) /\
  pk <> 0 /\
  method request = "POST"%string /\
  ticks (clock_reads w) - post_created_at post <= timedelta_minutes 5.
Proof.
  intros Hpost Hpk Hpath. split.
  - intros Hgone.
    unfold post_delete, login_required, author_required in Hgone.
    destruct (user request) as [u|] eqn:Hu; [|simpl in Hgone; congruence].
    destruct (pk =? 0) eqn:Hpk0; [simpl in Hgone; congruence|].
    rewrite Hpath in Hgone.
    unfold get_Post_or_404, can_delete_within_time_limit, is_POST,
      Post_delete in Hgone.
    revert Hgone. run. rewrite Hpost. simpl.
    destruct (decide (post_author post = user_pk u)) as [Ha|Ha].
    2:{ rewrite bool_decide_eq_false_2 by done. simpl. congruence. }
    rewrite bool_decide_eq_true_2 by done. simpl. rewrite Hpost. simpl.
    destruct (ticks (clock_reads w) - post_created_at post
              <=? timedelta_minutes 5) eqn:Hnow; simpl; [|congruence].
    destruct (decide (method request = "POST"%string)) as [Hm|Hm].
    2:{ rewrite bool_decide_eq_false_2 by done. simpl. congruence. }
    intros _. split; [by exists u|]. split; [by apply Z.eqb_neq|].
    split; [done|by apply Z.leb_le].
  - intros [(u & Hu & Ha) (Hpk0 & Hm & Hnow)].
    destruct (post_delete_within_window ticks w u request pk post)
      as (w' & -> & Hgone); done.
Qed.

Lemma comment_delete_by_author (w : World) (u : User) (request : Request)
  (pk : Z) (c : Comment) :
  user request = Some u ->
  pk <> 0 ->
  text_in (lit "comment") (path request) = true ->
  comments w !! pk = Some c -> comment_pk c = pk ->
  comment_author c = user_pk u ->
  comments (snd (comment_delete request pk w)) !! pk = None.
Proof.
  intros Hu Hpk0 Hpath Hc Hpk Hauthor.
  unfold comment_delete, login_required, author_required. rewrite Hu.
  apply Z.eqb_neq in Hpk0. rewrite Hpk0, Hpath.
  unfold get_Comment_or_404, Comment_delete. run. rewrite Hc. simpl.
  rewrite bool_decide_eq_true_2 by done. simpl. rewrite Hc. simpl.
  change (comments (delete_comments {[comment_pk c]} w) !! pk = None).
  apply delete_comments_lookup. set_solver.
Qed.

(** [comment_delete] removes the comment exactly when the request, of any
    method and at any time, comes from the comment's author. *)
Theorem comment_delete_removes_iff (w : World) (request : Request) (pk : Z)
  (c : Comment) :
  comments w !! pk = Some c -> comment_pk c = pk ->
  text_in (lit "comment") (path request) = true ->
  comments (snd (comment_delete request pk w)) !! pk = None <->
  (exists u, user request = Some u /\ comment_author c = user_pk u) /\
  pk <> 0.
Proof.
  intros Hc Hpk Hpath. split.
  - intros Hgone.
    unfold comment_delete, login_required, author_required in Hgone.
    destruct (user request) as [u|] eqn:Hu; [|simpl in Hgone; congruence].
    destruct (pk =? 0) eqn:Hpk0; [simpl in Hgone; congruence|].
    rewrite Hpath in Hgone. unfold get_Comment_or_404 in Hgone.
    revert Hgone. run. rewrite Hc. simpl.
    destruct (decide (comment_author c = user_pk u)) as [Ha|Ha].
    2:{ rewrite bool_decide_eq_false_2 by done. simpl. congruence. }
    intros _. split; [by exists u|by apply Z.eqb_neq].
  - intros [(u & Hu & Ha) Hpk0].
    by apply (comment_delete_by_author w u request pk c).
Qed.

(** The two moderation views that delete leave the world as it is unless
    the requester is staff, the request is a POST and the form accepts
    the reason. *)
Theorem moderated_delete_needs_staff_post_and_reason (request : Request)
  (pk : Z) (w : World) :
  (user_is_staff (user request) && is_POST request
   && is_valid (DeletePostForm (POST request)) = false ->
   snd (admin_delete_post ticks transport request pk w) = w) /\
  (user_is_staff (user request) && is_POST request
   && is_valid (DeleteCommentForm (POST request)) = false ->
   snd (admin_delete_comment ticks transport request pk w) = w).
Proof.
  split; intros H.
  - unfold admin_delete_post, login_required, staff_required.
    destruct (user request) as [u|]; [|done]. simpl in H.
    destruct (is_staff u); [|done]. simpl in *.
    unfold get_Post_or_404. run.
    destruct (posts w !! pk); [|done]. simpl.
    destruct (is_POST request); [|done]. simpl in H.
    by destruct (DeletePostForm (POST request)).
  - unfold admin_delete_comment, login_required, staff_required.
    destruct (user request) as [u|]; [|done]. simpl in H.
    destruct (is_staff u); [|done]. simpl in *.
    unfold get_Comment_or_404. run.
    destruct (comments w !! pk); [|done]. simpl.
    destruct (is_POST request); [|done]. simpl in H.
    by destruct (DeleteCommentForm (POST request)).
Qed.

End Guards.

(** Alice deletes her one-minute-old post. *)
Lemma post_delete_removes_iff_witness :
  posts (snd (post_delete clock60
                (post_request alice (lit "/post/10/delete/") ∅) 10
                (forum 0))) !! 10 = None.
Proof.
  apply (post_delete_removes_iff clock60 (forum 0)
           (post_request alice (lit "/post/10/delete/") ∅) 10 post10);
    [reflexivity | reflexivity | reflexivity |].
  split; [exists alice; split; reflexivity|].
  split; [lia|]. split; [reflexivity|]. vm_compute. discriminate.
Defined.

(** Bob deletes his comment; a GET is enough. *)
Lemma comment_delete_removes_iff_witness :
  comments (snd (comment_delete
                   {| method := "GET"; user := Some bob;
                      path := lit "/comment/20/delete/"; POST := ∅;
                      x_requested_with := None |} 20 (forum 0))) !! 20
  = None.
Proof.
  apply (comment_delete_removes_iff (forum 0)
           {| method := "GET"; user := Some bob;
              path := lit "/comment/20/delete/"; POST := ∅;
              x_requested_with := None |} 20 comment20);
    [reflexivity | reflexivity | reflexivity |].
  split; [exists bob; split; reflexivity|lia].
Defined.

(** Bob, who is not staff, posts a reason to the moderation view. *)
Lemma moderated_delete_needs_staff_post_and_reason_witness :
  snd (admin_delete_post clock0 layer_up
         (post_request bob (lit "/admin/post/10/delete/")
            {[ "delete_reason"%string := lit "duplicate" ]}) 10 (forum 0))
  = forum 0.
Proof.
  apply (proj1 (moderated_delete_needs_staff_post_and_reason clock0 layer_up
                  (post_request bob (lit "/admin/post/10/delete/")
                     {[ "delete_reason"%string := lit "duplicate" ]})
                  10 (forum 0))).
  reflexivity.
Defined.

(** *** Cascading deletes *)









(** What a post takes along when it is deleted: the post, its comments,
    its likes and the notifications about it are gone; the other posts
    and the likes on them stay. *)
Theorem Post_delete_cascades (p : Post) (w : World) :
  let w' := snd (Post_delete p w) in
  posts w' !! post_pk p = None /\
  (forall k c, comments w' !! k = Some c -> comment_post c <> post_pk p) /\
  (forall l, l ∈ likes w' -> like_post_id l <> post_pk p) /\
  (forall n, n ∈ notifications w' ->
             notification_post n <> Some (post_pk p)) /\
  (forall k, k <> post_pk p -> posts w' !! k = posts w !! k) /\
  (forall l, l ∈ likes w -> like_post_id l <> post_pk p -> l ∈ likes w').
Proof.
  unfold Post_delete. run. repeat split.
  - apply lookup_delete_eq.
  - intros k c Hk Heq. apply map_lookup_filter_Some in Hk as [Hk Hout].
    simpl in Hout. apply Hout, collect_replies_incl.
    apply elem_of_dom. exists c. by apply map_lookup_filter_Some.
  - intros l Hin. by apply list_elem_of_filter in Hin as [Hne _].
  - intros n Hin. by apply list_elem_of_filter in Hin as [Hne _].
  - intros k Hk. by apply lookup_delete_ne.
  - intros l Hin Hne. by apply list_elem_of_filter.
Qed.

(** *** The life of a ban *)

(** The three readings of a ban agree: a user is banned now exactly when
    the ban is permanent or temporary and running, never both. *)
Theorem ban_readings_agree (U : UserProfile) (now : Z) :
  is_currently_banned U now
  = is_permanently_banned U || is_temporarily_banned U now /\
  is_permanently_banned U && is_temporarily_banned U now = false.
Proof.
  unfold is_currently_banned, is_permanently_banned, is_temporarily_banned.
  destruct (is_banned U), (ban_expires_at U); simpl; split;
    try done; by rewrite ?orb_false_r.
Qed.

Section BanLife.

Variable ticks : nat -> Z.
Variable transport : nat -> option exception.

(** A ban that the form accepts, read back through
    [is_currently_banned]: a temporary one holds until the chosen number
    of days after the clock reading taken for the expiry and not
    afterwards, while the stored flag stays set; a permanent one holds at
    every time. The reading taken for the expiry is the one after the
    reading of [banned_at]: the second of the request for a user who has
    a profile row, the third for a user whose row the request creates. *)
Theorem ban_holds_until_expiry (w : World) (u banned : User)
  (request : Request) (name : text) (form : BanData) :
  user request = Some u ->
  is_staff u = true ->
  method request = "POST"%string ->
  filter (fun x => username x = name) (users w) = [banned] ->
  (forall p, profiles w !! user_pk banned = Some p ->
             profile_user p = user_pk banned) ->
  BanUserForm (POST request) = Valid form ->
  exists w' p',
    admin_ban_user ticks transport request name w
    = (Ok (redirect "user_profile" name), w') /\
    profiles w' !! user_pk banned = Some p' /\
    is_banned p' = true /\
    (cleaned_ban_type form = lit "permanent" ->
     forall now, is_currently_banned p' now = true) /\
    (cleaned_ban_type form = lit "temporary" ->
     exists days,
       cleaned_ban_duration form = str days /\
       days ∈ [1; 3; 7; 30; 90] /\
       forall now,
         is_currently_banned p' now = true <->
         now < ticks (S (ban_reading w (user_pk banned)))
               + timedelta_days days).
Proof.
  intros Hu Hstaff Hm Husers Hwf Hform.
  destruct (admin_ban_user_effect ticks transport w u banned request name
              form Hu Hstaff Hm Husers Hwf Hform)
    as (w' & p' & Hrun & Hp & Hb & _ & _ & _ & Htemp & Hperm).
  exists w', p'. split; [done|]. split; [done|]. split; [done|]. split.
  - intros Ht now. unfold is_currently_banned. by rewrite Hb, (Hperm Ht).
  - intros Ht. destruct (Htemp Ht) as (days & Hd & Hin & He).
    exists days. split; [done|]. split; [done|]. intros now.
    unfold is_currently_banned. rewrite Hb, He. simpl. apply Z.ltb_lt.
Qed.

End BanLife.

(** Alice bans bob, who has no profile row yet, for a week; six days
    later the ban holds. *)
Lemma ban_holds_until_expiry_witness :
  exists w' p',
    admin_ban_user clock0 layer_up
      (post_request alice (lit "/admin/user/bob/ban/") ban_for_a_week)
      (lit "bob") (forum 0)
    = (Ok (redirect "user_profile" (lit "bob")), w') /\
    profiles w' !! 2 = Some p' /\
    is_currently_banned p' (clock0 1 + timedelta_days 6) = true.
Proof.
  destruct (ban_holds_until_expiry clock0 layer_up (forum 0) alice bob
              (post_request alice (lit "/admin/user/bob/ban/") ban_for_a_week)
              (lit "bob")
              {| cleaned_ban_type := lit "temporary";
                 cleaned_ban_duration := lit "7";
                 cleaned_ban_reason := lit "spam" |})
    as (w' & p' & Hrun & Hp & _ & _ & Htemp);
    [reflexivity | reflexivity | reflexivity | reflexivity
    | intros p Hp; vm_compute in Hp; discriminate
    | vm_compute; reflexivity |].
  exists w', p'. split; [exact Hrun|]. split; [exact Hp|].
  destruct (Htemp eq_refl) as (days & Hd & Hin & Hnow).
  apply Hnow. rewrite !elem_of_cons, elem_of_nil in Hin.
  destruct Hin as [->|[->|[->|[->|[->|[]]]]]]; vm_compute in Hd;
    try discriminate Hd.
  vm_compute. reflexivity.
Defined.

(** *** The bulk actions of the admin site *)

Lemma queryset_update_is_banned_lookup (b : bool) (selected : gset Z)
  (w : World) (k : Z) :
  profiles (snd (queryset_update_is_banned b selected w)) !! k
  = (fun p => if bool_decide (profile_user p ∈ selected)
              then set_is_banned b p else p) <$> profiles w !! k.
Proof. unfold queryset_update_is_banned. run. apply lookup_fmap. Qed.

(** The bulk actions write the flag and nothing else. A bulk ban therefore
    takes the expiry the profile still has: it bans for ever a profile
    without one, and it does not ban at all once an expiry that an earlier
    temporary ban left behind has passed. A bulk unban lifts the ban at
    every time and keeps the reason and the expiry. *)
Theorem bulk_ban_reads_the_old_expiry (selected : gset Z) (w : World) (k : Z)
  (p : UserProfile) :
  profiles w !! k = Some p ->
  profile_user p ∈ selected ->
  (exists p1,
     profiles (snd (ban_users selected w)) !! k = Some p1 /\
     ban_reason p1 = ban_reason p /\
     ban_expires_at p1 = ban_expires_at p /\
     forall now,
       is_currently_banned p1 now = true <->
       forall expires, ban_expires_at p = Some expires -> now < expires) /\
  (exists p0,
     profiles (snd (unban_users selected w)) !! k = Some p0 /\
     ban_reason p0 = ban_reason p /\
     ban_expires_at p0 = ban_expires_at p /\
     forall now, is_currently_banned p0 now = false).
Proof.
  intros Hp Hsel. split.
  - exists (set_is_banned true p). split.
    { unfold ban_users. rewrite queryset_update_is_banned_lookup, Hp. simpl.
      by rewrite bool_decide_eq_true_2. }
    split; [done|]. split; [done|]. intros now.
    unfold is_currently_banned. simpl.
    destruct (ban_expires_at p) as [e|].
    + rewrite Z.ltb_lt. split; [by intros H ? [= <-]|by intros H; apply H].
    + split; [by intros _ ? [=]|done].
  - exists (set_is_banned false p). split.
    { unfold unban_users. rewrite queryset_update_is_banned_lookup, Hp. simpl.
      by rewrite bool_decide_eq_true_2. }
    done.
Qed.

(** Bob was banned for a week; ten days later the bulk ban is applied to
    him and he is not banned. *)
Lemma bulk_ban_reads_the_old_expiry_witness :
  exists p1,
    profiles (snd (ban_users {[2]} forum_bob_banned)) !! 2 = Some p1 /\
    is_currently_banned p1 (clock0 0 + timedelta_days 10) = false.
Proof.
  destruct (bulk_ban_reads_the_old_expiry {[2]} forum_bob_banned 2
              {| profile_user := 2; is_banned := true;
                 banned_at := Some (clock0 1); banned_by := Some 1;
                 ban_reason := lit "spam";
                 ban_expires_at := Some (clock0 2 + timedelta_days 7) |})
    as [(p1 & Hp1 & _ & _ & Hnow) _];
    [vm_compute; reflexivity | by apply elem_of_singleton_2 |].
  exists p1. split; [exact Hp1|].
  apply not_true_is_false. intros Hb.
  apply (Hnow (clock0 0 + timedelta_days 10)) with
    (expires := clock0 2 + timedelta_days 7) in Hb; [|reflexivity].
  vm_compute in Hb. discriminate.
Defined.

(** *** Moderated delete of a comment *)

Section CommentModeration.

Variable ticks : nat -> Z.
Variable transport : nat -> option exception.

(** A staff actor posts a reason the form accepts: the comment stays in
    the table, marked deleted with the time of the request's clock reading,
    the actor and the cleaned reason; every other comment, its replies
    among them, is left as it was, and so are the posts. The comment's
    author is sent one notification about the comment that carries the
    reason, unless the actor is that author. *)
Theorem admin_delete_comment_marks_and_keeps (w : World) (u : User)
  (request : Request) (pk : Z) (c : Comment) (reason : text) :
  user request = Some u ->
  is_staff u = true ->
  method request = "POST"%string ->
  comments w !! pk = Some c ->
  comment_pk c = pk ->
  DeleteCommentForm (POST request) = Valid reason ->
  exists w',
    admin_delete_comment ticks transport request pk w
    = (Ok (redirect "post_detail" (str (comment_post c))), w') /\
    (exists c',
       comments w' !! pk = Some c' /\
       comment_is_active c' = false /\
       comment_deleted_at c' = Some (ticks (clock_reads w)) /\
       comment_deleted_by c' = Some (user_pk u) /\
       comment_delete_reason c' = reason /\
       comment_content c' = comment_content c /\
       comment_author c' = comment_author c /\
       comment_post c' = comment_post c /\
       comment_parent c' = comment_parent c) /\
    (forall k, k <> pk -> comments w' !! k = comments w !! k) /\
    posts w' = posts w /\
    (user_pk u <> comment_author c ->
     exists n,
       notifications w' = notifications w ++ [n] /\
       recipient n = comment_author c /\
       sender n = user_pk u /\
       notification_comment n = Some pk /\
       notification_post n = None /\
       message n = msg_comment_deleted_reason ++ reason) /\
    (user_pk u = comment_author c -> notifications w' = notifications w).
Proof.
  intros Hu Hstaff Hmethod Hc Hpk Hform.
  unfold admin_delete_comment, login_required, staff_required.
  rewrite Hu, Hstaff. simpl.
  unfold get_Comment_or_404, is_POST, Comment_save. run.
  rewrite Hc, Hmethod, bool_decide_eq_true_2 by done.
  rewrite Hform. simpl.
  destruct (decide (user_pk u = comment_author c)) as [Heq|Hne].
  - rewrite Heq, create_notification_self. simpl.
    eexists. split; [reflexivity|]. simpl. rewrite Hpk.
    split; [|split; [|split; [done|split; [done|done]]]].
    + eexists. rewrite lookup_insert_eq. split; [reflexivity|].
      simpl. by rewrite ?Heq.
    + intros k Hk. by rewrite lookup_insert_ne.
  - match goal with
    | |- context [create_notification ?t ?tr ?s ?r ?ty ?m ?p ?c ?w1] =>
        destruct (create_notification_other t tr s r ty m p c w1 Hne)
          as (w2 & -> & Hn & _ & Hposts & Hcomments & _)
    end.
    simpl. eexists. split; [reflexivity|]. simpl. rewrite Hcomments, Hposts.
    simpl.
    rewrite Hpk.
    split; [|split; [|split; [done|split; [|done]]]].
    + eexists. rewrite lookup_insert_eq. split; [reflexivity|]. done.
    + intros k Hk. by rewrite lookup_insert_ne.
    + intros _. eexists. split; [exact Hn|]. simpl. by rewrite Hpk.
Qed.

End CommentModeration.

(** Alice deletes bob's comment for the reason "rude". *)
Lemma admin_delete_comment_marks_and_keeps_witness :
  exists w',
    admin_delete_comment clock0 layer_up
      (post_request alice (lit "/admin/comment/20/delete/")
         {[ "delete_reason"%string := lit "rude" ]}) 20 (forum 0)
    = (Ok (redirect "post_detail" (lit "10")), w') /\
    (exists n, notifications w' = [n] /\ recipient n = 2).
Proof.
  destruct (admin_delete_comment_marks_and_keeps clock0 layer_up (forum 0)
              alice
              (post_request alice (lit "/admin/comment/20/delete/")
                 {[ "delete_reason"%string := lit "rude" ]})
              20 comment20 (lit "rude"))
    as (w' & Hrun & _ & _ & _ & Hn & _);
    [reflexivity | reflexivity | reflexivity | reflexivity | reflexivity
    | vm_compute; reflexivity |].
  exists w'. split; [exact Hrun|].
  destruct Hn as (n & Hn & Hr & _); [vm_compute; discriminate|].
  exists n. split; [exact Hn|exact Hr].
Defined.

(** *** Who sees a post that a moderator deleted *)

Section Hidden.

Variable ticks : nat -> Z.
Variable cached : nat -> option Z.
Variable transport : nat -> option exception.

(** The table of posts after a moderated delete that the form accepts. *)
Lemma admin_delete_post_posts (w : World) (u : User) (request : Request)
  (pk : Z) (post : Post) (reason : text) :
  user request = Some u ->
  is_staff u = true ->
  method request = "POST"%string ->
  posts w !! pk = Some post ->
  DeletePostForm (POST request) = Valid reason ->
  posts (snd (admin_delete_post ticks transport request pk w))
  = <[post_pk post := moderated (ticks (clock_reads w))
                        (ticks (S (clock_reads w))) (user_pk u) reason post]>
      (posts w).
Proof.
  intros Hu Hstaff Hmethod Hpost Hform.
  unfold admin_delete_post, login_required, staff_required.
  rewrite Hu, Hstaff. simpl.
  unfold get_Post_or_404, is_POST, Post_save. run.
  rewrite Hpost, Hmethod, bool_decide_eq_true_2 by done.
  rewrite Hform. simpl.
  match goal with
  | |- context [create_notification ?t ?tr ?s ?r ?ty ?m ?p ?c ?w1] =>
      destruct (create_notification_frame t tr s r ty m p c w1)
        as (res & w2 & -> & _ & Hposts & _)
  end.
  simpl. by rewrite Hposts.
Qed.

(** After a moderated delete the post can be viewed by staff only and is
    in no list of active posts, as the [home] view builds it; the other
    active posts stay listed. *)
Theorem moderated_post_leaves_the_lists (w : World) (u : User)
  (request : Request) (pk : Z) (post : Post) (reason : text) :
  user request = Some u ->
  is_staff u = true ->
  method request = "POST"%string ->
  posts w !! pk = Some post ->
  post_pk post = pk ->
  DeletePostForm (POST request) = Valid reason ->
  let w' := snd (admin_delete_post ticks transport request pk w) in
  (exists p',
     posts w' !! pk = Some p' /\ Post_is_deleted p' = true /\
     forall viewer, Post_can_be_viewed_by p' viewer = user_is_staff viewer) /\
  (exists ps,
     active_posts w' = (Ok ps, w') /\
     forall p, p ∈ ps <->
       exists k, k <> pk /\ posts w !! k = Some p /\ post_is_active p = true).
Proof.
  intros Hu Hstaff Hmethod Hpost Hpk Hform w'.
  pose proof (admin_delete_post_posts w u request pk post reason
                Hu Hstaff Hmethod Hpost Hform) as Hposts.
  fold w' in Hposts. rewrite Hpk in Hposts. split.
  - eexists. rewrite Hposts, lookup_insert_eq. split; [done|].
    split; [done|]. intros [v|]; [|done].
    unfold Post_can_be_viewed_by. simpl. by destruct (is_staff v).
  - destruct (active_posts_spec w') as (ps & Hrun & Hps).
    exists ps. split; [done|]. intros p. rewrite Hps, Hposts. split.
    + intros [[k Hk] Hactive]. exists k.
      destruct (decide (k = pk)) as [->|Hne].
      * rewrite lookup_insert_eq in Hk. injection Hk as <-. done.
      * by rewrite lookup_insert_ne in Hk.
    + intros (k & Hne & Hk & Hactive). split; [|done]. exists k.
      by rewrite lookup_insert_ne.
Qed.

(** [post_detail] looks at neither [is_active] nor [can_be_viewed_by]:
    whoever asks for the page of a post that is in the table is served
    it, on every view but the tenth, whether or not they may view the
    post. *)
Theorem post_detail_serves_hidden_posts (w : World) (request : Request)
  (pk : Z) (post : Post) :
  posts w !! pk = Some post ->
  method request <> "POST"%string ->
  (default 0 (cached (cache_reads w)) + 1) mod 10 <> 0 ->
  exists w',
    post_detail ticks cached transport request pk w
    = (Ok (render "community/post_detail.html"), w') /\
    posts w' = posts w.
Proof.
  intros Hpost Hmethod Hcount.
  unfold post_detail, get_Post_or_404, update_post_views, cache_get,
    cache_set, is_POST. run.
  rewrite Hpost. apply Z.eqb_neq in Hcount. rewrite Hcount. simpl.
  rewrite bool_decide_eq_false_2 by done. by eexists.
Qed.

End Hidden.

(** Alice deletes bob's post: alice's post is the one still listed. *)
Lemma moderated_post_leaves_the_lists_witness :
  exists ps,
    active_posts forum_post11_moderated = (Ok ps, forum_post11_moderated) /\
    forall p, p ∈ ps <->
      exists k, k <> 11 /\ posts (forum 0) !! k = Some p
                /\ post_is_active p = true.
Proof.
  destruct (moderated_post_leaves_the_lists clock0 layer_up (forum 0) alice
              (post_request alice (lit "/admin/post/11/delete/")
                 {[ "delete_reason"%string := lit "duplicate" ]})
              11 post11 (lit "duplicate")) as [_ Hlist];
    [reflexivity | reflexivity | reflexivity | reflexivity | reflexivity
    | vm_compute; reflexivity |].
  exact Hlist.
Defined.

(** A visitor who is not logged in asks for the page of the post that
    alice deleted, and may not view it. *)
Lemma post_detail_serves_hidden_posts_witness :
  (exists p, posts forum_post11_moderated !! 11 = Some p /\
             Post_can_be_viewed_by p None = false) /\
  exists w',
    post_detail clock0 cache0 layer_up (get_request None (lit "/post/11/")) 11
      forum_post11_moderated
    = (Ok (render "community/post_detail.html"), w') /\
    posts w' = posts forum_post11_moderated.
Proof.
  split; [eexists; split; [vm_compute; reflexivity|reflexivity]|].
  eapply (post_detail_serves_hidden_posts clock0 cache0 layer_up
            forum_post11_moderated (get_request None (lit "/post/11/")) 11).
  - vm_compute. reflexivity.
  - discriminate.
  - vm_compute. discriminate.
Defined.

(** *** The page of a post *)

Section PostDetail.

Variable ticks : nat -> Z.
Variable cached : nat -> option Z.
Variable transport : nat -> option exception.

Lemma create_notification_posts s r ty msg post comment w :
  posts (snd (create_notification ticks transport s r ty msg post comment w))
  = posts w.
Proof.
  destruct (create_notification_frame ticks transport s r ty msg post
              comment w) as (res & w' & -> & _ & Hp & _).
  exact Hp.
Qed.

(** Whatever is sent to [post_detail], the table of posts is left as it
    was: the view count that [update_post_views] keeps in the cache never
    reaches the [views] column. *)
Theorem post_detail_never_stores_the_views (request : Request) (pk : Z)
  (w : World) :
  posts (snd (post_detail ticks cached transport request pk w)) = posts w.
Proof.
  symmetry. revert w.
  change (preserves posts eq (post_detail ticks cached transport request pk)).
  unfold post_detail.
  preserve ltac:(idtac; match goal with
    | |- preserves _ _ (create_notification _ _ _ _ _ _ _ _) =>
        apply preserves_frame; [|intros ?; apply create_notification_posts]
    end).
Qed.

(** On every tenth view of a post, counted in the cache, [post_detail]
    fails with the [ImportError] of [update_post_views], before it looks
    at the request: a comment posted with that request is not stored, and
    nobody is notified. *)
Theorem post_detail_tenth_view_fails (w : World) (request : Request)
  (pk : Z) (post : Post) :
  posts w !! pk = Some post ->
  (default 0 (cached (cache_reads w)) + 1) mod 10 = 0 ->
  exists w',
    post_detail ticks cached transport request pk w
    = (Raise (ImportError "community.utils.models"), w') /\
    comments w' = comments w /\
    notifications w' = notifications w /\
    flash w' = flash w /\
    cache_writes w'
    = cache_writes w ++
      [(lit "post_views_" ++ str pk, default 0 (cached (cache_reads w)) + 1,
        300)].
Proof.
  intros Hpost Hcount.
  unfold post_detail, get_Post_or_404, update_post_views, cache_get,
    cache_set. run.
  rewrite Hpost. apply Z.eqb_eq in Hcount. rewrite Hcount. simpl.
  by eexists.
Qed.

(** On the other views, a logged-in user who posts a comment that the
    form accepts has it stored under the next key of the table, on the
    post and in their name, with the cleaned content and the time of the
    request, as a comment without a parent; the post's author is sent
    one notification, unless the comment is the author's own. Neither the
    state of the post nor a ban of the user is looked at. *)
Theorem post_detail_stores_the_comment (w : World) (u : User)
  (request : Request) (pk : Z) (post : Post) (content : text) :
  posts w !! pk = Some post ->
  post_pk post = pk ->
  user request = Some u ->
  method request = "POST"%string ->
  (default 0 (cached (cache_reads w)) + 1) mod 10 <> 0 ->
  CommentForm (POST request) = Valid content ->
  exists w',
    let c := new_comment ticks pk (user_pk u) content w in
    post_detail ticks cached transport request pk w
    = (Ok (redirect "post_detail" (str pk)), w') /\
    comments w' = <[comment_pk c := c]> (comments w) /\
    (user_pk u <> post_author post ->
     exists n,
       notifications w' = notifications w ++ [n] /\
       recipient n = post_author post /\
       sender n = user_pk u /\
       notification_type n = lit "comment" /\
       notification_post n = Some pk /\
       notification_comment n = Some (comment_pk c)) /\
    (user_pk u = post_author post -> notifications w' = notifications w).
Proof.
  intros Hpost Hpk Hu Hmethod Hcount Hform.
  unfold post_detail, get_Post_or_404, update_post_views, cache_get,
    cache_set, is_POST, Comment_create. run.
  rewrite Hpost. apply Z.eqb_neq in Hcount. rewrite Hcount. simpl.
  rewrite Hmethod, bool_decide_eq_true_2 by done. rewrite Hu, Hform. simpl.
  rewrite Hpk.
  destruct (decide (post_author post = user_pk u)) as [Heq|Hne].
  - rewrite bool_decide_eq_true_2 by done. simpl.
    eexists. split; [reflexivity|]. split; [reflexivity|].
    split; [|done]. intros Hne. by destruct Hne.
  - rewrite bool_decide_eq_false_2 by done. simpl.
    assert (Hne' : user_pk u <> post_author post) by congruence.
    match goal with
    | |- context [create_notification ?t ?tr ?s ?r ?ty ?m ?p ?c ?w1] =>
        destruct (create_notification_other t tr s r ty m p c w1 Hne')
          as (w2 & -> & Hn & _ & _ & Hcomments & _)
    end.
    simpl. eexists. split; [reflexivity|].
    split; [exact Hcomments|]. split; [|done].
    intros _. eexists. split; [exact Hn|]. done.
Qed.

End PostDetail.

(** Bob posts a comment on alice's post with the tenth view of it. *)
Lemma post_detail_tenth_view_fails_witness :
  exists w',
    post_detail clock0 cache9 layer_up
      (post_request bob (lit "/post/10/") comment_nice_post) 10 (forum 0)
    = (Raise (ImportError "community.utils.models"), w') /\
    comments w' = comments (forum 0).
Proof.
  destruct (post_detail_tenth_view_fails clock0 cache9 layer_up (forum 0)
              (post_request bob (lit "/post/10/") comment_nice_post) 10
              post10) as (w' & Hrun & Hcomments & _);
    [reflexivity | reflexivity |].
  exists w'. split; [exact Hrun|exact Hcomments].
Defined.

(** Bob, banned for a week by alice a moment ago, comments on her
    post. *)
Lemma post_detail_stores_the_comment_witness :
  (exists p, profiles forum_bob_banned !! 2 = Some p /\
             is_currently_banned p (clock0 3) = true) /\
  exists w',
    post_detail clock0 cache0 layer_up
      (post_request bob (lit "/post/10/") comment_nice_post) 10
      forum_bob_banned
    = (Ok (redirect "post_detail" (str 10)), w') /\
    comment_content <$> comments w' !! 21 = Some (lit "nice post").
Proof.
  split; [eexists; split; [vm_compute; reflexivity|reflexivity]|].
  destruct (post_detail_stores_the_comment clock0 cache0 layer_up
              forum_bob_banned bob
              (post_request bob (lit "/post/10/") comment_nice_post) 10
              post10 (lit "nice post")) as (w' & Hall);
    [reflexivity | reflexivity | reflexivity | reflexivity
    | by vm_compute | by vm_compute |].
  cbv zeta in Hall. destruct Hall as (Hrun & Hcomments & _).
  exists w'. split; [exact Hrun|]. rewrite Hcomments.
  change (comment_pk (new_comment clock0 10 (user_pk bob) (lit "nice post")
                        forum_bob_banned)) with 21.
  by rewrite lookup_insert_eq.
Defined.

(** *** Stripping, and the comment form *)

Lemma lstrip_fixed (s : text) :
  match s with [] => True | c :: _ => isspace c = false end -> lstrip s = s.
Proof. destruct s as [|c s]; [done|]. simpl. by intros ->. Qed.

Lemma lstrip_head (s : text) :
  match lstrip s with [] => True | c :: _ => isspace c = false end.
Proof.
  induction s as [|c s IH]; simpl; [done|].
  destruct (isspace c) eqn:Hc; [done|]. simpl. exact Hc.
Qed.

Lemma lstrip_idemp (s : text) : lstrip (lstrip s) = lstrip s.
Proof. apply lstrip_fixed, lstrip_head. Qed.

Lemma lstrip_snoc (a : text) (c : N) :
  isspace c = false -> exists b, lstrip (a ++ [c]) = b ++ [c].
Proof.
  intros Hc. induction a as [|d a IH]; simpl.
  - rewrite Hc. by exists [].
  - destruct (isspace d); [done|]. by exists (d :: a).
Qed.

Lemma rstrip_head (s : text) :
  match s with [] => True | c :: _ => isspace c = false end ->
  match rstrip s with [] => True | c :: _ => isspace c = false end.
Proof.
  destruct s as [|c s]; [done|]. intros Hc. unfold rstrip. simpl.
  destruct (lstrip_snoc (rev s) c Hc) as [b ->].
  by rewrite rev_app_distr.
Qed.

Lemma rstrip_idemp (s : text) : rstrip (rstrip s) = rstrip s.
Proof. unfold rstrip. by rewrite rev_involutive, lstrip_idemp. Qed.

(** [strip] on a stripped string changes nothing. *)
Lemma strip_idemp (s : text) : strip (strip s) = strip s.
Proof.
  unfold strip at 1.
  rewrite (lstrip_fixed (strip s)) by apply rstrip_head, lstrip_head.
  apply rstrip_idemp.
Qed.

(** [CommentForm] accepts exactly a posted content that, stripped, has at
    least two characters and no null character, and what it hands to the
    view is the stripped content. *)
Theorem CommentForm_accepts_iff (data : gmap string text) (content : text) :
  CommentForm data = Valid content <->
  exists raw,
    data !! "content"%string = Some raw /\ content = strip raw /\
    (2 <= length content)%nat /\ 0%N ∉ content.
Proof.
  unfold CommentForm. split.
  - destruct (CharField_clean true None (data !! "content"%string))
      as [v|] eqn:E; [|done].
    apply CharField_clean_Valid in E as (Hv & Hne & _ & H0).
    destruct (length (strip v) <? 2)%nat eqn:Hlen; [done|].
    intros [= <-]. apply Nat.ltb_ge in Hlen.
    destruct (data !! "content"%string) as [raw|]; simpl in Hv.
    2:{ by destruct Hne. }
    subst v. rewrite strip_idemp in *. by exists raw.
  - intros (raw & -> & -> & Hlen & H0). unfold CharField_clean.
    destruct (strip raw) as [|c s] eqn:Hs; [simpl in Hlen; lia|].
    simpl truthy. cbv iota beta. simpl negb. cbv iota.
    destruct (existsb (N.eqb 0) (c :: s)) eqn:E.
    { exfalso. apply H0. apply existsb_exists in E as (x & Hx & Hx0).
      apply N.eqb_eq in Hx0 as <-. by apply list_elem_of_In. }
    rewrite <- Hs, strip_idemp.
    apply Nat.ltb_ge in Hlen. by rewrite Hs, Hlen.
Qed.

(** *** Follows *)

Section Follows.

Variable ticks : nat -> Z.
Variable transport : nat -> option exception.

Lemma create_notification_follows s r ty msg post comment w :
  follows (snd (create_notification ticks transport s r ty msg post
                  comment w)) = follows w.
Proof.
  destruct (create_notification_frame ticks transport s r ty msg post
              comment w) as (res & w' & -> & _ & _ & _ & _ & _ & Hf & _).
  exact Hf.
Qed.

Lemma Follow_get_or_create_no_self (a b : Z) :
  a <> b ->
  preserves follows (keeps no_self_follow) (Follow_get_or_create ticks a b).
Proof.
  intros Hne w Hinv. unfold Follow_get_or_create.
  destruct (filter _ (follows w)) as [|f [|]]; try done.
  run. apply Forall_app. split; [done|]. by apply Forall_singleton.
Qed.

Lemma Follow_delete_no_self (f : Follow) :
  preserves follows (keeps no_self_follow) (Follow_delete f).
Proof.
  intros w Hinv. unfold Follow_delete. run.
  apply Forall_forall. intros x Hx. apply list_elem_of_filter in Hx as [_ Hx].
  by apply (proj1 (Forall_forall _ _) Hinv).
Qed.

(** Whoever sends whatever to [follow_user], nobody comes to follow
    themselves. *)
Theorem follow_user_never_follows_self (request : Request) (name : text)
  (w : World) :
  no_self_follow (follows w) ->
  no_self_follow (follows (snd (follow_user ticks transport request name w))).
Proof.
  revert w. change (preserves follows (keeps no_self_follow)
                      (follow_user ticks transport request name)).
  unfold follow_user, login_required.
  preserve ltac:(idtac; match goal with
    | H : bool_decide (_ = _) = false
      |- preserves _ _ (Follow_get_or_create _ _ _) =>
        apply Follow_get_or_create_no_self;
        apply bool_decide_eq_false in H; congruence
    | |- preserves _ _ (Follow_delete _) => apply Follow_delete_no_self
    | |- preserves _ _ (create_notification _ _ _ _ _ _ _ _) =>
        apply preserves_frame; [|intros ?; apply create_notification_follows]
    end).
Qed.

Lemma create_notification_activities s r ty msg post comment w :
  activities (snd (create_notification ticks transport s r ty msg post
                     comment w)) = activities w.
Proof.
  unfold create_notification.
  destruct (bool_decide (s = r)); simpl; [done|].
  unfold Notification_objects_create, group_send. run.
  by destruct (transport (pushes w)).
Qed.

(** A user who does not follow another comes to follow them, and the
    other is notified. *)
Lemma follow_user_follows (w : World) (u target : User) (request : Request)
  (name : text) :
  user request = Some u ->
  method request = "POST"%string ->
  filter (fun x => username x = name) (users w) = [target] ->
  user_pk target <> user_pk u ->
  filter (fun f => follow_follower f = user_pk u
                   /\ follow_following f = user_pk target) (follows w) = [] ->
  exists w1 n,
    follow_user ticks transport request name w
    = (Ok (redirect "user_profile" name), w1) /\
    users w1 = users w /\
    follows w1
    = follows w ++ [new_follow ticks (user_pk u) (user_pk target) w] /\
    notifications w1 = notifications w ++ [n] /\
    recipient n = user_pk target /\ sender n = user_pk u /\
    notification_type n = lit "follow" /\
    activity_type <$> activities w1
    = (activity_type <$> activities w) ++ [lit "follow"].
Proof.
  intros Hu Hm Husers Hne Hnone.
  unfold follow_user, login_required. rewrite Hu.
  unfold get_User_or_404, is_POST, Follow_get_or_create,
    record_user_activity. run.
  rewrite Husers, Hm. rewrite bool_decide_eq_false_2 by done.
  rewrite bool_decide_eq_true_2 by done. rewrite Hnone. run.
  assert (Hne' : user_pk u <> user_pk target) by congruence.
  match goal with
  | |- context [create_notification ?t ?tr ?s ?r ?ty ?m ?p ?c ?w1] =>
      pose proof (create_notification_activities s r ty m p c w1) as Hact;
      destruct (create_notification_other t tr s r ty m p c w1 Hne')
        as (w2 & Hrun & Hn & Hus & _ & _ & _ & _ & Hf & _)
  end.
  rewrite Hrun in Hact. rewrite Hrun. simpl in *.
  eexists _, _. split; [reflexivity|]. simpl.
  rewrite Hus, Hf, Hn, Hact. repeat split.
  by rewrite fmap_app.
Qed.

(** A user who follows another ceases to; nobody is notified. *)
Lemma follow_user_unfollows (w : World) (u target : User)
  (request : Request) (name : text) (f : Follow) :
  user request = Some u ->
  method request = "POST"%string ->
  filter (fun x => username x = name) (users w) = [target] ->
  user_pk target <> user_pk u ->
  filter (fun f => follow_follower f = user_pk u
                   /\ follow_following f = user_pk target) (follows w) = [f] ->
  exists w2,
    follow_user ticks transport request name w
    = (Ok (redirect "user_profile" name), w2) /\
    follows w2 = filter (fun x => follow_pk x ≠ follow_pk f) (follows w) /\
    notifications w2 = notifications w /\
    activity_type <$> activities w2
    = (activity_type <$> activities w) ++ [lit "unfollow"].
Proof.
  intros Hu Hm Husers Hne Hone.
  unfold follow_user, login_required. rewrite Hu.
  unfold get_User_or_404, is_POST, Follow_get_or_create, Follow_delete,
    record_user_activity. run.
  rewrite Husers, Hm. rewrite bool_decide_eq_false_2 by done.
  rewrite bool_decide_eq_true_2 by done. rewrite Hone. simpl.
  eexists. split; [reflexivity|]. simpl. repeat split.
  by rewrite fmap_app.
Qed.

(** For a user who does not follow another, two requests in succession
    end with the table of follows as it was; the notification of the first
    request stays, and the activity log holds a follow and an unfollow. *)
Theorem follow_toggle_keeps_the_notification (w : World) (u target : User)
  (request : Request) (name : text) :
  user request = Some u ->
  method request = "POST"%string ->
  filter (fun x => username x = name) (users w) = [target] ->
  user_pk target <> user_pk u ->
  follow_sequence_ok w ->
  filter (fun f => follow_follower f = user_pk u
                   /\ follow_following f = user_pk target) (follows w) = [] ->
  exists w1 w2 n,
    follow_user ticks transport request name w
    = (Ok (redirect "user_profile" name), w1) /\
    follow_user ticks transport request name w1
    = (Ok (redirect "user_profile" name), w2) /\
    follows w1
    = follows w ++ [new_follow ticks (user_pk u) (user_pk target) w] /\
    follows w2 = follows w /\
    notifications w1 = notifications w ++ [n] /\
    notifications w2 = notifications w1 /\
    recipient n = user_pk target /\
    notification_type n = lit "follow" /\
    activity_type <$> activities w2
    = (activity_type <$> activities w) ++ [lit "follow"; lit "unfollow"].
Proof.
  intros Hu Hm Husers Hne Hseq Hnone.
  destruct (follow_user_follows w u target request name)
    as (w1 & n & Hrun1 & Hus1 & Hf1 & Hn1 & Hr & _ & Hty & Hact1); try done.
  destruct (follow_user_unfollows w1 u target request name
              (new_follow ticks (user_pk u) (user_pk target) w))
    as (w2 & Hrun2 & Hf2 & Hn2 & Hact2); try done.
  { by rewrite Hus1. }
  { rewrite Hf1, filter_app, Hnone. simpl. by rewrite filter_cons_True. }
  exists w1, w2, n. repeat split; try done.
  - rewrite Hf2, Hf1, filter_app. simpl.
    rewrite filter_cons_False by (simpl; intros H; by apply H).
    rewrite filter_nil, app_nil_r. apply filter_all.
    apply Forall_forall. intros f Hf. apply Hseq in Hf. simpl. lia.
  - by rewrite Hact2, Hact1, <- app_assoc.
Qed.

End Follows.

(** Bob follows alice, twice. *)
Lemma follow_toggle_keeps_the_notification_witness :
  exists w1 w2 n,
    follow_user clock0 layer_up
      (post_request bob (lit "/user/alice/follow/") ∅) (lit "alice") (forum 0)
    = (Ok (redirect "user_profile" (lit "alice")), w1) /\
    follow_user clock0 layer_up
      (post_request bob (lit "/user/alice/follow/") ∅) (lit "alice") w1
    = (Ok (redirect "user_profile" (lit "alice")), w2) /\
    follows w2 = [] /\
    notifications w2 = [n] /\
    recipient n = 1.
Proof.
  destruct (follow_toggle_keeps_the_notification clock0 layer_up (forum 0)
              bob alice (post_request bob (lit "/user/alice/follow/") ∅)
              (lit "alice"))
    as (w1 & w2 & n & Hrun1 & Hrun2 & _ & Hf2 & Hn1 & Hn2 & Hr & _);
    [reflexivity | reflexivity | reflexivity | vm_compute; discriminate
    | intros f Hf; by apply elem_of_nil in Hf
    | reflexivity |].
  exists w1, w2, n.
  split; [exact Hrun1|]. split; [exact Hrun2|]. split; [exact Hf2|].
  split; [by rewrite Hn2, Hn1|exact Hr].
Defined.

(** Bob asks to follow bob. *)
Lemma follow_user_never_follows_self_witness :
  no_self_follow
    (follows (snd (follow_user clock0 layer_up
                     (post_request bob (lit "/user/bob/follow/") ∅)
                     (lit "bob") (forum 0)))).
Proof.
  apply (follow_user_never_follows_self clock0 layer_up
           (post_request bob (lit "/user/bob/follow/") ∅) (lit "bob")
           (forum 0)).
  apply Forall_nil_2.
Defined.

(** *** What [like_post] answers to a script *)

Lemma filter_other_pks (ls : list Like) (l : Like) :
  like_pk l ∉ like_pk <$> ls ->
  filter (fun x => like_pk x ≠ like_pk l) ls = ls.
Proof.
  intros Hout. apply filter_all, Forall_forall. intros x Hx Heq.
  apply Hout. rewrite <- Heq. by apply list_elem_of_fmap_2.
Qed.

Lemma length_filter_delete (P : Like -> Prop) `{!forall x, Decision (P x)}
  (ls : list Like) (l : Like) :
  NoDup (like_pk <$> ls) -> l ∈ ls -> P l ->
  S (length (filter P (filter (fun x => like_pk x ≠ like_pk l) ls)))
  = length (filter P ls).
Proof.
  intros Hnodup Hin HP.
  induction ls as [|x ls IH]; [by apply elem_of_nil in Hin|].
  rewrite fmap_cons in Hnodup. apply NoDup_cons in Hnodup as [Hx Hnodup].
  apply elem_of_cons in Hin as [->|Hin].
  - rewrite filter_cons_False by (intros Hself; by apply Hself).
    rewrite filter_other_pks by done. by rewrite filter_cons_True.
  - assert (like_pk x ≠ like_pk l) as Hne.
    { intros Heq. apply Hx. rewrite Heq. by apply list_elem_of_fmap_2. }
    rewrite filter_cons_True by done.
    destruct (decide (P x)).
    + rewrite !filter_cons_True by done. simpl. by rewrite IH.
    + rewrite !filter_cons_False by done. by apply IH.
Qed.

Section LikeAnswer.

Variable ticks : nat -> Z.
Variable transport : nat -> option exception.

(** To a script ([X-Requested-With: XMLHttpRequest]) [like_post] answers
    with the state after the toggle: liked and one like more for a user
    who had no like on the post, not liked and one like less for a user
    who had one. *)
Theorem like_post_answers_the_new_state (w : World) (u : User)
  (request : Request) (pk : Z) (post : Post) :
  user request = Some u ->
  method request = "POST"%string ->
  x_requested_with request = Some (lit "XMLHttpRequest") ->
  posts w !! pk = Some post -> post_pk post = pk ->
  NoDup (like_pk <$> likes w) ->
  (likes_of (user_pk u) pk w = [] ->
   exists w',
     like_post ticks transport request pk w
     = (Ok (JsonResponse true (S (get_likes_count pk w))), w')) /\
  (forall l, likes_of (user_pk u) pk w = [l] ->
   exists n w',
     get_likes_count pk w = S n /\
     like_post ticks transport request pk w
     = (Ok (JsonResponse false n), w')).
Proof.
  intros Hu Hm Hajax Hpost Hpk Hnodup. split.
  - intros Hnone.
    unfold like_post, login_required. rewrite Hu.
    unfold get_Post_or_404, is_POST, Like_get_or_create. run.
    rewrite Hpost, Hm, bool_decide_eq_true_2 by done.
    rewrite Hpk. unfold likes_of in Hnone. rewrite Hnone. run.
    rewrite Hajax. rewrite (bool_decide_eq_true_2 (Some _ = Some _)) by done.
    assert (Hanswer : forall w1,
      likes w1 = likes w ++ [new_like ticks (user_pk u) pk w] ->
      JsonResponse (is_liked_by pk (user_pk u) w1) (get_likes_count pk w1)
      = JsonResponse true (S (get_likes_count pk w))).
    { intros w1 Hl. unfold is_liked_by, get_likes_count.
      rewrite Hl, !filter_app.
      rewrite (filter_cons_True (fun l => like_post_id l = pk /\ _))
        by (by split).
      rewrite (filter_cons_True (fun l => like_post_id l = pk)) by done.
      rewrite !filter_nil, length_app. simpl. rewrite Nat.add_1_r.
      rewrite bool_decide_eq_true_2; [done|]. by intros []%app_eq_nil. }
    destruct (bool_decide (post_author post = user_pk u)); simpl.
    + eexists. by rewrite Hanswer.
    + match goal with
      | |- context [create_notification ?t ?tr ?s ?r ?ty ?m ?p ?c ?w1] =>
          destruct (create_notification_frame t tr s r ty m p c w1)
            as (res & w2 & -> & _ & _ & _ & _ & Hlikes & _)
      end.
      simpl in *. eexists. by rewrite Hanswer.
  - intros l Hone.
    assert (Hin : l ∈ likes w /\ like_user_id l = user_pk u
                  /\ like_post_id l = pk).
    { assert (l ∈ likes_of (user_pk u) pk w) as Hl by (rewrite Hone; by left).
      apply list_elem_of_filter in Hl. tauto. }
    destruct Hin as (Hin & Hlu & Hlp).
    unfold like_post, login_required. rewrite Hu.
    unfold get_Post_or_404, is_POST, Like_get_or_create, Like_delete. run.
    rewrite Hpost, Hm, bool_decide_eq_true_2 by done.
    rewrite Hpk. unfold likes_of in Hone. rewrite Hone. simpl.
    rewrite Hajax. rewrite (bool_decide_eq_true_2 (Some _ = Some _)) by done.
    simpl. unfold is_liked_by, get_likes_count. simpl.
    rewrite bool_decide_eq_false_2.
    { eexists _, _. split; [|reflexivity].
      symmetry. by apply length_filter_delete. }
    intros Hsome. apply Hsome.
    apply length_zero_iff_nil.
    pose proof (length_filter_delete
                  (fun x => like_post_id x = pk /\ like_user_id x = user_pk u)
                  (likes w) l Hnodup Hin (conj Hlp Hlu)) as Hlen.
    assert (length (filter (fun x => like_post_id x = pk
                                     /\ like_user_id x = user_pk u) (likes w))
            = 1%nat) as H1.
    { transitivity (length (filter (fun l => like_user_id l = user_pk u
                                       /\ like_post_id l = pk) (likes w)));
        [|by rewrite Hone].
      f_equal. apply list_filter_iff. intros x. tauto. }
    lia.
Qed.

End LikeAnswer.

(** Bob's script likes alice's post. *)
Lemma like_post_answers_the_new_state_witness :
  exists w',
    like_post clock0 layer_up (ajax_request bob (lit "/post/10/like/")) 10
      (forum 0)
    = (Ok (JsonResponse true 1), w').
Proof.
  apply (proj1 (like_post_answers_the_new_state clock0 layer_up (forum 0) bob
                  (ajax_request bob (lit "/post/10/like/")) 10 post10
                  eq_refl eq_refl eq_refl eq_refl eq_refl
                  (NoDup_nil_2 : NoDup (like_pk <$> likes (forum 0))))).
  reflexivity.
Defined.

(** *** Pinning *)

Section Pins.

Variable ticks : nat -> Z.
Variable transport : nat -> option exception.

Lemma toggle_pin_post_once (w : World) (u : User) (request : Request)
  (pk : Z) (post : Post) :
  user request = Some u ->
  is_staff u = true ->
  posts w !! pk = Some post ->
  post_pk post = pk ->
  exists w1,
    toggle_pin_post ticks request pk w
    = (Ok (redirect "post_detail" (str pk)), w1) /\
    clock_reads w1 = S (clock_reads w) /\
    posts w1
    = <[pk := set_updated_at (ticks (clock_reads w))
                (set_is_pinned (negb (post_is_pinned post)) post)]> (posts w).
Proof.
  intros Hu Hstaff Hpost Hpk.
  unfold toggle_pin_post, login_required, staff_required.
  rewrite Hu, Hstaff. simpl.
  unfold get_Post_or_404, Post_save. run. rewrite Hpost. simpl.
  subst pk. eexists. split; [reflexivity|]. by split.
Qed.

(** For a staff member [toggle_pin_post] flips the pin on every request,
    whatever its method, and stores nothing else but the time of the
    save; a second request puts the pin back. *)
Theorem toggle_pin_post_flips_on_any_method (w : World) (u : User)
  (request : Request) (pk : Z) (post : Post) :
  user request = Some u ->
  is_staff u = true ->
  posts w !! pk = Some post ->
  post_pk post = pk ->
  exists w1 w2,
    toggle_pin_post ticks request pk w
    = (Ok (redirect "post_detail" (str pk)), w1) /\
    toggle_pin_post ticks request pk w1
    = (Ok (redirect "post_detail" (str pk)), w2) /\
    posts w1
    = <[pk := set_updated_at (ticks (clock_reads w))
                (set_is_pinned (negb (post_is_pinned post)) post)]> (posts w) /\
    posts w2
    = <[pk := set_updated_at (ticks (S (clock_reads w))) post]> (posts w).
Proof.
  intros Hu Hstaff Hpost Hpk.
  destruct (toggle_pin_post_once w u request pk post)
    as (w1 & Hrun1 & Hclock & Hp1); try done.
  destruct (toggle_pin_post_once w1 u request pk
              (set_updated_at (ticks (clock_reads w))
                 (set_is_pinned (negb (post_is_pinned post)) post)))
    as (w2 & Hrun2 & _ & Hp2); try done.
  { by rewrite Hp1, lookup_insert_eq. }
  exists w1, w2. split; [done|]. split; [done|]. split; [done|].
  rewrite Hp2, Hp1, insert_insert_eq, Hclock. f_equal.
  unfold set_updated_at, set_is_pinned. simpl. rewrite negb_involutive.
  by destruct post.
Qed.

End Pins.

(** Alice pins her post with a [GET], and unpins it with another. *)
Lemma toggle_pin_post_flips_on_any_method_witness :
  exists w1 w2 p1,
    toggle_pin_post clock0 (get_request (Some alice) (lit "/post/10/pin/")) 10
      (forum 0)
    = (Ok (redirect "post_detail" (str 10)), w1) /\
    toggle_pin_post clock0 (get_request (Some alice) (lit "/post/10/pin/")) 10
      w1
    = (Ok (redirect "post_detail" (str 10)), w2) /\
    posts w1 !! 10 = Some p1 /\ post_is_pinned p1 = true /\
    posts w2 !! 10 = Some (set_updated_at (clock0 1) post10).
Proof.
  destruct (toggle_pin_post_flips_on_any_method clock0 (forum 0) alice
              (get_request (Some alice) (lit "/post/10/pin/")) 10 post10)
    as (w1 & w2 & Hrun1 & Hrun2 & Hp1 & Hp2);
    [reflexivity | reflexivity | reflexivity | reflexivity |].
  exists w1, w2. eexists.
  split; [exact Hrun1|]. split; [exact Hrun2|].
  rewrite Hp1, Hp2, !lookup_insert_eq. split; [reflexivity|].
  split; reflexivity.
Defined.

(** *** The admin site's bulk actions on posts *)

Lemma queryset_update_post_lookup (f : Post -> Post) (selected : gset Z)
  (w : World) (k : Z) :
  posts (snd (queryset_update_post f selected w)) !! k
  = (fun p => if bool_decide (post_pk p ∈ selected) then f p else p)
    <$> posts w !! k.
Proof. unfold queryset_update_post. run. apply lookup_fmap. Qed.

(** The bulk action "activate" on a post that a moderator deleted makes
    it a post like any other again, viewable by everybody, and leaves the
    record of the deletion on it: the time, the moderator and the
    reason. *)
Theorem activate_posts_keeps_the_deletion_record (ticks : nat -> Z)
  (transport : nat -> option exception) (w : World) (u : User)
  (request : Request) (pk : Z) (post : Post) (reason : text)
  (selected : gset Z) :
  user request = Some u ->
  is_staff u = true ->
  method request = "POST"%string ->
  posts w !! pk = Some post ->
  post_pk post = pk ->
  DeletePostForm (POST request) = Valid reason ->
  pk ∈ selected ->
  exists p,
    posts (snd (activate_posts selected
                  (snd (admin_delete_post ticks transport request pk w))))
      !! pk = Some p /\
    Post_is_deleted p = false /\
    (forall viewer, Post_can_be_viewed_by p viewer = true) /\
    post_deleted_at p = Some (ticks (clock_reads w)) /\
    post_deleted_by p = Some (user_pk u) /\
    post_delete_reason p = reason.
Proof.
  intros Hu Hstaff Hmethod Hpost Hpk Hform Hsel.
  eexists. split.
  - unfold activate_posts. rewrite queryset_update_post_lookup.
    rewrite (admin_delete_post_posts ticks transport w u request pk post
               reason) by done.
    rewrite Hpk, lookup_insert_eq. simpl.
    rewrite Hpk, bool_decide_eq_true_2 by done. reflexivity.
  - done.
Qed.

(** Alice deletes bob's post as a moderator and activates it in the
    admin site. *)
Lemma activate_posts_keeps_the_deletion_record_witness :
  exists p,
    posts (snd (activate_posts {[11]} forum_post11_moderated)) !! 11
    = Some p /\
    Post_is_deleted p = false /\
    post_delete_reason p = lit "duplicate".
Proof.
  destruct (activate_posts_keeps_the_deletion_record clock0 layer_up
              (forum 0) alice
              (post_request alice (lit "/admin/post/11/delete/")
                 {[ "delete_reason"%string := lit "duplicate" ]})
              11 post11 (lit "duplicate") {[11]})
    as (p & Hp & Hactive & _ & _ & _ & Hreason);
    [reflexivity | reflexivity | reflexivity | reflexivity | reflexivity
    | vm_compute; reflexivity | by apply elem_of_singleton_2 |].
  exists p. split; [exact Hp|]. split; [exact Hactive|exact Hreason].
Defined.

(** *** Reading notifications *)

Lemma unread_after_update (u v : Z) (ns : list Notification) :
  length (filter (fun n => recipient n = v /\ is_read n = false)
            ((fun n => if bool_decide (recipient n = u) then set_is_read n
                       else n) <$> ns))
  = if bool_decide (v = u) then 0%nat
    else length (filter (fun n => recipient n = v /\ is_read n = false) ns).
Proof.
  induction ns as [|n ns IH]; [by case_bool_decide|].
  rewrite fmap_cons, !filter_cons.
  destruct (decide (recipient n = u)) as [Hr|Hr].
  - rewrite (bool_decide_eq_true_2 _ Hr).
    rewrite (decide_False (P := recipient (set_is_read n) = v /\ _))
      by (simpl; intros [_ ?]; done).
    rewrite IH. case_bool_decide as Hv; [done|].
    by rewrite decide_False by (intros [? _]; congruence).
  - rewrite (bool_decide_eq_false_2 _ Hr).
    case_bool_decide as Hv.
    + subst v. by rewrite decide_False by (intros [? _]; congruence).
    + case_decide; simpl; by rewrite IH, ?bool_decide_eq_false_2 by done.
Qed.

(** A logged-in user who posts to the notification page has no unread
    notification left; the count of every other user stays, and no row is
    added or removed. *)
Theorem notifications_view_reads_all_of_one_user (w : World) (u : User)
  (request : Request) :
  user request = Some u ->
  method request = "POST"%string ->
  exists w',
    notifications_view request tt w = (Ok (redirect "notifications" []), w') /\
    notifications_processor request w' = 0%nat /\
    (forall v, v <> user_pk u -> unread_count v w' = unread_count v w) /\
    notification_pk <$> notifications w'
    = notification_pk <$> notifications w.
Proof.
  intros Hu Hm. unfold notifications_view, login_required. rewrite Hu.
  unfold is_POST, notifications_update_is_read. run.
  rewrite Hm, bool_decide_eq_true_2 by done. simpl.
  eexists. split; [reflexivity|]. unfold notifications_processor.
  rewrite Hu. unfold unread_count. simpl. split; [|split].
  - by rewrite unread_after_update, bool_decide_eq_true_2.
  - intros v Hv. by rewrite unread_after_update, bool_decide_eq_false_2.
  - rewrite <- list_fmap_compose. apply list_fmap_ext.
    intros i n _. simpl. by case_bool_decide.
Qed.

(** Bob reads all his notifications; alice's one stays unread. *)
Lemma notifications_view_reads_all_of_one_user_witness :
  exists w',
    notifications_view (post_request bob (lit "/notifications/") ∅) tt
      forum_with_notes
    = (Ok (redirect "notifications" []), w') /\
    unread_count 2 w' = 0%nat /\ unread_count 1 w' = 1%nat.
Proof.
  destruct (notifications_view_reads_all_of_one_user forum_with_notes bob
              (post_request bob (lit "/notifications/") ∅))
    as (w' & Hrun & Hnone & Hothers & _); [reflexivity | reflexivity |].
  exists w'. split; [exact Hrun|]. split; [exact Hnone|].
  rewrite (Hothers 1) by discriminate. reflexivity.
Defined.

Lemma filter_by_pk (u : Z) (ns : list Notification) (n : Notification) :
  NoDup (notification_pk <$> ns) -> n ∈ ns ->
  filter (fun x => notification_pk x = notification_pk n /\ recipient x = u) ns
  = if bool_decide (recipient n = u) then [n] else [].
Proof.
  intros Hnodup Hin. induction ns as [|x ns IH]; [by apply elem_of_nil in Hin|].
  rewrite fmap_cons in Hnodup. apply NoDup_cons in Hnodup as [Hx Hnodup].
  assert (Hrest : forall y, y ∈ ns -> notification_pk y = notification_pk x ->
                            False).
  { intros y Hy Heq. apply Hx. rewrite <- Heq. by apply list_elem_of_fmap_2. }
  apply elem_of_cons in Hin as [->|Hin].
  - assert (filter (fun y => notification_pk y = notification_pk x
                             /\ recipient y = u) ns = []) as Hnone.
    { destruct (filter _ ns) as [|y ?] eqn:Hf; [done|].
      assert (y ∈ filter (fun y => notification_pk y = notification_pk x
                                   /\ recipient y = u) ns) as Hy
        by (rewrite Hf; by left).
      apply list_elem_of_filter in Hy as [[Heq _] Hy].
      by destruct (Hrest y). }
    rewrite filter_cons, Hnone. case_bool_decide.
    + by rewrite decide_True.
    + by rewrite decide_False by (intros [_ ?]; done).
  - rewrite filter_cons_False.
    + by apply IH.
    + intros [Heq _]. by apply (Hrest n).
Qed.

Lemma unread_after_save (v : Z) (ns : list Notification) (n : Notification) :
  NoDup (notification_pk <$> ns) -> n ∈ ns ->
  length (filter (fun x => recipient x = v /\ is_read x = false)
            ((fun x => if bool_decide (notification_pk x = notification_pk n)
                       then set_is_read n else x) <$> ns))
  = (length (filter (fun x => recipient x = v /\ is_read x = false) ns)
     - if bool_decide (recipient n = v /\ is_read n = false) then 1 else 0)%nat.
Proof.
  intros Hnodup Hin. induction ns as [|x ns IH]; [by apply elem_of_nil in Hin|].
  rewrite fmap_cons in Hnodup. apply NoDup_cons in Hnodup as [Hx Hnodup].
  assert (Hrest : forall y, y ∈ ns -> notification_pk y <> notification_pk x).
  { intros y Hy Heq. apply Hx. rewrite <- Heq. by apply list_elem_of_fmap_2. }
  rewrite fmap_cons, !filter_cons.
  apply elem_of_cons in Hin as [->|Hin].
  - rewrite bool_decide_eq_true_2 by done.
    rewrite (decide_False (P := recipient (set_is_read x) = v /\ _))
      by (simpl; intros [_ ?]; done).
    replace ((fun y => if bool_decide (notification_pk y = notification_pk x)
                       then set_is_read x else y) <$> ns) with ns.
    2:{ symmetry. rewrite <- (list_fmap_id ns) at 2. apply list_fmap_ext.
        intros i y Hy. simpl. rewrite bool_decide_eq_false_2; [done|].
        apply Hrest. by apply list_elem_of_lookup_2 in Hy. }
    case_bool_decide.
    + rewrite decide_True by done. simpl. lia.
    + rewrite decide_False by done. lia.
  - rewrite bool_decide_eq_false_2 by (intros Heq; by apply (Hrest n)).
    destruct (decide (recipient x = v /\ is_read x = false)); simpl;
      rewrite (IH Hnodup Hin); [|done].
    assert (0 < length (filter (fun y => recipient y = v /\ is_read y = false)
                          ns) \/
            bool_decide (recipient n = v /\ is_read n = false) = false)%nat
      as [Hpos|Hno].
    { case_bool_decide as Hn; [left|by right].
      assert (n ∈ filter (fun y => recipient y = v /\ is_read y = false) ns)
        as Hnf by by apply list_elem_of_filter.
      destruct (filter _ ns); [by apply elem_of_nil in Hnf|simpl; lia]. }
    + destruct (bool_decide (recipient n = v /\ is_read n = false)); lia.
    + rewrite Hno. lia.
Qed.

(** A notification is marked as read by its recipient only: for anybody
    else the view answers 404 and changes nothing. The recipient marks it
    with a request of any method, and has one unread notification less if
    it was unread; the count of the other users stays. *)
Theorem mark_notification_read_is_for_the_recipient (w : World) (u : User)
  (request : Request) (pk : Z) (n : Notification) :
  user request = Some u ->
  NoDup (notification_pk <$> notifications w) ->
  n ∈ notifications w ->
  notification_pk n = pk ->
  (recipient n <> user_pk u ->
   mark_notification_read request pk w = (Raise Http404, w)) /\
  (recipient n = user_pk u ->
   exists r w',
     mark_notification_read request pk w = (Ok r, w') /\
     set_is_read n ∈ notifications w' /\
     unread_count (user_pk u) w'
     = (unread_count (user_pk u) w - if is_read n then 0 else 1)%nat /\
     forall v, v <> user_pk u -> unread_count v w' = unread_count v w).
Proof.
  intros Hu Hnodup Hin Hpk. subst pk.
  unfold mark_notification_read, get_Notification_or_404,
    Notification_objects_get, Notification_save. rewrite Hu. run.
  rewrite (filter_by_pk (user_pk u) _ n Hnodup Hin). split.
  - intros Hne. by rewrite bool_decide_eq_false_2.
  - intros Heq. rewrite bool_decide_eq_true_2 by done. simpl.
    assert (Hafter : forall w',
      notifications w'
      = (fun x => if bool_decide (notification_pk x = notification_pk n)
                  then set_is_read n else x) <$> notifications w ->
      set_is_read n ∈ notifications w' /\
      unread_count (user_pk u) w'
      = (unread_count (user_pk u) w - if is_read n then 0 else 1)%nat /\
      forall v, v <> user_pk u -> unread_count v w' = unread_count v w).
    { intros w' Hw'. unfold unread_count. rewrite Hw'. split; [|split].
      - apply list_elem_of_fmap. exists n. by rewrite bool_decide_eq_true_2.
      - rewrite (unread_after_save _ _ n) by done.
        destruct (is_read n) eqn:Hread.
        + by rewrite bool_decide_eq_false_2 by (intros [_ ?]; done).
        + by rewrite bool_decide_eq_true_2.
      - intros v Hv. rewrite (unread_after_save _ _ n) by done.
        rewrite bool_decide_eq_false_2 by (intros [? _]; congruence). lia. }
    destruct (bool_decide (x_requested_with request = _)); simpl;
      eexists _, _; (split; [reflexivity|]); by apply Hafter.
Qed.

(** Alice asks to mark bob's notification as read. *)
Lemma mark_notification_read_is_for_the_recipient_witness :
  mark_notification_read
    (get_request (Some alice) (lit "/notification/30/read/")) 30
    forum_with_notes
  = (Raise Http404, forum_with_notes).
Proof.
  destruct (mark_notification_read_is_for_the_recipient forum_with_notes
              alice
              (get_request (Some alice) (lit "/notification/30/read/"))
              30 note30) as [Hother _];
    [reflexivity | apply (bool_decide_unpack _); vm_compute; exact I
    | by left | reflexivity |].
  apply Hother. discriminate.
Defined.

(** The consumer of the socket and the view store the same: for a
    logged-in user and the same identifier they leave the same tables,
    and the consumer answers [True] exactly when the view does not
    raise. *)
Theorem consumer_marks_as_the_view_does (w : World) (u : User)
  (request : Request) (pk : Z) :
  user request = Some u ->
  notifications
    (snd (NotificationConsumer_mark_notification_read u (Some pk) w))
  = notifications (snd (mark_notification_read request pk w)) /\
  (fst (NotificationConsumer_mark_notification_read u (Some pk) w) = Ok true
   <-> exists r, fst (mark_notification_read request pk w) = Ok r) /\
  (fst (NotificationConsumer_mark_notification_read u (Some pk) w) = Ok false
   <-> fst (mark_notification_read request pk w) = Raise Http404).
Proof.
  intros Hu.
  unfold NotificationConsumer_mark_notification_read, mark_notification_read,
    get_Notification_or_404, Notification_objects_get, Notification_save.
  rewrite Hu. run.
  destruct (filter _ (notifications w)) as [|n [|]]; simpl.
  - split; [done|]. split; [|done]. split; [done|]. by intros [r Hr].
  - destruct (bool_decide (x_requested_with request = _)); simpl;
      (split; [done|]); (split; [split; [by eexists|done]|done]).
  - split; [done|]. split; [|done]. split; [done|]. by intros [r Hr].
Qed.

(** Bob marks his notification through the socket and through the
    view. *)
Lemma consumer_marks_as_the_view_does_witness :
  notifications
    (snd (NotificationConsumer_mark_notification_read bob (Some 30)
            forum_with_notes))
  = notifications
      (snd (mark_notification_read
              (get_request (Some bob) (lit "/notification/30/read/")) 30
              forum_with_notes)).
Proof.
  apply (proj1 (consumer_marks_as_the_view_does forum_with_notes bob
                  (get_request (Some bob) (lit "/notification/30/read/")) 30
                  eq_refl)).
Defined.

(** *** Relative times *)

(** What [get_time_ago] shows for a time that has passed: "just now" up
    to and including the sixty-first second, whole minutes from there up
    to and including the second after the hour (so up to 60 minutes),
    whole hours from there to the end of the day, whole days after
    that. *)
Theorem get_time_ago_thresholds (created_at now : Z) :
  created_at <= now ->
  let elapsed := now - created_at in
  (elapsed < timedelta_seconds 61 ->
   get_time_ago created_at now = just_now) /\
  (timedelta_seconds 61 <= elapsed < timedelta_seconds 3601 ->
   get_time_ago created_at now
   = str (elapsed / timedelta_minutes 1) ++ minutes_ago) /\
  (timedelta_seconds 3601 <= elapsed < timedelta_days 1 ->
   get_time_ago created_at now
   = str (elapsed / timedelta_minutes 60) ++ hours_ago) /\
  (timedelta_days 1 <= elapsed ->
   get_time_ago created_at now
   = str (elapsed / timedelta_days 1) ++ days_ago).
Proof.
  intros Hle elapsed.
  assert (0 <= elapsed) as Hpos by (unfold elapsed; lia).
  unfold get_time_ago, timedelta_days_of, timedelta_seconds_of,
    timedelta_seconds, timedelta_minutes, timedelta_days.
  fold elapsed. generalize dependent elapsed. clear. intros d Hd.
  change (1 * 86400 * 1000000) with 86400000000.
  change (61 * 1000000) with 61000000.
  change (3601 * 1000000) with 3601000000.
  change (1 * 60 * 1000000) with 60000000.
  change (60 * 60 * 1000000) with 3600000000.
  repeat split.
  - intros Hlt.
    rewrite (Z.div_small d) by lia. rewrite (Z.mod_small d) by lia.
    assert (d / 1000000 <= 60) by (apply Z.lt_succ_r, Z.div_lt_upper_bound; lia).
    replace (0 <? 0) with false by done.
    replace (3600 <? d / 1000000) with false by (symmetry; apply Z.ltb_ge; lia).
    by replace (60 <? d / 1000000) with false by (symmetry; apply Z.ltb_ge; lia).
  - intros [Hlo Hhi].
    rewrite (Z.div_small d) by lia. rewrite (Z.mod_small d) by lia.
    assert (61 <= d / 1000000) by (apply Z.div_le_lower_bound; lia).
    assert (d / 1000000 <= 3600)
      by (apply Z.lt_succ_r, Z.div_lt_upper_bound; lia).
    replace (0 <? 0) with false by done.
    replace (3600 <? d / 1000000) with false by (symmetry; apply Z.ltb_ge; lia).
    replace (60 <? d / 1000000) with true by (symmetry; apply Z.ltb_lt; lia).
    by rewrite Z.div_div by lia.
  - intros [Hlo Hhi].
    rewrite (Z.div_small d) by lia. rewrite (Z.mod_small d) by lia.
    assert (3601 <= d / 1000000) by (apply Z.div_le_lower_bound; lia).
    replace (0 <? 0) with false by done.
    replace (3600 <? d / 1000000) with true by (symmetry; apply Z.ltb_lt; lia).
    by rewrite Z.div_div by lia.
  - intros Hlo.
    assert (1 <= d / 86400000000) by (apply Z.div_le_lower_bound; lia).
    by replace (0 <? d / 86400000000) with true
      by (symmetry; apply Z.ltb_lt; lia).
Qed.

(** A notification that is exactly one hour old. *)
Lemma get_time_ago_thresholds_witness :
  get_time_ago 0 (timedelta_minutes 60) = lit "60" ++ minutes_ago.
Proof.
  destruct (get_time_ago_thresholds 0 (timedelta_minutes 60))
    as (_ & Hminutes & _); [by vm_compute|].
  apply Hminutes. by vm_compute.
Defined.

(** Whatever the two times, [get_time_ago] never shows a zero: the
    number of days, hours or minutes it names is at least one, the hours
    are at most 23 and the minutes at most 60. *)
Theorem get_time_ago_never_shows_zero (created_at now : Z) :
  get_time_ago created_at now = just_now \/
  exists n, 1 <= n /\
    (get_time_ago created_at now = str n ++ days_ago \/
     n <= 23 /\ get_time_ago created_at now = str n ++ hours_ago \/
     n <= 60 /\ get_time_ago created_at now = str n ++ minutes_ago).
Proof.
  unfold get_time_ago, timedelta_days_of, timedelta_seconds_of.
  set (d := now - created_at).
  pose proof (Z.mod_pos_bound d 86400000000 eq_refl) as [Hlo Hhi].
  assert (0 <= d mod 86400000000 / 1000000 <= 86399) as [Hslo Hshi].
  { split; [apply Z.div_pos; lia|].
    apply Z.lt_succ_r, Z.div_lt_upper_bound; lia. }
  destruct (0 <? d / 86400000000) eqn:Hdays.
  { right. exists (d / 86400000000). apply Z.ltb_lt in Hdays.
    split; [lia|by left]. }
  destruct (3600 <? d mod 86400000000 / 1000000) eqn:Hhours.
  { right. exists (d mod 86400000000 / 1000000 / 3600).
    apply Z.ltb_lt in Hhours.
    split; [apply Z.div_le_lower_bound; lia|]. right. left.
    split; [|done]. apply Z.lt_succ_r, Z.div_lt_upper_bound; lia. }
  destruct (60 <? d mod 86400000000 / 1000000) eqn:Hminutes; [|by left].
  right. exists (d mod 86400000000 / 1000000 / 60).
  apply Z.ltb_lt in Hminutes. apply Z.ltb_ge in Hhours.
  split; [apply Z.div_le_lower_bound; lia|]. right. right.
  split; [|done]. apply Z.lt_succ_r, Z.div_lt_upper_bound; lia.
Qed.

(** A time that is still to come, by a day less an hour and a second at
    most, is shown as a number of hours ago: the hours that are left of a
    day once the time ahead is taken off. *)
Theorem get_time_ago_of_a_time_to_come (created_at now : Z) :
  now < created_at ->
  created_at - now <= timedelta_seconds 82799 ->
  get_time_ago created_at now
  = str ((timedelta_days 1 - (created_at - now)) / timedelta_minutes 60)
    ++ hours_ago.
Proof.
  unfold get_time_ago, timedelta_days_of, timedelta_seconds_of,
    timedelta_seconds, timedelta_minutes, timedelta_days.
  change (1 * 86400 * 1000000) with 86400000000.
  change (82799 * 1000000) with 82799000000.
  change (60 * 60 * 1000000) with 3600000000.
  intros Hfuture Hnear.
  set (e := created_at - now). assert (0 < e <= 82799000000) by (unfold e; lia).
  replace (now - created_at) with (- e) by (unfold e; lia).
  assert (- e / 86400000000 = -1) as ->.
  { symmetry. apply (Z.div_unique _ _ _ (86400000000 - e)); lia. }
  assert (- e mod 86400000000 = 86400000000 - e) as ->.
  { symmetry. apply (Z.mod_unique _ _ (-1)); lia. }
  replace (0 <? -1) with false by done.
  assert (3601 <= (86400000000 - e) / 1000000)
    by (apply Z.div_le_lower_bound; lia).
  replace (3600 <? (86400000000 - e) / 1000000) with true
    by (symmetry; apply Z.ltb_lt; lia).
  by rewrite Z.div_div by lia.
Qed.

(** A notification stamped one second ahead of the clock. *)
Lemma get_time_ago_of_a_time_to_come_witness :
  get_time_ago (timedelta_seconds 1) 0 = lit "23" ++ hours_ago.
Proof.
  apply (get_time_ago_of_a_time_to_come (timedelta_seconds 1) 0);
    by vm_compute.
Defined.

(** *** Counting the comments of a post *)

Lemma size_filter_split {A} (P Q : Z * A -> Prop)
  `{!forall x, Decision (P x)} `{!forall x, Decision (Q x)} (m : gmap Z A) :
  size (filter P m)
  = (size (filter (fun x => P x /\ Q x) m)
     + size (filter (fun x => P x /\ ~ Q x) m))%nat.
Proof.
  rewrite <- (map_filter_union_complement Q (filter P m)) at 1.
  rewrite map_size_disj_union by apply map_disjoint_filter_complement.
  rewrite !map_filter_filter. f_equal; f_equal; apply map_filter_ext;
    intros k x _; simpl; tauto.
Qed.

(** Where every reply is on the post of the comment it replies to, the
    count of a post's comments holds its replies already, and the total
    adds them a second time: a post with [t] top-level comments and [r]
    replies has [t + r] comments and a total of [t + 2 r], and is
    trending once it has more than ten likes or [t + 2 r] exceeds
    five. *)
Theorem Post_get_total_comment_count_counts_replies_twice (p : Post)
  (w : World) :
  replies_stay_on_the_post w ->
  Post_get_comment_count p w
  = (top_level_on (post_pk p) w + replies_on (post_pk p) w)%nat /\
  Post_get_reply_count p w = replies_on (post_pk p) w /\
  Post_get_total_comment_count p w
  = (top_level_on (post_pk p) w + 2 * replies_on (post_pk p) w)%nat /\
  (Post_is_trending p w = true <->
   (10 < get_likes_count (post_pk p) w
    \/ 5 < top_level_on (post_pk p) w + 2 * replies_on (post_pk p) w)%nat).
Proof.
  intros Hstay.
  assert (Post_get_comment_count p w
          = (top_level_on (post_pk p) w + replies_on (post_pk p) w)%nat)
    as Hcount.
  { unfold Post_get_comment_count, top_level_on, replies_on.
    rewrite (size_filter_split _ (fun kc => comment_parent kc.2 = None)).
    done. }
  assert (Post_get_reply_count p w = replies_on (post_pk p) w) as Hreplies.
  { unfold Post_get_reply_count, replies_on. f_equal.
    apply map_filter_ext. intros k c Hc. simpl. unfold parent_post_is.
    destruct (comment_parent c) as [q|] eqn:Hq.
    - destruct (Hstay k c q Hc Hq) as (parent & -> & Hpost).
      rewrite bool_decide_eq_true, Hpost. split; [done|by intros [? _]].
    - split; [done|]. by intros [_ ?]. }
  assert (Post_get_total_comment_count p w
          = (top_level_on (post_pk p) w + 2 * replies_on (post_pk p) w)%nat)
    as Htotal.
  { unfold Post_get_total_comment_count. rewrite Hcount, Hreplies. lia. }
  split; [done|]. split; [done|]. split; [done|].
  unfold Post_is_trending. rewrite Htotal, orb_true_iff, !Nat.ltb_lt. done.
Qed.

(** Alice's post with bob's comment and her reply to it: two comments,
    a total of three. *)
Lemma Post_get_total_comment_count_counts_replies_twice_witness :
  Post_get_comment_count post10 forum_with_reply = 2%nat /\
  Post_get_total_comment_count post10 forum_with_reply = 3%nat.
Proof.
  destruct (Post_get_total_comment_count_counts_replies_twice post10
              forum_with_reply) as (Hcount & _ & Htotal & _).
  - intros k c q Hk Hq.
    destruct (decide (k = 21)) as [->|Hne].
    + vm_compute in Hk. injection Hk as <-. injection Hq as <-.
      exists comment20. split; reflexivity.
    + exfalso. revert Hk. unfold forum_with_reply. simpl.
      rewrite lookup_insert_ne by done.
      destruct (decide (k = 20)) as [->|Hne'].
      * vm_compute. intros [= <-]. discriminate.
      * rewrite lookup_singleton_ne by done. discriminate.
  - rewrite Hcount, Htotal. split; reflexivity.
Defined.

(** *** Checking the content of an upload *)

Section UploadFacts.

Import Byte Upload.

Lemma startswith_spec (s p : bytes) :
  startswith s p = true <-> exists rest, s = p ++ rest.
Proof.
  revert s. induction p as [|c p IH]; intros s; simpl.
  - split; [by exists s|done].
  - destruct s as [|d s]; [split; [done|by intros [? ?]]|].
    rewrite andb_true_iff, IH. split.
    + intros [Hc [rest ->]].
      apply Byte.byte_dec_bl in Hc as ->. by exists rest.
    + intros [rest [= -> ->]].
      split; [apply Byte.byte_dec_lb; done|by exists rest].
Qed.

Lemma startswith_take (n : nat) (s p : bytes) :
  (length p <= n)%nat -> startswith (take n s) p = startswith s p.
Proof.
  revert n s. induction p as [|c p IH]; intros n s Hn; simpl; [done|].
  simpl in Hn. destruct n as [|n]; [lia|].
  destruct s as [|d s]; simpl; [done|]. by rewrite IH by lia.
Qed.

(** [validate_file_content] accepts exactly the files that can be read
    and begin with the magic number of a JPEG, PNG, GIF, PDF or ZIP file.
    A WebP image is among the files it rejects: the test for it compares
    bytes 8 to 12 of a header of 8 bytes. And whatever the reason of a
    rejection, the message is the one of a file that cannot be read. *)
Theorem validate_file_content_accepts_iff (file : option bytes) :
  (validate_file_content file = None <->
   exists content,
     file = Some content /\
     exists magic rest,
       magic ∈ [JPEG; PNG; GIF87a; GIF89a; PDF; PK] /\
       content = magic ++ rest) /\
  (forall rest, validate_file_content (Some (RIFF ++ rest)) <> None) /\
  (validate_file_content file = None \/
   validate_file_content file = Some (ValidationError msg_unreadable)).
Proof.
  split; [|split].
  - unfold validate_file_content, validate_file_content_body.
    destruct file as [content|]; [|split; [done|by intros (? & ? & _)]].
    assert (slice 8 12 (take 8 content) = []) as ->.
    { unfold slice. apply nil_length_inv. rewrite length_take, length_drop,
        length_take. lia. }
    rewrite !startswith_take by (simpl; lia).
    rewrite bool_decide_eq_false_2, andb_false_r by done.
    split.
    + intros Hok. exists content. split; [done|].
      destruct (startswith content JPEG) eqn:H1.
      { apply startswith_spec in H1 as [rest ->]. exists JPEG, rest.
        split; [|done]. set_solver. }
      destruct (startswith content PNG) eqn:H2.
      { apply startswith_spec in H2 as [rest ->]. exists PNG, rest.
        split; [|done]. set_solver. }
      destruct (startswith content GIF87a) eqn:H3.
      { apply startswith_spec in H3 as [rest ->]. exists GIF87a, rest.
        split; [|done]. set_solver. }
      destruct (startswith content GIF89a) eqn:H4.
      { apply startswith_spec in H4 as [rest ->]. exists GIF89a, rest.
        split; [|done]. set_solver. }
      destruct (startswith content PDF) eqn:H5.
      { apply startswith_spec in H5 as [rest ->]. exists PDF, rest.
        split; [|done]. set_solver. }
      destruct (startswith content PK) eqn:H6; [|done].
      apply startswith_spec in H6 as [rest ->]. exists PK, rest.
      split; [|done]. set_solver.
    + intros (? & [= <-] & magic & rest & Hin & ->).
      assert (startswith (magic ++ rest) magic = true) as Hm
        by (apply startswith_spec; by exists rest).
      rewrite !elem_of_cons, elem_of_nil in Hin.
      destruct Hin as [->|[->|[->|[->|[->|[->|[]]]]]]]; rewrite Hm;
        repeat (done || case_match || rewrite ?orb_true_r).
  - intros rest. unfold validate_file_content, validate_file_content_body.
    assert (slice 8 12 (take 8 (RIFF ++ rest)) = []) as ->.
    { unfold slice. apply nil_length_inv. rewrite length_take, length_drop,
        length_take. lia. }
    rewrite !startswith_take by (simpl; lia). done.
  - unfold validate_file_content.
    destruct (validate_file_content_body file); [by right|by left].
Qed.

End UploadFacts.

(** *** The rate limit *)

Section RateLimit.

Variable key : text.
Variable limit : nat.
Variable window : Z.

Lemma cache_reflects_later (cache : gmap text Entry) (history : list Z)
  (t0 t1 : Z) :
  t0 <= t1 -> cache_reflects key window cache history t0 ->
  cache_reflects key window cache history t1.
Proof.
  intros Hle [Hpast Hagree]. split.
  - eapply Forall_impl; [exact Hpast|]. simpl. lia.
  - intros now Hnow. apply Hagree. lia.
Qed.

Lemma filter_filter_window (now t : Z) (l : list Z) :
  t <= now ->
  filter (fun x => now - window < x) (filter (fun x => t - window < x) l)
  = filter (fun x => now - window < x) l.
Proof.
  intros Hle. induction l as [|x l IH]; [done|].
  rewrite !filter_cons. repeat case_decide; simpl;
    rewrite ?filter_cons; repeat case_decide; try lia; by rewrite IH.
Qed.

Lemma check_rate_limit_step (k : text) (t t0 : Z)
  (cache : gmap text Entry) (history : list Z) :
  t0 <= t ->
  cache_reflects key window cache history t0 ->
  within_limit limit window history ->
  let r := check_rate_limit k limit window t cache in
  let history' := if r.1 && bool_decide (k = key) then history ++ [t]
                  else history in
  cache_reflects key window r.2 history' t /\
  within_limit limit window history'.
Proof.
  intros Hle Hinv Hwithin. apply (cache_reflects_later _ _ _ _ Hle) in Hinv.
  destruct Hinv as [Hpast Hagree].
  unfold check_rate_limit.
  destruct (limit <=? length (filter _ (limiter_cache_get cache k t)))%nat
    eqn:Hfull; simpl.
  { split; [by split|done]. }
  apply Nat.leb_gt in Hfull.
  destruct (decide (k = key)) as [->|Hne].
  - rewrite bool_decide_eq_true_2 by done.
    rewrite (Hagree t) in * by lia.
    split; [split|].
    + apply Forall_app. split; [done|]. apply Forall_singleton. lia.
    + intros now Hnow. unfold limiter_cache_get, limiter_cache_set.
      rewrite lookup_insert_eq. simpl.
      destruct (t + window <=? now) eqn:Hexp.
      * apply Z.leb_le in Hexp. rewrite filter_nil. symmetry.
        rewrite filter_app, filter_cons_False, filter_nil, app_nil_r by lia.
        destruct (filter (fun x => now - window < x) history) as [|x ?]
          eqn:Hf; [done|].
        assert (x ∈ filter (fun x => now - window < x) history) as Hx
          by (rewrite Hf; by left).
        apply list_elem_of_filter in Hx as [Hx Hin].
        apply (proj1 (Forall_forall _ _) Hpast) in Hin. lia.
      * rewrite !filter_app. by rewrite filter_filter_window.
    + intros t'. rewrite filter_app, length_app.
      destruct (decide (t' - window < t /\ t <= t')) as [Ht|Ht].
      * rewrite filter_cons_True by done. simpl.
        assert (length (filter (fun x => (t' - window < x /\ x <= t')%Z)
                          history)
                <= length (filter (fun x => (t - window < x)%Z) history))%nat.
        { clear -Ht. induction history as [|x l IH]; [done|].
          rewrite !filter_cons. repeat case_decide; simpl; lia. }
        lia.
      * rewrite filter_cons_False by done. simpl.
        specialize (Hwithin t'). lia.
  - rewrite bool_decide_eq_false_2 by done. split; [split|]; try done.
    intros now Hnow. unfold limiter_cache_get, limiter_cache_set.
    rewrite lookup_insert_ne by done. apply Hagree. lia.
Qed.

Lemma limiter_cache_get_cull (cache : gmap text Entry) (keys : gset text)
  (now : Z) :
  key ∉ keys ->
  limiter_cache_get (limiter_cache_cull cache keys) key now
  = limiter_cache_get cache key now.
Proof.
  intros Hkept. unfold limiter_cache_get, limiter_cache_cull.
  destruct (cache !! key) as [e|] eqn:He.
  - by rewrite (map_lookup_filter_Some_2 _ _ key e).
  - by rewrite map_lookup_filter_None_2 by by left.
Qed.

Lemma let_through_within_limit (trace : list Event) (t0 : Z)
  (cache : gmap text Entry) (history : list Z) :
  clock_ordered t0 trace ->
  keeps_entry key trace ->
  cache_reflects key window cache history t0 ->
  within_limit limit window history ->
  within_limit limit window
    (history ++ let_through key limit window trace cache).
Proof.
  revert t0 cache history.
  induction trace as [|[k t|keys] trace IH]; intros t0 cache history Hsorted
    Hkept Hinv Hwithin; simpl.
  - by rewrite app_nil_r.
  - destruct Hsorted as [Hhd Hsorted].
    destruct (check_rate_limit_step k t t0 cache history Hhd Hinv Hwithin)
      as [Hinv' Hwithin'].
    destruct (_ && _).
    + rewrite (cons_middle t), app_assoc. by apply (IH t).
    + by apply (IH t).
  - destruct Hkept as [Hout Hkept]. apply (IH t0); try done.
    destruct Hinv as [Hpast Hagree]. split; [done|].
    intros now Hnow. rewrite limiter_cache_get_cull by done.
    by apply Hagree.
Qed.

End RateLimit.

(** Of the calls that carry one key, in a sequence of calls that the
    clock orders, [check_rate_limit] lets through no more than [limit] in
    any span of [window] seconds, whatever calls for other keys come in
    between and whatever entries of other keys the cache drops, provided
    that the cache does not drop the entry of the key itself before its
    timeout. *)
Theorem check_rate_limit_bounds_every_window (key : text) (limit : nat)
  (window : Z) (trace : list Event) (t0 t : Z) :
  clock_ordered t0 trace ->
  keeps_entry key trace ->
  (length (filter (fun x => (t - window < x /\ x <= t)%Z)
             (let_through key limit window trace ∅)) <= limit)%nat.
Proof.
  intros Hsorted Hkept.
  apply (let_through_within_limit key limit window trace t0 ∅ []).
  - done.
  - done.
  - split; [done|]. intros now _. done.
  - intros t'. simpl. lia.
Qed.

(** With a limit of two in sixty seconds the third call of the burst is
    held back and the fourth is let through. *)
Lemma check_rate_limit_bounds_every_window_witness :
  let_through (lit "k") 2 60 burst ∅ = [0; 1; 61] /\
  (length (filter (fun x => (61 - 60 < x /\ x <= 61)%Z)
             (let_through (lit "k") 2 60 burst ∅)) <= 2)%nat.
Proof.
  split; [by vm_compute|].
  apply (check_rate_limit_bounds_every_window (lit "k") 2 60 burst 0 61).
  - simpl. lia.
  - simpl. split; [|done].
    intros Hin. apply elem_of_singleton in Hin. discriminate Hin.
Defined.

(** Once the cache drops the entry of the key, the limit of two does not
    hold back the third call within three seconds. *)
Example dropped_entry_lifts_the_limit :
  let_through (lit "k") 2 60 burst_culled ∅ = [0; 1; 2].
Proof. by vm_compute. Qed.

Lemma rate_limit_key_inj (m m' : Meta) (u : option User) :
  rate_limit_key m u = rate_limit_key m' u ->
  default (lit "None") (get_client_ip m)
  = default (lit "None") (get_client_ip m').
Proof.
  unfold rate_limit_key. intros H.
  apply app_inv_head in H. rewrite !app_assoc in H.
  apply app_inv_tail in H. by apply app_inv_tail in H.
Qed.

Lemma decisions_fresh_keys (requests : list (Meta * Z)) (u : option User)
  (cache : gmap text Entry) :
  (forall r, r ∈ requests -> cache !! rate_limit_key r.1 u = None) ->
  NoDup ((fun r => default (lit "None") (get_client_ip r.1)) <$> requests) ->
  Forall (fun b => b = true)
    (decisions ((fun r => ("POST"%string, r.1, u, r.2)) <$> requests) cache).
Proof.
  revert cache. induction requests as [|[m t] requests IH];
    intros cache Hfresh Hnodup.
  - constructor.
  - rewrite fmap_cons in Hnodup. apply NoDup_cons in Hnodup as [Hm Hnodup].
    pose proof (Hfresh (m, t) ltac:(by left)) as Hnone.
    rewrite fmap_cons. cbn [decisions fst snd] in *.
    unfold RateLimitMiddleware_call, check_rate_limit, limiter_cache_get.
    rewrite bool_decide_eq_true_2 by done. rewrite Hnone. cbn [fst snd].
    rewrite filter_nil. cbn [length Nat.leb fst snd].
    constructor; [done|]. apply IH; [|done].
    intros r Hr. unfold limiter_cache_set. rewrite lookup_insert_ne.
    + apply Hfresh. by right.
    + intros Heq. apply rate_limit_key_inj in Heq. apply Hm.
      simpl in Heq. rewrite Heq.
      by apply (list_elem_of_fmap_2
                  (fun r => default (lit "None") (get_client_ip r.1))).
Qed.

(** The limit is kept per key, and the key is made of what the client
    sends: a client whose every request names another first address in
    [X-Forwarded-For] is never held back, however many requests it posts
    and however fast. *)
Theorem forwarded_for_evades_the_limit (requests : list (Meta * Z))
  (u : option User) :
  Forall (fun r => exists x, HTTP_X_FORWARDED_FOR r.1 = Some x /\ x <> [])
    requests ->
  NoDup ((fun r => from_option before_comma [] (HTTP_X_FORWARDED_FOR r.1))
         <$> requests) ->
  Forall (fun b => b = true)
    (decisions ((fun r => ("POST"%string, r.1, u, r.2)) <$> requests) ∅).
Proof.
  intros Hsent Hnodup. apply decisions_fresh_keys; [done|].
  replace ((fun r : Meta * Z => default (lit "None") (get_client_ip r.1))
           <$> requests)
    with ((fun r : Meta * Z =>
             from_option before_comma [] (HTTP_X_FORWARDED_FOR r.1))
          <$> requests); [done|].
  apply Forall_fmap_ext_1. eapply Forall_impl; [exact Hsent|].
  intros [m t] (x & Hx & Hne). simpl in *. unfold get_client_ip.
  rewrite Hx. simpl. apply truthy_nonempty in Hne. by rewrite Hne.
Qed.

(** Twelve requests of bob in one second, from one address: with the
    same [X-Forwarded-For] the eleventh and the twelfth are held back. *)
Example decisions_of_twelve_requests :
  decisions (replicate 12 ("POST"%string, forwarded_for "10.0.0.1",
                           Some bob, 0)) ∅
  = replicate 10 true ++ [false; false].
Proof. by vm_compute. Qed.

(** Three requests in one second that name three addresses. *)
Lemma forwarded_for_evades_the_limit_witness :
  Forall (fun b => b = true)
    (decisions
       ((fun r : Meta * Z => ("POST"%string, r.1, Some bob, r.2))
        <$> [(forwarded_for "10.0.0.1", 0); (forwarded_for "10.0.0.2", 0);
             (forwarded_for "10.0.0.3, 10.0.0.1", 0)]) ∅).
Proof.
  apply (forwarded_for_evades_the_limit
           [(forwarded_for "10.0.0.1", 0); (forwarded_for "10.0.0.2", 0);
            (forwarded_for "10.0.0.3, 10.0.0.1", 0)] (Some bob)).
  - repeat constructor; by eexists.
  - apply (bool_decide_unpack _). by vm_compute.
Defined.
